(** * pyce: a shallow embedding of [src/main.py]

    The development follows the source file top-down.
    - [Py], [Base64], [Utf8], [Path], [Os]: the fragments of the Python
      runtime and of the operating system that the program relies on
      ([str.split], [str.replace], [str.strip], [int], [range],
      [base64], [os.path], [glob], files, console, clock, network).
    - [encode_data], [decode_data], [IndexFilter], [IceReport], [main]:
      the program itself.  [IceReport] is written in a state and
      exception monad over an explicit world: file system, session
      cookie, result cache, the replies the server will give, the lines
      waiting on the console, the faults of the disk, and the trace of
      what happened.
    - Then the vocabulary of the statements, and the statements.

    Conventions.  A Python [str] is represented by the bytes of its
    UTF-8 encoding (a Rocq [string]); the characters the program looks
    for (comma, hyphen, space, [=], [/], digits) are ASCII, so working
    on bytes is working on characters.  [int] and [strip] work on the
    characters ([Py.chars]) and know the white space and the decimal
    digits of Unicode.  Python integers are [Z].  Paths
    follow [posixpath].  A file is the list of its CSV rows, a row the
    list of the texts of its fields. *)

From Stdlib Require Import ZArith Lia Bool Ascii String List.
From Stdlib Require Import Strings.Byte.
From stdpp Require Import gmap strings list fin_maps pretty.

Local Open Scope Z_scope.

(** ** Exceptions *)

(** The exception classes that the program can raise or let through.
    Only the class (and, for [OSError] and [HTTPError], the error
    number or the status) is recorded.  [KeyboardInterrupt] is the one
    class here that does not derive from [Exception]. *)
Inductive exn : Type :=
| KeyboardInterrupt
| CsvError
| ValueError
| KeyError
| TypeError
| OverflowError
| EOFError
| UnicodeDecodeError
| BinasciiError
| JSONDecodeError
| ConnectionError
| FileNotFoundError
| FileExistsError
| IsADirectoryError
| NotADirectoryError
| OSError (errno : Z)
| HTTPError (status_code : Z).

(** [isinstance(e, Exception)]: what [except Exception] catches. *)
Definition is_exception (e : exn) : bool :=
  match e with
  | KeyboardInterrupt => false
  | _ => true
  end.

(** A pure computation that may raise. *)
Inductive result (A : Type) : Type :=
| Ok (a : A)
| Err (e : exn).
Arguments Ok {A} a.
Arguments Err {A} e.

Definition rbind {A B} (r : result A) (k : A -> result B) : result B :=
  match r with
  | Ok a => k a
  | Err e => Err e
  end.

Definition is_ok {A} (r : result A) : bool :=
  match r with Ok _ => true | Err _ => false end.

(** ** The Python runtime *)

Module Py.

(** [sys.maxsize] on a 64-bit CPython. *)
Definition maxsize : Z := 2 ^ 63 - 1.

(** [sys.int_info.default_max_str_digits]: [int(str)] refuses longer
    decimal literals (CPython 3.11 and later, which [http.HTTPMethod]
    requires anyway). *)
Definition max_str_digits : nat := 4300.

Definition code (c : ascii) : Z := Z.of_N (N_of_ascii c).

(** [c in s] for a one-character [c]. *)
Fixpoint contains (c : ascii) (s : string) : bool :=
  match s with
  | EmptyString => false
  | String x s' => if Ascii.eqb x c then true else contains c s'
  end.

(** [s.split(sep)] for a one-character separator: never returns the
    empty list, [''.split(',') == ['']]. *)
Fixpoint split (sep : ascii) (s : string) : list string :=
  match s with
  | EmptyString => [EmptyString]
  | String x s' =>
      if Ascii.eqb x sep then EmptyString :: split sep s'
      else match split sep s' with
           | h :: t => String x h :: t
           | [] => [String x EmptyString]
           end
  end.

(** [sep.join(parts)]. *)
Fixpoint join (sep : ascii) (parts : list string) : string :=
  match parts with
  | [] => EmptyString
  | [p] => p
  | p :: ps => p +:+ String sep (join sep ps)
  end.

(** [s.replace(c, '')] for a one-character [c]. *)
Fixpoint remove (c : ascii) (s : string) : string :=
  match s with
  | EmptyString => EmptyString
  | String x s' => if Ascii.eqb x c then remove c s' else String x (remove c s')
  end.

(** A byte that continues a UTF-8 sequence. *)
Definition continuation (x : ascii) : bool :=
  (128 <=? code x) && (code x <? 192).

Definition starts_continued (s : string) : bool :=
  match s with
  | String x _ => continuation x
  | EmptyString => false
  end.

(** The characters of a string, each as the bytes of its UTF-8
    sequence: a byte that is not a continuation byte begins a
    character, and the continuation bytes after it belong to it. *)
Fixpoint chars (s : string) : list string :=
  match s with
  | EmptyString => []
  | String x s' =>
      match chars s' with
      | c :: cs =>
          if starts_continued c then String x c :: cs
          else String x EmptyString :: c :: cs
      | [] => [String x EmptyString]
      end
  end.

(** [''.join(parts)] *)
Fixpoint cat (parts : list string) : string :=
  match parts with
  | [] => EmptyString
  | p :: ps => p +:+ cat ps
  end.

(** [ord(c)] of a character: the code point that its UTF-8 sequence
    denotes; -1 for a sequence that is not the encoding of a code
    point (a wrong number of bytes after the first one, a longer form
    than the code point needs). *)
Definition ord (c : string) : Z :=
  match List.map code (list_ascii_of_string c) with
  | [a] => if a <? 128 then a else -1
  | [a; b] =>
      let n := (a - 192) * 64 + (b - 128) in
      if (192 <=? a) && (a <? 224) && (128 <=? n) then n else -1
  | [a; b; c] =>
      let n := (a - 224) * 4096 + (b - 128) * 64 + (c - 128) in
      if (224 <=? a) && (a <? 240) && (2048 <=? n) then n else -1
  | [a; b; c; d] =>
      let n := (a - 240) * 262144 + (b - 128) * 4096 + (c - 128) * 64 + (d - 128) in
      if (240 <=? a) && (a <? 248) && (65536 <=? n) && (n <? 1114112) then n else -1
  | _ => -1
  end.

(** White space as [str.strip()] and [str.isspace()] see it
    ([Py_UNICODE_ISSPACE]): TAB, LF, VT, FF, CR, FS, GS, RS, US, space,
    U+0085, U+00A0, U+1680, U+2000 to U+200A, U+2028, U+2029, U+202F,
    U+205F and U+3000. *)
Definition isspace (c : string) : bool :=
  let n := ord c in
  ((9 <=? n) && (n <=? 13)) || ((28 <=? n) && (n <=? 32))
  || (n =? 133) || (n =? 160) || (n =? 5760)
  || ((8192 <=? n) && (n <=? 8202))
  || (n =? 8232) || (n =? 8233) || (n =? 8239) || (n =? 8287) || (n =? 12288).

(** White space as [int()] skips it once the string is ASCII
    ([Py_ISSPACE]): TAB, LF, VT, FF, CR and space. *)
Definition c_isspace (c : ascii) : bool :=
  let n := code c in
  ((9 <=? n) && (n <=? 13)) || (n =? 32).

Fixpoint lstrip_by (space : ascii -> bool) (s : string) : string :=
  match s with
  | EmptyString => EmptyString
  | String x s' => if space x then lstrip_by space s' else s
  end.

Fixpoint rstrip_by (space : ascii -> bool) (s : string) : string :=
  match s with
  | EmptyString => EmptyString
  | String x s' =>
      match rstrip_by space s' with
      | EmptyString => if space x then EmptyString else String x EmptyString
      | r => String x r
      end
  end.

Definition strip_by (space : ascii -> bool) (s : string) : string :=
  rstrip_by space (lstrip_by space s).

Fixpoint lstrip_chars (cs : list string) : list string :=
  match cs with
  | [] => []
  | c :: cs' => if isspace c then lstrip_chars cs' else cs
  end.

Fixpoint rstrip_chars (cs : list string) : list string :=
  match cs with
  | [] => []
  | c :: cs' =>
      match rstrip_chars cs' with
      | [] => if isspace c then [] else [c]
      | r => c :: r
      end
  end.

(** [s.strip()]: the string without the white space characters at its
    two ends. *)
Definition strip (s : string) : string :=
  cat (rstrip_chars (lstrip_chars (chars s))).

(** [bool(s)] of a string: non-empty. *)
Definition truthy (s : string) : bool :=
  match s with EmptyString => false | _ => true end.

Definition digit (c : ascii) : option Z :=
  let n := code c in
  if (48 <=? n) && (n <=? 57) then Some (n - 48) else None.

(** The digits of a decimal literal after its first digit: digits,
    single underscores allowed between two digits.  Returns the value
    and the number of digits read. *)
Fixpoint int_digits (after_us : bool) (acc : Z) (n : nat) (s : string)
  : option (Z * nat) :=
  match s with
  | EmptyString => if after_us then None else Some (acc, n)
  | String x s' =>
      match digit x with
      | Some d => int_digits false (10 * acc + d) (S n) s'
      | None =>
          if Ascii.eqb x "_" && negb after_us
          then int_digits true acc n s'
          else None
      end
  end.

Definition int_unsigned (s : string) : option Z :=
  match s with
  | EmptyString => None
  | String x s' =>
      match digit x with
      | Some d =>
          match int_digits false d 1 s' with
          | Some (v, n) => if (n <=? max_str_digits)%nat then Some v else None
          | None => None
          end
      | None => None
      end
  end.

(** The code points of the digit zero of the decimal digits of Unicode
    14.0 (the general category Nd, [Py_UNICODE_TODECIMAL] of CPython
    3.11): the nine code points after each are the digits 1 to 9 of
    the same script. *)
Definition decimal_zeros : list Z :=
  [48; 1632; 1776; 1984; 2406; 2534; 2662; 2790; 2918; 3046; 3174; 3302;
   3430; 3558; 3664; 3792; 3872; 4160; 4240; 6112; 6160; 6470; 6608; 6784;
   6800; 6992; 7088; 7232; 7248; 42528; 43216; 43264; 43472; 43504; 43600;
   44016; 65296; 66720; 68912; 69734; 69872; 69942; 70096; 70384; 70736;
   70864; 71248; 71360; 71472; 71904; 72016; 72784; 73040; 73120; 92768;
   92864; 93008; 120782; 120792; 120802; 120812; 120822; 123200; 123632;
   125264; 130032].

(** The value of a decimal digit, given by its code point. *)
Definition decimal (n : Z) : option Z :=
  match List.find (fun z => (z <=? n) && (n <=? z + 9)) decimal_zeros with
  | Some z => Some (n - z)
  | None => None
  end.

(** What [int()] reads in place of a character: a character below
    U+007F stands for itself, any other white space character for a
    space, any other decimal digit for the ASCII digit of its value,
    and every other character for a question mark, which no literal
    contains. *)
Definition to_ascii (c : string) : string :=
  let n := ord c in
  if (0 <=? n) && (n <? 127) then c
  else if isspace c then " "
  else match decimal n with
       | Some d => String (ascii_of_N (Z.to_N (48 + d))) EmptyString
       | None => "?"
       end.

Definition transform (s : string) : string := cat (List.map to_ascii (chars s)).

(** [int(s)] for a string [s], base 10: the characters are read as
    [to_ascii] gives them; then surrounding white space, an optional
    sign, and the digits, with nothing between the sign and the first
    digit. *)
Definition int_opt (s : string) : option Z :=
  match strip_by c_isspace (transform s) with
  | EmptyString => None
  | String x s' =>
      if Ascii.eqb x "+" then int_unsigned s'
      else if Ascii.eqb x "-" then option_map Z.opp (int_unsigned s')
      else int_unsigned (String x s')
  end.

Definition int (s : string) : result Z :=
  match int_opt s with
  | Some v => Ok v
  | None => Err ValueError
  end.

(** [len(s)]: the number of code points, that is the bytes of the
    UTF-8 representation that are not continuation bytes. *)
Fixpoint len (s : string) : Z :=
  match s with
  | EmptyString => 0
  | String x s' =>
      if (128 <=? code x) && (code x <? 192) then len s' else 1 + len s'
  end.

(** [range(start, stop)] with the default step 1. *)
Record range : Type := Range { start : Z; stop : Z }.

(** [i in r] *)
Definition in_range (i : Z) (r : range) : bool :=
  (start r <=? i) && (i <? stop r).

(** [time.sleep(seconds)] for an integer: a duration above
    [sleep_overflow] does not fit the 64-bit nanosecond time and is
    refused with [OverflowError].  Below it the deadline (the
    monotonic clock plus the duration) must fit as well, or the system
    call fails: durations up to [max_sleep] (2^62 nanoseconds, 146
    years) are within reach of every clock that reads less than that;
    for the durations in between the outcome depends on the clock and
    is not modelled. *)
Definition sleep_overflow : Z := (2 ^ 63 - 1) / 10 ^ 9.
Definition max_sleep : Z := 2 ^ 62 / 10 ^ 9.

End Py.

(** ** IndexFilter *)

Module IndexFilter.

(** The non-empty comma separated pieces of the specification, each
    with its spaces removed:
    [filter(None, (f.replace(" ", "") for f in filters.split(",")))]. *)
Definition tokens (filters : string) : list string :=
  List.filter Py.truthy (List.map (Py.remove " ") (Py.split "," filters)).

(** One iteration of the constructor's loop: the range appended for a
    token, or the exception raised. *)
Definition parse_token (t : string) : result Py.range :=
  if Py.contains "-" t then
    match Py.split "-" t with
    | [s; e] =>
        rbind (if Py.truthy s then Py.int s else Ok 0) (fun a =>
        rbind (if Py.truthy e then Py.int e else Ok Py.maxsize) (fun b =>
        Ok (Py.Range a b)))
    | _ => Err ValueError
    end
  else
    rbind (Py.int t) (fun a => Ok (Py.Range a (-1))).

Fixpoint parse_tokens (ts : list string) : result (list Py.range) :=
  match ts with
  | [] => Ok []
  | t :: ts' =>
      rbind (parse_token t) (fun r =>
      rbind (parse_tokens ts') (fun rs => Ok (r :: rs)))
  end.

(** [IndexFilter.__init__]: the value of [self.filters]. *)
Definition init (filters : string) : result (list Py.range) :=
  parse_tokens (tokens filters).

(** The loop of [__call__] over a non-empty [self.filters]. *)
Fixpoint call_loop (fs : list Py.range) (index : Z) : bool :=
  match fs with
  | [] => false
  | f :: fs' =>
      if Py.stop f =? -1 then
        if index =? Py.start f then true else call_loop fs' index
      else
        if Py.in_range index f then true else call_loop fs' index
  end.

(** [IndexFilter.__call__] *)
Definition call (fs : list Py.range) (index : Z) : bool :=
  match fs with
  | [] => true
  | _ => call_loop fs index
  end.

(** [itertools.compress(iterable, map(self, itertools.count()))],
    with the counter made explicit. *)
Fixpoint filter_from {T} (fs : list Py.range) (i : Z) (l : list T) : list T :=
  match l with
  | [] => []
  | x :: l' =>
      if call fs i then x :: filter_from fs (i + 1) l'
      else filter_from fs (i + 1) l'
  end.

(** [IndexFilter.filter] *)
Definition filter {T} (fs : list Py.range) (l : list T) : list T :=
  filter_from fs 0 l.

End IndexFilter.

(** ** base64 and the file-name helpers *)

Module Base64.

Definition val (b : byte) : Z := Z.of_N (Byte.to_N b).

(** Storing into an [unsigned char]. *)
Definition chr (z : Z) : byte :=
  match Byte.of_N (Z.to_N (z mod 256)) with
  | Some b => b
  | None => x00
  end.

Definition PAD : byte := "="%byte.

(** [table_b2a_base64] *)
Definition table_b2a : list byte :=
  list_byte_of_string
    "ABCDEFGHIJKLMNOPQRSTUVWXYZabcdefghijklmnopqrstuvwxyz0123456789+/".

Definition b2a (n : Z) : byte := nth (Z.to_nat n) table_b2a PAD.

(** [table_a2b_base64]: the value of an alphabet character, [None] for
    every other byte. *)
Definition a2b (c : byte) : option Z :=
  let n := val c in
  if (65 <=? n) && (n <=? 90) then Some (n - 65)
  else if (97 <=? n) && (n <=? 122) then Some (n - 71)
  else if (48 <=? n) && (n <=? 57) then Some (n + 4)
  else if n =? 43 then Some 62
  else if n =? 47 then Some 63
  else None.

(** [binascii.b2a_base64(s, newline=False)], three bytes at a time
    (RFC 4648, section 4). *)
Fixpoint b64encode (s : list byte) : list byte :=
  match s with
  | [] => []
  | [a] =>
      [b2a (Z.shiftr (val a) 2); b2a (Z.shiftl (Z.land (val a) 3) 4); PAD; PAD]
  | [a; b] =>
      [b2a (Z.shiftr (val a) 2);
       b2a (Z.lor (Z.shiftl (Z.land (val a) 3) 4) (Z.shiftr (val b) 4));
       b2a (Z.shiftl (Z.land (val b) 15) 2); PAD]
  | a :: b :: c :: s' =>
      b2a (Z.shiftr (val a) 2)
      :: b2a (Z.lor (Z.shiftl (Z.land (val a) 3) 4) (Z.shiftr (val b) 4))
      :: b2a (Z.lor (Z.shiftl (Z.land (val b) 15) 2) (Z.shiftr (val c) 6))
      :: b2a (Z.land (val c) 63)
      :: b64encode s'
  end.

(** The decoding loop of [binascii.a2b_base64] with [strict_mode] off:
    [quad_pos] counts the characters of the current quad, [leftchar]
    holds its pending bits, [pads] the padding characters just seen.
    Bytes outside the alphabet are skipped; padding that completes a
    quad ends the decoding; padding at a quad boundary is ignored. *)
Fixpoint a2b_loop (quad_pos : nat) (leftchar : Z) (pads : nat) (s : list byte)
  : result (list byte) :=
  match s with
  | [] => if (quad_pos =? 0)%nat then Ok [] else Err BinasciiError
  | c :: s' =>
      if Byte.eqb c PAD then
        if (2 <=? quad_pos)%nat then
          if (4 <=? quad_pos + S pads)%nat then Ok []
          else a2b_loop quad_pos leftchar (S pads) s'
        else a2b_loop quad_pos leftchar pads s'
      else
        match a2b c with
        | None => a2b_loop quad_pos leftchar pads s'
        | Some v =>
            match quad_pos with
            | O => a2b_loop 1 v 0 s'
            | 1%nat =>
                rbind (a2b_loop 2 (Z.land v 15) 0 s') (fun out =>
                Ok (chr (Z.lor (Z.shiftl leftchar 2) (Z.shiftr v 4)) :: out))
            | 2%nat =>
                rbind (a2b_loop 3 (Z.land v 3) 0 s') (fun out =>
                Ok (chr (Z.lor (Z.shiftl leftchar 4) (Z.shiftr v 2)) :: out))
            | _ =>
                rbind (a2b_loop 0 0 0 s') (fun out =>
                Ok (chr (Z.lor (Z.shiftl leftchar 6) v) :: out))
            end
        end
  end.

(** [base64.b64decode(s)] ([validate=False]) *)
Definition b64decode (s : list byte) : result (list byte) := a2b_loop 0 0 0 s.

(** [bytes.translate] with [_urlsafe_encode_translation] ([+/] to [-_]) *)
Definition urlsafe_encode_translation (c : byte) : byte :=
  if Byte.eqb c "+"%byte then "-"%byte
  else if Byte.eqb c "/"%byte then "_"%byte else c.

(** [_urlsafe_decode_translation] ([-_] to [+/]) *)
Definition urlsafe_decode_translation (c : byte) : byte :=
  if Byte.eqb c "-"%byte then "+"%byte
  else if Byte.eqb c "_"%byte then "/"%byte else c.

Definition urlsafe_b64encode (s : list byte) : list byte :=
  List.map urlsafe_encode_translation (b64encode s).

Definition urlsafe_b64decode (s : list byte) : result (list byte) :=
  b64decode (List.map urlsafe_decode_translation s).

(** [bytes.rstrip(b"=")] *)
Fixpoint rstrip_pad (s : list byte) : list byte :=
  match s with
  | [] => []
  | c :: s' =>
      match rstrip_pad s' with
      | [] => if Byte.eqb c PAD then [] else [c]
      | r => c :: r
      end
  end.

End Base64.

(** ** [str.encode()] and [bytes.decode()] *)

Module Utf8.

Definition between (lo hi : Z) (b : byte) : bool :=
  (lo <=? Base64.val b) && (Base64.val b <=? hi).

Definition continuation (b : byte) : bool := between 128 191 b.

(** Well-formed UTF-8 (Unicode, table 3-7): no overlong forms, no
    surrogates, nothing above U+10FFFF.  This is what the strict
    decoder accepts. *)
Fixpoint valid (s : list byte) : bool :=
  match s with
  | [] => true
  | b0 :: s1 =>
      if between 0 127 b0 then valid s1
      else if between 194 223 b0 then
        match s1 with
        | b1 :: s2 => continuation b1 && valid s2
        | _ => false
        end
      else if between 224 239 b0 then
        match s1 with
        | b1 :: b2 :: s3 =>
            (if between 224 224 b0 then between 160 191 b1
             else if between 237 237 b0 then between 128 159 b1
             else continuation b1)
            && continuation b2 && valid s3
        | _ => false
        end
      else if between 240 244 b0 then
        match s1 with
        | b1 :: b2 :: b3 :: s4 =>
            (if between 240 240 b0 then between 144 191 b1
             else if between 244 244 b0 then between 128 143 b1
             else continuation b1)
            && continuation b2 && continuation b3 && valid s4
        | _ => false
        end
      else false
  end.

(** A Rocq string stands for a Python [str] when it is the UTF-8
    encoding of one. *)
Definition wellformed (s : string) : Prop :=
  valid (list_byte_of_string s) = true.

(** [s.encode()]: the representation itself. *)
Definition encode (s : string) : list byte := list_byte_of_string s.

(** [b.decode()] *)
Definition decode (b : list byte) : result string :=
  if valid b then Ok (string_of_list_byte b) else Err UnicodeDecodeError.

End Utf8.

(** [encode_data] (main.py, l. 74-75) *)
Definition encode_data (decoded : string) : result string :=
  Utf8.decode
    (Base64.rstrip_pad (Base64.urlsafe_b64encode (Utf8.encode decoded))).

(** [decode_data] (main.py, l. 78-81) *)
Definition decode_data (encoded : string) : result string :=
  rbind
    (Base64.urlsafe_b64decode
       (Utf8.encode encoded
        ++ repeat Base64.PAD (Z.to_nat ((- Py.len encoded) mod 8))))
    Utf8.decode.

(** ** [os.path] (posixpath) *)

Module Path.

Definition sep : ascii := "/"%char.

Definition startswith_sep (s : string) : bool :=
  match s with
  | String x _ => Ascii.eqb x sep
  | EmptyString => false
  end.

Fixpoint endswith_sep (s : string) : bool :=
  match s with
  | EmptyString => false
  | String x EmptyString => Ascii.eqb x sep
  | String _ s' => endswith_sep s'
  end.

(** One step of [os.path.join]: an absolute component restarts the
    path, otherwise it is appended after exactly one separator. *)
Definition join2 (path b : string) : string :=
  if startswith_sep b then b
  else if negb (Py.truthy path) || endswith_sep path then path +:+ b
  else path +:+ String sep b.

(** [os.path.join(a, *p)] *)
Definition join (a : string) (p : list string) : string :=
  fold_left join2 p a.

(** [p[:p.rfind('/') + 1]] *)
Fixpoint head (p : string) : string :=
  match p with
  | EmptyString => EmptyString
  | String x p' =>
      if Py.contains sep p then String x (head p') else EmptyString
  end.

Fixpoint rstrip_sep (s : string) : string :=
  match s with
  | EmptyString => EmptyString
  | String x s' =>
      match rstrip_sep s' with
      | EmptyString => if Ascii.eqb x sep then EmptyString else String x EmptyString
      | r => String x r
      end
  end.

(** [os.path.dirname(p)] *)
Definition dirname (p : string) : string :=
  let h := head p in
  if Py.truthy (rstrip_sep h) then rstrip_sep h else h.

(** [s.startswith(prefix)], returning what follows the prefix. *)
Fixpoint strip_prefix (prefix s : string) : option string :=
  match prefix, s with
  | EmptyString, _ => Some s
  | String x p', String y s' =>
      if Ascii.eqb x y then strip_prefix p' s' else None
  | String _ _, EmptyString => None
  end.

Fixpoint endswith (suffix s : string) : bool :=
  match s with
  | EmptyString => String.eqb suffix EmptyString
  | String _ s' => String.eqb suffix s || endswith suffix s'
  end.

(** A name that stands for itself in a path: not empty, not [.] and
    not [..]. *)
Definition component (c : string) : bool :=
  Py.truthy c && negb (String.eqb c ".") && negb (String.eqb c "..").

(** A path that names its place literally: components separated by
    single separators, none of them [.] or [..], no separator at the
    end; a separator at the start makes it absolute. *)
Definition normal (p : string) : bool :=
  match Py.split sep p with
  | [] => false
  | [c] => component c
  | c :: rest => (negb (Py.truthy c) || component c) && forallb component rest
  end.

(** The directories above [p], nearest first: the heads that
    [os.makedirs] walks up, down to the first component or to the
    root. *)
Fixpoint ancestors_from (fuel : nat) (p : string) : list string :=
  match fuel with
  | O => []
  | S fuel' =>
      let h := dirname p in
      if Py.truthy (rstrip_sep h) then h :: ancestors_from fuel' h else []
  end.

Definition ancestors (p : string) : list string :=
  ancestors_from (String.length p) p.

(** [glob.has_magic]: the pattern characters of [glob]. *)
Definition has_magic (s : string) : bool :=
  Py.contains "*" s || Py.contains "?" s || Py.contains "[" s.

(** A directory entry that the pattern [*.csv] selects: it ends in
    [.csv] and is not hidden. *)
Definition matches_csv (name : string) : bool :=
  endswith ".csv" name && negb (Py.contains sep name)
  && match name with String "." _ => false | _ => true end.

End Path.

(** ** The world of [IceReport] *)

(** A row as [csv] writes it: the text of each field. *)
Definition row : Type := list string.

Record Value : Type := { value : string; label : string }.

Record Criteria : Type :=
  { name : string; displayName : string; values : list Value }.

(** What [response.json()] yields: the criteria list, the results
    object ([datasets.results.subheader] and [.rows], each row already
    as [tuple(row.values())]), or a body that is not JSON. *)
Inductive json : Type :=
| JCriterion (criterion : list Criteria)
| JResults (subheader : string) (rows : list row)
| JInvalid.

Record Response : Type :=
  { status_code : Z;
    retry_after : option string;  (* headers["Retry-After"] *)
    body : json }.

(** What [session.request] does with one request: a response, or an
    exception of the transport. *)
Inductive reply : Type :=
| Replied (r : Response)
| Failed (e : exn).

Inductive node : Type :=
| File (content : list row)
| Dir.

(** What the disk does with the path of a fragment: nothing special;
    the path cannot be opened for writing ([open] raises [e], and
    [os.remove] on the path, if there is no file there, raises
    [removal]: [FileNotFoundError] in a directory that cannot be
    written, the path's own error when the name is too long or a
    parent is not a directory); or the write fails once [written] rows
    are out. *)
Inductive fault : Type :=
| NoFault
| OpenFault (e removal : exn)
| WriteFault (written : nat) (e : exn).

Inductive message : Type :=
| MError (e : exn)                                   (* [!] error *)
| MSleep (seconds : Z)                               (* [#] Sleep seconds<n> *)
| MSkip (market time_period : string)                (* [~] m@t *)
| MWritten (market time_period path : string)        (* [+] m@t -> path *)
| MMismatch (market time_period subheader : string)  (* [!] m@t != subheader *)
| MMerged (path date : string)                       (* [<] path -> date *)
| MReport (report_id : Z) (date base_path : string). (* [+] id@date -> path *)

Inductive event : Type :=
| Send (method url : string) (data : list (string * string))
       (cookie : option string)
| Print (m : message)
| Input (prompt : string)
| Sleep (seconds : Z).

(** A result page: [(subheader, rows)]. *)
Definition page : Type := (string * list row)%type.

Record world : Type := MkWorld
  { fs : gmap string node;           (* path -> node *)
    cookie : option string;          (* session.headers["Cookie"] *)
    cache : option (string * string * page);  (* lru_cache(1) *)
    server : list reply;             (* the replies still to come *)
    stdin : list string;             (* the lines still to be typed *)
    faults : string -> fault;        (* disk faults, by fragment path *)
    trace : list event;              (* what happened, oldest first *)
    scandir : list string -> list string }.
                                     (* the order in which the system
                                        lists the entries of a directory *)

(** A world whose directories list their entries in the order of the
    map. *)
Definition World (fs : gmap string node) (cookie : option string)
  (cache : option (string * string * page)) (server : list reply)
  (stdin : list string) (faults : string -> fault) (trace : list event) : world :=
  MkWorld fs cookie cache server stdin faults trace (fun entries => entries).

Definition set_fs (f : gmap string node -> gmap string node) (w : world) : world :=
  MkWorld (f (fs w)) (cookie w) (cache w) (server w) (stdin w) (faults w) (trace w)
          (scandir w).
Definition set_cookie (c : option string) (w : world) : world :=
  MkWorld (fs w) c (cache w) (server w) (stdin w) (faults w) (trace w) (scandir w).
Definition set_cache (c : option (string * string * page)) (w : world) : world :=
  MkWorld (fs w) (cookie w) c (server w) (stdin w) (faults w) (trace w) (scandir w).
Definition set_server (s : list reply) (w : world) : world :=
  MkWorld (fs w) (cookie w) (cache w) s (stdin w) (faults w) (trace w) (scandir w).
Definition set_stdin (s : list string) (w : world) : world :=
  MkWorld (fs w) (cookie w) (cache w) (server w) s (faults w) (trace w) (scandir w).
Definition emit (e : event) (w : world) : world :=
  MkWorld (fs w) (cookie w) (cache w) (server w) (stdin w) (faults w)
          (trace w ++ [e]) (scandir w).

(** How a call ends: it returns, it raises, or it leaves the model
    (the scripted server has no reply left, or [glob] would expand
    pattern characters in the directory name). *)
Inductive outcome (A : Type) : Type :=
| Return (a : A)
| Raise (e : exn)
| Unmodelled.
Arguments Return {A} a.
Arguments Raise {A} e.
Arguments Unmodelled {A}.

Definition M (A : Type) : Type := world -> outcome A * world.

Definition ret {A} (a : A) : M A := fun w => (Return a, w).

Definition bind {A B} (m : M A) (k : A -> M B) : M B := fun w =>
  match m w with
  | (Return a, w') => k a w'
  | (Raise e, w') => (Raise e, w')
  | (Unmodelled, w') => (Unmodelled, w')
  end.

Declare Scope M_scope.
Delimit Scope M_scope with M.
Bind Scope M_scope with M.
Notation "x ← y ; z" := (bind y (fun x => z))
  (at level 20, y at level 100, z at level 200, only parsing) : M_scope.
Notation "x ;; z" := (bind x (fun _ => z))
  (at level 100, z at level 200, only parsing, right associativity) : M_scope.
Local Open Scope M_scope.

Definition raise {A} (e : exn) : M A := fun w => (Raise e, w).

Definition lift {A} (r : result A) : M A :=
  match r with
  | Ok a => ret a
  | Err e => raise e
  end.

(** [try: m  except Exception as e: h e] *)
Definition try_except {A} (m : M A) (h : exn -> M A) : M A := fun w =>
  match m w with
  | (Raise e, w') => if is_exception e then h e w' else (Raise e, w')
  | r => r
  end.

(** The call leaves the model. *)
Definition unmodelled {A} : M A := fun w => (Unmodelled, w).

Definition get {A} (f : world -> A) : M A := fun w => (Return (f w), w).
Definition modify (f : world -> world) : M unit := fun w => (Return tt, f w).
Definition print (m : message) : M unit := modify (emit (Print m)).

Fixpoint for_each {A} (l : list A) (body : A -> M unit) : M unit :=
  match l with
  | [] => ret tt
  | x :: l' => body x;; for_each l' body
  end.

(** A [for] loop that updates local variables [S]. *)
Fixpoint for_fold {A S} (body : S -> A -> M S) (s : S) (l : list A) : M S :=
  match l with
  | [] => ret s
  | x :: l' => s' ← body s x; for_fold body s' l'
  end.

(** ** [csv]: reading back what [csv.writer] wrote *)

Module Csv.

(** [csv.field_size_limit()] *)
Definition field_limit : Z := 131072.

(** A field as it comes back from a file opened in text mode
    ([open(path)], universal newlines): [\r\n] and [\r] inside the
    field are read as [\n]. *)
Fixpoint universal_newlines (s : string) : string :=
  match s with
  | EmptyString => EmptyString
  | String c s' =>
      if Ascii.eqb c "013" then
        String "010" (match s' with
                      | String d s'' =>
                          if Ascii.eqb d "010" then universal_newlines s''
                          else universal_newlines s'
                      | EmptyString => EmptyString
                      end)
      else String c (universal_newlines s')
  end.

(** The reader accepts a field of at most [field_limit] characters. *)
Definition field_ok (f : string) : bool :=
  Py.len (universal_newlines f) <=? field_limit.

Definition row_ok (r : row) : bool := forallb field_ok r.

(** [csv.reader] over a file that [csv.writer] wrote with
    [newline=""]: the rows in order, each field with its newlines
    translated, up to the first row with an overlong field, where the
    reader raises [csv.Error]; the flag tells whether the end of the
    file was reached. *)
Fixpoint read (content : list row) : list row * bool :=
  match content with
  | [] => ([], true)
  | r :: content' =>
      if row_ok r then
        let rest := read content' in
        (List.map universal_newlines r :: rest.1, rest.2)
      else ([], false)
  end.

End Csv.

(** ** The operating system: files, console, clock, network *)

Module Os.

(** [os.path.isfile] *)
Definition isfile (p : string) : M bool :=
  get (fun w => match fs w !! p with Some (File _) => true | _ => false end).

(** [os.path.isdir] *)
Definition isdir (p : string) : M bool :=
  get (fun w => match fs w !! p with Some Dir => true | _ => false end).

(** [os.makedirs] on the way up from a missing directory: the chain
    of its ancestors, nearest first, is followed to the first one that
    exists; if that is a directory the missing ones are created below
    it, if it is a regular file [mkdir] fails below it. *)
Fixpoint mkdirs (chain : list string) (m : gmap string node)
  : result (gmap string node) :=
  match chain with
  | [] => Ok m
  | a :: chain' =>
      match m !! a with
      | Some Dir => Ok m
      | Some (File _) => Err NotADirectoryError
      | None => rbind (mkdirs chain' m) (fun m' => Ok (<[a := Dir]> m'))
      end
  end.

(** [os.makedirs(p, exist_ok=True)].  An existing directory is left
    alone, an existing file is in the way; a missing directory is
    created with its missing ancestors.  Modelled, in this last case,
    for a path that names its place literally. *)
Definition makedirs (p : string) : M unit := fun w =>
  match fs w !! p with
  | Some Dir => (Return tt, w)
  | Some (File _) => (Raise FileExistsError, w)
  | None =>
      if Path.normal p then
        match mkdirs (Path.ancestors p) (fs w) with
        | Ok m => (Return tt, set_fs (fun _ => <[p := Dir]> m) w)
        | Err e => (Raise e, w)
        end
      else (Unmodelled, w)
  end.

(** [os.remove] *)
Definition remove (p : string) : M unit := fun w =>
  match fs w !! p with
  | Some (File _) => (Return tt, set_fs (delete p) w)
  | Some Dir => (Raise IsADirectoryError, w)
  | None =>
      match faults w p with
      | OpenFault _ removal => (Raise removal, w)
      | _ => (Raise FileNotFoundError, w)
      end
  end.

(** [p] is [d] or lies below it. *)
Definition under (d p : string) : bool :=
  String.eqb d p
  || match Path.strip_prefix (d +:+ String Path.sep EmptyString) p with
     | Some _ => true
     | None => false
     end.

(** [shutil.rmtree] *)
Definition rmtree (d : string) : M unit := fun w =>
  match fs w !! d with
  | Some Dir =>
      (Return tt,
       set_fs (filter (fun kv : string * node => under d kv.1 = false)) w)
  | Some (File _) => (Raise NotADirectoryError, w)
  | None => (Raise FileNotFoundError, w)
  end.

(** The name of [p] inside the directory [d], when it is an entry of
    [d] that [*.csv] selects. *)
Definition csv_entry (d p : string) : bool :=
  match Path.strip_prefix (d +:+ String Path.sep EmptyString) p with
  | Some name => Path.matches_csv name
  | None => false
  end.

(** The entries of the directory [d] that [*.csv] selects, by their
    paths. *)
Definition listing (d : string) (m : gmap string node) : list string :=
  List.filter (csv_entry d) (map_to_list m).*1.

(** [glob.glob(os.path.join(d, "*.csv"))]: the selected entries, in
    the order in which the system lists the directory.  Modelled for a
    non-empty [d] that does not end in a separator and has no pattern
    character of its own (with one, [glob] takes [d] itself for a
    pattern). *)
Definition glob_csv (d : string) : M (list string) := fun w =>
  if Path.has_magic d || Path.endswith_sep d || negb (Py.truthy d)
  then (Unmodelled, w)
  else (Return (scandir w (listing d (fs w))), w).

(** [with open(path, "w", newline="") as file:
       csv.writer(file).writerows(rows)]
    for a fragment: the disk may fail as [faults] says. *)
Definition write_rows (path : string) (rows : list row) : M unit := fun w =>
  match fs w !! path with
  | Some Dir => (Raise IsADirectoryError, w)
  | _ =>
      match faults w path with
      | NoFault => (Return tt, set_fs (insert path (File rows)) w)
      | OpenFault e _ => (Raise e, w)
      | WriteFault k e =>
          (Raise e, set_fs (insert path (File (firstn k rows))) w)
      end
  end.

(** [open(path, "w", newline="")]: create or truncate. *)
Definition open_w (path : string) : M unit := fun w =>
  match fs w !! path with
  | Some Dir => (Raise IsADirectoryError, w)
  | _ => (Return tt, set_fs (insert path (File [])) w)
  end.

(** [csv.reader(open(path))]: the rows that the reader yields before
    it stops, and whether it stopped at the end of the file. *)
Definition read_rows (path : string) : M (list row * bool) := fun w =>
  match fs w !! path with
  | Some (File c) => (Return (Csv.read c), w)
  | Some Dir => (Raise IsADirectoryError, w)
  | None => (Raise FileNotFoundError, w)
  end.

(** [writer.writerows(rows)] on a file that is open for writing. *)
Definition append_rows (path : string) (rows : list row) : M unit := fun w =>
  match fs w !! path with
  | Some (File c) => (Return tt, set_fs (insert path (File (c ++ rows))) w)
  | Some Dir => (Raise IsADirectoryError, w)
  | None => (Return tt, set_fs (insert path (File rows)) w)
  end.

(** [input(prompt)] *)
Definition input (prompt : string) : M string := fun w =>
  match stdin w with
  | [] => (Raise EOFError, emit (Input prompt) w)
  | line :: more => (Return line, set_stdin more (emit (Input prompt) w))
  end.

(** [time.sleep] *)
Definition sleep (seconds : Z) : M unit :=
  if seconds <? 0 then raise ValueError
  else if Py.sleep_overflow <? seconds then raise OverflowError
  else if Py.max_sleep <? seconds then unmodelled
  else modify (emit (Sleep seconds)).

(** [session.request(method, url, data=data)]: the request goes out
    with the session's cookie and the server's next reply comes back. *)
Definition session_request (method url : string) (data : list (string * string))
  : M Response := fun w =>
  let w1 := emit (Send method url data (cookie w)) w in
  match server w with
  | [] => (Unmodelled, w1)
  | Replied r :: rest => (Return r, set_server rest w1)
  | Failed e :: rest => (Raise e, set_server rest w1)
  end.

(** [response.raise_for_status()] *)
Definition raise_for_status (r : Response) : result unit :=
  if (400 <=? status_code r) && (status_code r <? 600)
  then Err (HTTPError (status_code r))
  else Ok tt.

End Os.

(** ** IceReport *)

Definition BASE_URL : string := "https://www.ice.com".

Fixpoint drop_last (s : string) : string :=
  match s with
  | EmptyString => EmptyString
  | String _ EmptyString => EmptyString
  | String x s' => String x (drop_last s')
  end.

(** [join_url] (main.py, l. 65-71).  Every path the program passes is a
    plain segment, for which [urljoin(base, path)] appends [path] to a
    base that ends in a slash. *)
Definition join_url (base : string) (paths : list string) : string :=
  let base := if Path.endswith_sep base then base else base +:+ "/" in
  drop_last
    (fold_left (fun b path => if Py.truthy path then (b +:+ path) +:+ "/" else b)
               paths base).

Module IceReport.

Definition MARKET_KEY : string := "selectedMarket".
Definition TIME_PERIOD_KEY : string := "selectedTimePeriod".

(** The fields of an instance.  The session and the cache of
    [get_results] live in the world. *)
Record t : Type :=
  { report_id : Z;
    market_filter : list Py.range;
    time_period_filter : list Py.range;
    column_filter : list Py.range;
    base_dir : string;
    cookie_url : string;
    criteria_url : string;
    results_url : string }.

(** [IceReport.__init__] (l. 150-170): the three filters are parsed
    first, in this order. *)
Definition init (report_id : Z)
  (market_filter time_period_filter column_filter base_dir base_url : string)
  : result t :=
  rbind (IndexFilter.init market_filter) (fun mf =>
  rbind (IndexFilter.init time_period_filter) (fun tf =>
  rbind (IndexFilter.init column_filter) (fun cf =>
  let api_url :=
    join_url base_url ["marketdata"; "api"; "reports"; pretty report_id] in
  Ok {| report_id := report_id;
        market_filter := mf;
        time_period_filter := tf;
        column_filter := cf;
        base_dir := base_dir;
        cookie_url := join_url base_url ["report"; pretty report_id];
        criteria_url := join_url api_url ["criteria"];
        results_url := join_url api_url ["results"] |}))).

Definition cookie_prompt (self : t) : string :=
  "[#] Enter cookie<" +:+ cookie_url self +:+ ">: ".

(** [IceReport.request] (l. 172-189).  The [while True] loop runs once
    per reply of the server; [replies] is the server's script at entry. *)
Fixpoint request_loop (self : t) (method url : string)
  (data : list (string * string)) (replies : list reply) : M Response :=
  match replies with
  | [] => Os.session_request method url data
  | _ :: rest =>
      response ← Os.session_request method url data;
      match Os.raise_for_status response with
      | Ok _ => ret response
      | Err error =>
          print (MError error);;
          if status_code response =? 409 then
            cookie ← Os.input (cookie_prompt self);
            modify (set_cookie (Some (Py.strip cookie)));;
            request_loop self method url data rest
          else if status_code response =? 429 then
            header ← lift (match retry_after response with
                           | Some h => Ok h
                           | None => Err KeyError
                           end);
            retry_after ← lift (Py.int header);
            print (MSleep retry_after);;
            Os.sleep retry_after;;
            request_loop self method url data rest
          else raise error
      end
  end.

Definition request (self : t) (method url : string)
  (data : list (string * string)) : M Response := fun w =>
  request_loop self method url data (server w) w.

(** [IceReport.get_criteria] (l. 191-203) *)
Definition get_criteria (self : t) : M (list string * list string) :=
  response ← request self "GET" (criteria_url self) [];
  criterion ← match body response with
              | JCriterion c => ret c
              | JResults _ _ => raise TypeError
              | JInvalid => raise JSONDecodeError
              end;
  ret (fold_left
          (fun (acc : list string * list string) (criteria : Criteria) =>
             if String.eqb (name criteria) MARKET_KEY
             then (List.map value (values criteria), acc.2)
             else if String.eqb (name criteria) TIME_PERIOD_KEY
             then (acc.1, List.map value (values criteria))
             else acc)
          criterion ([], [])).

(** The body of [get_results] (l. 206-215), without its cache. *)
Definition fetch_results (self : t) (market time_period : string) : M page :=
  response ← request self "POST" (results_url self)
               [(MARKET_KEY, market); (TIME_PERIOD_KEY, time_period)];
  match body response with
  | JResults subheader rows => ret (subheader, rows)
  | JCriterion _ => raise TypeError
  | JInvalid => raise JSONDecodeError
  end.

(** The cache of [functools.lru_cache(1)]: its single entry answers the
    call with the same arguments. *)
Definition cache_lookup (c : option (string * string * page))
  (market time_period : string) : option page :=
  match c with
  | Some (m, p, v) =>
      if String.eqb m market && String.eqb p time_period then Some v else None
  | None => None
  end.

(** [get_results] under [functools.lru_cache(1)]: a hit returns the
    stored page; a miss runs the body and, when it returns, stores the
    page in place of the previous entry. *)
Definition get_results (self : t) (market time_period : string) : M page :=
  c ← get cache;
  match cache_lookup c market time_period with
  | Some v => ret v
  | None =>
      v ← fetch_results self market time_period;
      modify (set_cache (Some (market, time_period, v)));;
      ret v
  end.

(** The [try] statement of [dump] (l. 233-242). *)
Definition write_fragment (self : t) (market time_period path : string)
  (rows : list row) : M unit :=
  try_except
    (Os.write_rows path (List.map (IndexFilter.filter (column_filter self)) rows))
    (fun exception =>
       print (MError exception);;
       Os.remove path;;
       raise exception);;
  print (MWritten market time_period path).

(** One iteration of the loop over the markets (l. 222-244), on the
    local variables [(date, temp_dir)]. *)
Definition dump_market (self : t) (time_period : string)
  (locals : string * string) (market : string) : M (string * string) :=
  locals ← (if negb (Py.truthy locals.1) then
              p ← get_results self market time_period;
              let date := p.1 in
              let temp_dir :=
                Path.join (base_dir self) [date; "~" +:+ pretty (report_id self)] in
              Os.makedirs temp_dir;;
              ret (date, temp_dir)
            else ret locals);
  let date := locals.1 in
  let temp_dir := locals.2 in
  file_name ← lift (encode_data market);
  let path := Path.join temp_dir [file_name +:+ ".csv"] in
  exists_ ← Os.isfile path;
  (if exists_ then print (MSkip market time_period)
   else
     p ← get_results self market time_period;
     if String.eqb date p.1
     then write_fragment self market time_period path p.2
     else print (MMismatch market time_period p.1));;
  ret locals.

(** The merge after the loop over the markets (l. 246-259). *)
Definition dump_merge (self : t) (date temp_dir : string) : M unit :=
  isdir ← Os.isdir temp_dir;
  if Py.truthy temp_dir && isdir then
    let base_path :=
      Path.join (Path.dirname temp_dir) [pretty (report_id self) +:+ ".csv"] in
    Os.open_w base_path;;
    paths ← Os.glob_csv temp_dir;
    for_each paths (fun path =>
      isfile ← Os.isfile path;
      (if isfile then
         read ← Os.read_rows path;
         Os.append_rows base_path read.1;;
         if read.2 then ret tt else raise CsvError
       else ret tt);;
      print (MMerged path date));;
    print (MReport (report_id self) date base_path);;
    Os.rmtree temp_dir
  else ret tt.

(** The body of the loop over the time periods (l. 219-259). *)
Definition dump_period (self : t) (markets : list string) (time_period : string)
  : M unit :=
  locals ← for_fold (dump_market self time_period) (EmptyString, EmptyString)
             (IndexFilter.filter (market_filter self) markets);
  dump_merge self locals.1 locals.2.

(** [IceReport.dump] (l. 217-259) *)
Definition dump (self : t) : M unit :=
  criteria ← get_criteria self;
  for_each (IndexFilter.filter (time_period_filter self) criteria.2)
           (dump_period self criteria.1).

End IceReport.

(** [main] (l. 262-289), after [argparse]: the parsed arguments. *)
Record Namespace : Type :=
  { arg_report_id : Z;
    arg_market_filter : string;
    arg_time_period_filter : string;
    arg_column_filter : string;
    arg_base_dir : string }.

Definition main (args : Namespace) : M unit :=
  report ← lift (IceReport.init (arg_report_id args) (arg_market_filter args)
                   (arg_time_period_filter args) (arg_column_filter args)
                   (arg_base_dir args) BASE_URL);
  IceReport.dump report.

(** ** The cookie prompt outside the request loop *)

(** [_update_cookies_input] (l. 84-87): the session is the world's. *)
Definition update_cookies_input (url : string) : M unit :=
  cookies ← Os.input ("[#] Enter cookies<" +:+ url +:+ ">: ");
  modify (set_cookie (Some (Py.strip cookies))).

(** ** Vocabulary of the specification *)

(** [matches(index)] of the filter parsed from [filters]. *)
Definition matches (filters : string) (index : Z) : result bool :=
  rbind (IndexFilter.init filters) (fun fs => Ok (IndexFilter.call fs index)).

(** [index] satisfies a stored entry: a singleton (marked by the stop
    value -1) or a half-open range. *)
Definition satisfies (index : Z) (f : Py.range) : Prop :=
  if Py.stop f =? -1 then index = Py.start f
  else Py.start f <= index < Py.stop f.

Definition not_integer (s : string) : bool := negb (is_ok (Py.int s)).

(** A token that the grammar's words reject: a token without hyphen
    that is not an integer, or a hyphenated token one of whose
    non-empty parts is not an integer. *)
Definition malformed (t : string) : bool :=
  if Py.contains "-" t
  then existsb (fun p => Py.truthy p && not_integer p) (Py.split "-" t)
  else not_integer t.

(** A token with more than one hyphen. *)
Definition overhyphenated (t : string) : bool :=
  Py.contains "-" t && negb (length (Py.split "-" t) =? 2)%nat.

(** A bounded token [a-b] with [a >= b]. *)
Definition inverted (t : string) : Prop :=
  exists sa sb a b,
    Py.split "-" t = [sa; sb] /\ sa <> EmptyString /\ sb <> EmptyString /\
    Py.int sa = Ok a /\ Py.int sb = Ok b /\ a >= b.

(** The tokens as the specification words them: split on commas, strip
    the surrounding white space of each piece, drop the empty ones. *)
Definition spec_tokens (filters : string) : list string :=
  List.filter Py.truthy (List.map Py.strip (Py.split "," filters)).

(** ** Auxiliary definitions of the proofs and the examples *)

(** Decide the integer comparisons in the goal and finish with [lia]. *)
Ltac cmp_cases :=
  repeat match goal with
    | |- context [?a <=? ?b] => destruct (Z.leb_spec a b)
    | |- context [?a <? ?b] => destruct (Z.ltb_spec a b)
    | |- context [?a =? ?b] => destruct (Z.eqb_spec a b)
    end;
  simpl; first [reflexivity | lia | exfalso; lia].

(** An entry that no index satisfies. *)
Definition empty_entry (f : Py.range) : Prop :=
  Py.stop f <> -1 /\ Py.start f >= Py.stop f.

(** The four sextets of three bytes. *)
Definition sextet1 (a : byte) : Z := Z.shiftr (Base64.val a) 2.
Definition sextet2 (a b : byte) : Z :=
  Z.lor (Z.shiftl (Z.land (Base64.val a) 3) 4) (Z.shiftr (Base64.val b) 4).
Definition sextet3 (b c : byte) : Z :=
  Z.lor (Z.shiftl (Z.land (Base64.val b) 15) 2) (Z.shiftr (Base64.val c) 6).
Definition sextet4 (c : byte) : Z := Z.land (Base64.val c) 63.

(** The URL-safe character of a sextet. *)
Definition urlsafe_char (n : Z) : byte :=
  Base64.urlsafe_encode_translation (Base64.b2a n).

(** Letters, digits, [-] and [_]. *)
Definition is_urlsafe (c : byte) : bool :=
  let n := Base64.val c in
  ((65 <=? n) && (n <=? 90)) || ((97 <=? n) && (n <=? 122))
  || ((48 <=? n) && (n <=? 57)) || (n =? 45) || (n =? 95).

Definition all_bytes : list byte :=
  List.map (fun n => Base64.chr (Z.of_nat n)) (seq 0 256).

Definition all_sextets : list Z := List.map Z.of_nat (seq 0 64).

Definition is_sextet (n : Z) : bool := (0 <=? n) && (n <? 64).

(** What the decoder needs to know of a sextet's character. *)
Definition sextet_ok (n : Z) : bool :=
  let c := urlsafe_char n in
  let d := Base64.urlsafe_decode_translation c in
  is_urlsafe c && negb (Byte.eqb d Base64.PAD)
  && match Base64.a2b d with Some v => v =? n | None => false end.

(** The first two characters of a quad give the first byte back. *)
Definition quad_ok12 (a b : byte) : bool :=
  is_sextet (sextet1 a) && is_sextet (sextet2 a b)
  && Byte.eqb (Base64.chr (Z.lor (Z.shiftl (sextet1 a) 2) (Z.shiftr (sextet2 a b) 4))) a
  && (Z.land (sextet2 a b) 15 =? Z.shiftr (Base64.val b) 4).

(** The last three characters of a quad give the other two bytes. *)
Definition quad_ok34 (b c : byte) : bool :=
  is_sextet (sextet3 b c) && is_sextet (sextet4 c)
  && Byte.eqb (Base64.chr (Z.lor (Z.shiftl (Z.shiftr (Base64.val b) 4) 4)
                                 (Z.shiftr (sextet3 b c) 2))) b
  && (Z.land (sextet3 b c) 3 =? Z.shiftr (Base64.val c) 6)
  && Byte.eqb (Base64.chr (Z.lor (Z.shiftl (Z.shiftr (Base64.val c) 6) 6)
                                 (sextet4 c))) c.

(** What [is_urlsafe] excludes. *)
Definition urlsafe_excludes (c : byte) : bool :=
  implb (is_urlsafe c)
        (negb (Byte.eqb c Base64.PAD) && Utf8.between 0 127 c
         && negb (Ascii.eqb (ascii_of_byte c) "=")
         && negb (Ascii.eqb (ascii_of_byte c) "/")
         && negb ((128 <=? Py.code (ascii_of_byte c))
                  && (Py.code (ascii_of_byte c) <? 192))).

(** Enough padding to complete the last quad. *)
Definition pad_enough (n p : nat) : Prop :=
  (n mod 3 = 1 -> 2 <= p)%nat /\ (n mod 3 = 2 -> 1 <= p)%nat.

Definition is_send (e : event) : bool :=
  match e with Send _ _ _ _ => true | _ => false end.

(** The requests that went out. *)
Definition sent (tr : list event) : list event := List.filter is_send tr.

(** The durations slept, in order. *)
Definition slept (tr : list event) : list Z :=
  flat_map (fun e => match e with Sleep n => [n] | _ => [] end) tr.

(** The number of times a line was asked for. *)
Definition prompted (tr : list event) : nat :=
  length (List.filter (fun e => match e with Input _ => true | _ => false end) tr).

(** The delay of a 429 response, when [int] and [time.sleep] accept it. *)
Definition retry_delay (r : Response) : option Z :=
  match retry_after r with
  | Some h =>
      match Py.int h with
      | Ok n => if (0 <=? n) && (n <=? Py.max_sleep) then Some n else None
      | Err _ => None
      end
  | None => None
  end.

(** A response that the loop recovers from: a 409, or a 429 with a
    usable [Retry-After]. *)
Definition transient (r : Response) : bool :=
  (status_code r =? 409)
  || ((status_code r =? 429)
      && match retry_delay r with Some _ => true | None => false end).

Definition delays (rs : list Response) : list Z :=
  flat_map (fun r => if status_code r =? 429
                     then match retry_delay r with Some n => [n] | None => [] end
                     else []) rs.

Definition conflicts (rs : list Response) : nat :=
  length (List.filter (fun r => status_code r =? 409) rs).

(** The instance that [main] builds for report 7 with the defaults. *)
Definition report7 : IceReport.t :=
  {| IceReport.report_id := 7;
     IceReport.market_filter := [Py.Range 0 Py.maxsize];
     IceReport.time_period_filter := [Py.Range 0 (-1)];
     IceReport.column_filter := [Py.Range 0 Py.maxsize];
     IceReport.base_dir := "pyce";
     IceReport.cookie_url := "https://www.ice.com/report/7";
     IceReport.criteria_url :=
       "https://www.ice.com/marketdata/api/reports/7/criteria";
     IceReport.results_url :=
       "https://www.ice.com/marketdata/api/reports/7/results" |}.

(** What a run of the loop over the transient responses [ts] leaves
    in the trace: one request more than there are responses in [ts],
    always the same one; a sleep for every 429, of the delay it asked
    for; a prompt for every 409. *)
Definition retried (method url : string) (data : list (string * string))
  (ts : list Response) (evs : list event) : Prop :=
  length (sent evs) = S (length ts)
  /\ Forall (fun e => exists c, e = Send method url data c) (sent evs)
  /\ slept evs = delays ts
  /\ prompted evs = conflicts ts.

(** [w'] differs from [w] only in the session, the server's script,
    the console and the trace, which it extends by [evs]. *)
Definition network_only (w w' : world) (evs : list event) : Prop :=
  fs w' = fs w /\ cache w' = cache w /\ faults w' = faults w
  /\ trace w' = trace w ++ evs.

Ltac solve_frame :=
  unfold network_only; cbn; rewrite <- ?app_assoc;
  repeat (split; [reflexivity|]); reflexivity.

(** The POST of [get_results]. *)
Definition results_request (self : IceReport.t) (market time_period : string)
  (cookie : option string) : event :=
  Send "POST" (IceReport.results_url self)
       [(IceReport.MARKET_KEY, market); (IceReport.TIME_PERIOD_KEY, time_period)]
       cookie.

(** The path of the fragment of [market] in [temp_dir]. *)
Definition fragment_path (temp_dir file_name : string) : string :=
  Path.join temp_dir [file_name +:+ ".csv"].

(** The fragment directory of a period labelled [date]. *)
Definition fragment_dir (self : IceReport.t) (date : string) : string :=
  Path.join (IceReport.base_dir self)
            [date; "~" +:+ pretty (IceReport.report_id self)].

(** A small report: markets A and B, one time period T0. *)
Definition criteria_reply : reply :=
  Replied
    {| status_code := 200; retry_after := None;
       body := JCriterion
                 [ {| name := "selectedMarket"; displayName := "Market";
                      values := [ {| value := "A"; label := "a" |};
                                  {| value := "B"; label := "b" |} ] |};
                   {| name := "selectedTimePeriod"; displayName := "Period";
                      values := [ {| value := "T0"; label := "t" |} ] |} ] |}.

Definition results_reply (subheader : string) (rows : list row) : reply :=
  Replied {| status_code := 200; retry_after := None;
             body := JResults subheader rows |}.

(** The command line [pyce 7]. *)
Definition pyce7 : Namespace :=
  {| arg_report_id := 7; arg_market_filter := "-";
     arg_time_period_filter := "0"; arg_column_filter := "-";
     arg_base_dir := "pyce" |}.

(** A disk that still holds the fragment of market A from an earlier
    run. *)
Definition resumed_fs : gmap string node :=
  <["pyce/Jan/~7" := Dir]>
    (<["pyce/Jan/~7/QQ.csv" := File [["old"%string]]]> ∅).

Definition resumed_world : world :=
  World resumed_fs None None
    [criteria_reply; results_reply "Jan" [["a1"%string]];
     results_reply "Jan" [["b1"%string]]]
    [] (fun _ => NoFault) [].

(** A disk that runs full while the fragment of market B is written,
    one row in. *)
Definition full_disk (path : string) : fault :=
  if String.eqb path "pyce/Jan/~7/Qg.csv" then WriteFault 1 (OSError 28) else NoFault.

Definition full_disk_world : world :=
  World ∅ None None
    [criteria_reply; results_reply "Jan" [["a1"%string]];
     results_reply "Jan" [["b1"; "b2"]; ["b3"; "b4"]]%string]
    [] full_disk [].

(** The rows that the merge reads from [p]: those of a regular file,
    as the reader yields them. *)
Definition rows_of (m : gmap string node) (p : string) : list row :=
  match m !! p with
  | Some (File c) => (Csv.read c).1
  | _ => []
  end.

(** The reader gets to the end of [p]: no field is over the limit. *)
Definition readable (m : gmap string node) (p : string) : bool :=
  match m !! p with
  | Some (File c) => (Csv.read c).2
  | _ => true
  end.

(** The body of the loop of the merge (l. 252-257). *)
Definition merge_one (base_path date path : string) : M unit :=
  isfile ← Os.isfile path;
  (if isfile then
     read ← Os.read_rows path;
     Os.append_rows base_path read.1;;
     if read.2 then ret tt else raise CsvError
   else ret tt);;
  print (MMerged path date).

(** A string made of digits and minus signs. *)
Fixpoint plain (s : string) : bool :=
  match s with
  | EmptyString => true
  | String x s' =>
      (match Py.digit x with Some _ => true | None => false end
       || Ascii.eqb x "-")
      && plain s'
  end.

(** A string made of separators. *)
Fixpoint all_sep (s : string) : bool :=
  match s with
  | EmptyString => true
  | String x s' => Ascii.eqb x Path.sep && all_sep s'
  end.

(** U+00A0, the no-break space. *)
Definition nbsp : string :=
  String (ascii_of_nat 194) (String (ascii_of_nat 160) EmptyString).

(** Continuation bytes only. *)
Fixpoint continued (s : string) : bool :=
  match s with
  | EmptyString => true
  | String x s' => Py.continuation x && continued s'
  end.

(** One byte and the continuation bytes after it. *)
Definition is_char (c : string) : bool :=
  match c with
  | String _ t => continued t
  | EmptyString => false
  end.

(** A list of characters as [Py.chars] cuts them: after the first one,
    none begins with a continuation byte. *)
Definition aligned (cs : list string) : Prop :=
  Forall (fun c => is_char c = true) cs
  /\ Forall (fun c => Py.starts_continued c = false) (tail cs).

Definition head_space (cs : list string) : bool :=
  match cs with
  | c :: _ => Py.isspace c
  | [] => false
  end.

(** White space only. *)
Definition all_space (s : string) : bool := forallb Py.isspace (Py.chars s).

(** The first character is white space. *)
Definition startswith_space (s : string) : bool := head_space (Py.chars s).

(** The last character is white space. *)
Definition endswith_space (s : string) : bool := head_space (rev (Py.chars s)).

(** The values of the last criterion called [key], none when there is
    no such criterion. *)
Definition criteria_values (key : string) (criterion : list Criteria) : list string :=
  match List.find (fun c => String.eqb (name c) key) (rev criterion) with
  | Some c => List.map value (values c)
  | None => []
  end.

(** The GET of [get_criteria]. *)
Definition criteria_request (self : IceReport.t) (cookie : option string) : event :=
  Send "GET" (IceReport.criteria_url self) [] cookie.

(** The name that [encode_data] gives to the fragment of a market. *)
Definition file_name (market : string) : string :=
  match encode_data market with
  | Ok f => f
  | Err _ => EmptyString
  end.

(** The fragment of [market] for a period labelled [date]. *)
Definition fragment (self : IceReport.t) (date market : string) : string :=
  fragment_path (fragment_dir self date) (file_name market).

(** The rows written for a page: each row through the column filter. *)
Definition columns (self : IceReport.t) (rows : list row) : list row :=
  List.map (IndexFilter.filter (IceReport.column_filter self)) rows.



(** The consolidated file of a period labelled [date]. *)
Definition consolidated (self : IceReport.t) (date : string) : string :=
  Path.join (Path.dirname (fragment_dir self date))
            [pretty (IceReport.report_id self) +:+ ".csv"].

(** A path segment made of letters, digits, [-], [_], [<] and [>]:
    [urljoin] appends such a segment to a base that ends in a slash. *)
Fixpoint url_word (s : string) : bool :=
  match s with
  | EmptyString => true
  | String x s' =>
      let n := Py.code x in
      (((48 <=? n) && (n <=? 57)) || ((65 <=? n) && (n <=? 90))
       || ((97 <=? n) && (n <=? 122))
       || (n =? 45) || (n =? 95) || (n =? 60) || (n =? 62))
      && url_word s'
  end.

(** ** Facts about the Python runtime *)

Lemma sleep_bounds : 0 <= Py.max_sleep /\ Py.max_sleep <= Py.sleep_overflow.
Proof. unfold Py.max_sleep, Py.sleep_overflow. split; [apply Z.div_pos; lia|].
  apply Z.div_le_mono; lia. Qed.

(** [int] on a few literals: underscores between digits, a sign, white
    space around; [strip] removes the separator characters FS to US that
    [int] does not skip. *)
Example int_literals :
  Py.int " +1_000 " = Ok 1000 /\ Py.int "00" = Ok 0 /\ Py.int "-7" = Ok (-7)
  /\ Py.int "1__0" = Err ValueError /\ Py.int "1_" = Err ValueError
  /\ Py.int "+ 1" = Err ValueError /\ Py.int "" = Err ValueError
  /\ Py.int (String (ascii_of_nat 28) "5") = Err ValueError
  /\ Py.strip (String (ascii_of_nat 28) "5") = "5"%string.
Proof. repeat split. Qed.

(** Beyond ASCII: [int] reads the decimal digits of every script and
    skips every white space character ([٣] is U+0663, the bytes 194 160
    are U+00A0, the bytes 194 133 are U+0085); a minus sign that is not
    the ASCII hyphen ([−], U+2212), a digit that is not decimal ([²],
    [①]) and DEL are refused.  [strip] removes the same white space. *)
Example unicode_literals :
  let nel := String (ascii_of_nat 194) (String (ascii_of_nat 133) EmptyString) in
  Py.int "٣" = Ok 3 /\ Py.int "-٣_٤" = Ok (-34) /\ Py.int "1９" = Ok 19
  /\ Py.int (nbsp +:+ "5" +:+ nel) = Ok 5
  /\ Py.int "−5" = Err ValueError /\ Py.int "²" = Err ValueError
  /\ Py.int "①" = Err ValueError
  /\ Py.int (String (ascii_of_nat 127) "5") = Err ValueError
  /\ Py.strip (nbsp +:+ " a=٣ b" +:+ nel +:+ nbsp) = "a=٣ b"%string
  /\ Py.strip (nbsp +:+ " sid=1; t=a b " +:+ nbsp) = "sid=1; t=a b"%string
  /\ Py.chars "a٣−" = ["a"; "٣"; "−"]%string
  /\ List.map Py.ord (Py.chars "a٣−𝟎") = [97; 1635; 8722; 120782]
  /\ IndexFilter.init ("٣-" +:+ nbsp +:+ "٥") = Ok [Py.Range 3 5].
Proof. repeat split. Qed.

Example tokens_ex :
  IndexFilter.tokens " 1 - 3, ,7,, 9-" = ["1-3"; "7"; "9-"]%string
  /\ IndexFilter.init "2-5, 7" = Ok [Py.Range 2 5; Py.Range 7 (-1)].
Proof. split; reflexivity. Qed.

Example dirname_ex : Path.dirname (Path.join "pyce" ["Jan"; "~7"]) = "pyce/Jan".
Proof. reflexivity. Qed.
Example dirname_ex2 : Path.dirname "/x" = "/" /\ Path.dirname "x" = "" /\ Path.dirname "a//b" = "a".
Proof. repeat split. Qed.
Example encode_ex : encode_data "hello" = Ok "aGVsbG8" /\ decode_data "aGVsbG8" = Ok "hello".
Proof. split; reflexivity. Qed.
Example encode_ex2 : encode_data "~~~?" = Ok "fn5-Pw" /\ decode_data "fn5-Pw" = Ok "~~~?".
Proof. split; reflexivity. Qed.


Lemma split_nonempty c s : Py.split c s <> [].
Proof.
  destruct s as [|x s]; simpl; [discriminate|].
  destruct (Ascii.eqb x c); [discriminate|].
  destruct (Py.split c s); discriminate.
Qed.

Lemma join_split c s : Py.join c (Py.split c s) = s.
Proof.
  induction s as [|x s IH]; simpl; [reflexivity|].
  destruct (Ascii.eqb_spec x c) as [->|Hne].
  - pose proof (split_nonempty c s) as Hn.
    destruct (Py.split c s) as [|h t] eqn:E; [congruence|].
    rewrite <- IH. reflexivity.
  - pose proof (split_nonempty c s) as Hn.
    destruct (Py.split c s) as [|h t] eqn:E; [congruence|].
    destruct t as [|h' t]; simpl in *; now rewrite <- IH.
Qed.

Lemma split_parts_clean c s : Forall (fun p => Py.contains c p = false) (Py.split c s).
Proof.
  induction s as [|x s IH]; simpl.
  - constructor; [reflexivity|constructor].
  - destruct (Ascii.eqb x c) eqn:E.
    + constructor; [reflexivity|assumption].
    + destruct (Py.split c s) as [|h t].
      * constructor; [|constructor]. simpl. now rewrite E.
      * inversion IH; subst. constructor; [|assumption].
        simpl. now rewrite E.
Qed.

Lemma split_without c s : Py.contains c s = false -> Py.split c s = [s].
Proof.
  induction s as [|x s IH]; simpl; [reflexivity|].
  destruct (Ascii.eqb x c); [discriminate|].
  intros H. now rewrite (IH H).
Qed.

Lemma split_with c s :
  Py.contains c s = true -> (2 <= length (Py.split c s))%nat.
Proof.
  induction s as [|x s IH]; simpl; [discriminate|].
  destruct (Ascii.eqb x c).
  - intros _. pose proof (split_nonempty c s).
    destruct (Py.split c s); [congruence|simpl; lia].
  - intros H. specialize (IH H).
    destruct (Py.split c s) as [|h t]; simpl in *; lia.
Qed.

Lemma remove_clean c s : Py.contains c (Py.remove c s) = false.
Proof.
  induction s as [|x s IH]; simpl; [reflexivity|].
  destruct (Ascii.eqb x c) eqn:E; [assumption|].
  simpl. now rewrite E.
Qed.

Lemma remove_filter c s :
  list_ascii_of_string (Py.remove c s)
  = List.filter (fun x => negb (Ascii.eqb x c)) (list_ascii_of_string s).
Proof.
  induction s as [|x s IH]; simpl; [reflexivity|].
  destruct (Ascii.eqb x c); simpl; [assumption|now rewrite IH].
Qed.

Lemma remove_keeps d c s :
  Py.contains d s = false -> Py.contains d (Py.remove c s) = false.
Proof.
  induction s as [|x s IH]; simpl; [reflexivity|].
  destruct (Ascii.eqb x d) eqn:E; [discriminate|].
  intros H. destruct (Ascii.eqb x c); simpl; [auto|rewrite E; auto].
Qed.

Lemma lstrip_keeps space c s :
  Py.contains c s = false -> Py.contains c (Py.lstrip_by space s) = false.
Proof.
  induction s as [|x s IH]; simpl; [reflexivity|].
  destruct (Ascii.eqb x c) eqn:E; [discriminate|].
  intros H. destruct (space x); [auto|]. simpl. now rewrite E.
Qed.

Lemma rstrip_keeps space c s :
  Py.contains c s = false -> Py.contains c (Py.rstrip_by space s) = false.
Proof.
  induction s as [|x s IH]; simpl; [reflexivity|].
  destruct (Ascii.eqb x c) eqn:E; [discriminate|].
  intros H. specialize (IH H).
  destruct (Py.rstrip_by space s) as [|y r].
  - destruct (space x); simpl; [reflexivity|now rewrite E].
  - cbn [Py.contains]. now rewrite E.
Qed.

Lemma strip_keeps space c s :
  Py.contains c s = false -> Py.contains c (Py.strip_by space s) = false.
Proof. intros H. unfold Py.strip_by. now apply rstrip_keeps, lstrip_keeps. Qed.

Lemma digit_range x d : Py.digit x = Some d -> 0 <= d <= 9.
Proof.
  unfold Py.digit. destruct (_ && _) eqn:E; [|discriminate].
  intros [= <-]. apply andb_true_iff in E as [H1 H2]. lia.
Qed.

Lemma int_digits_nonneg s : forall b acc n v m,
  Py.int_digits b acc n s = Some (v, m) -> 0 <= acc -> 0 <= v.
Proof.
  induction s as [|x s IH]; simpl; intros b acc n v m H Hacc.
  - destruct b; [discriminate|]. now injection H as <- _.
  - destruct (Py.digit x) as [d|] eqn:D.
    + apply digit_range in D. eapply IH; [exact H|lia].
    + destruct (_ && _); [|discriminate]. eapply IH; eauto.
Qed.

Lemma int_unsigned_nonneg s v : Py.int_unsigned s = Some v -> 0 <= v.
Proof.
  destruct s as [|x s]; simpl; [discriminate|].
  destruct (Py.digit x) as [d|] eqn:D; [|discriminate].
  destruct (Py.int_digits false d 1 s) as [[v' m]|] eqn:E; [|discriminate].
  destruct (_ <=? _)%nat; [|discriminate]. intros [= <-].
  apply digit_range in D. eapply int_digits_nonneg; [exact E|lia].
Qed.

Lemma contains_app c a b :
  Py.contains c (a +:+ b) = Py.contains c a || Py.contains c b.
Proof.
  induction a as [|x a IH]; [reflexivity|].
  change (String x a +:+ b) with (String x (a +:+ b)). cbn [Py.contains].
  destruct (Ascii.eqb x c); [reflexivity|exact IH].
Qed.

Lemma contains_cat c l :
  Forall (fun p => Py.contains c p = false) l -> Py.contains c (Py.cat l) = false.
Proof.
  induction 1 as [|p l Hp _ IH]; [reflexivity|].
  cbn [Py.cat]. now rewrite contains_app, Hp, IH.
Qed.

Lemma chars_keeps c s :
  Py.contains c s = false -> Forall (fun g => Py.contains c g = false) (Py.chars s).
Proof.
  induction s as [|x s IH]; cbn [Py.contains Py.chars]; [constructor|].
  destruct (Ascii.eqb x c) eqn:E; [discriminate|]. intros H. specialize (IH H).
  destruct (Py.chars s) as [|g gs].
  - constructor; [|constructor]. cbn. now rewrite E.
  - inversion IH as [|? ? Hg Hgs]; subst.
    destruct (Py.starts_continued g); constructor; try assumption.
    + cbn. now rewrite E.
    + cbn. now rewrite E.
Qed.

Lemma decimal_range n d : Py.decimal n = Some d -> 0 <= d <= 9.
Proof.
  unfold Py.decimal.
  destruct (List.find _ Py.decimal_zeros) as [z|] eqn:E; [|discriminate].
  apply List.find_some in E as [_ E]. apply andb_true_iff in E as [H1 H2].
  intros [= <-]. lia.
Qed.

Lemma to_ascii_keeps g :
  Py.contains "-" g = false -> Py.contains "-" (Py.to_ascii g) = false.
Proof.
  intros H. unfold Py.to_ascii. destruct (_ && _); [exact H|].
  destruct (Py.isspace g); [reflexivity|].
  destruct (Py.decimal (Py.ord g)) as [d|] eqn:D; [|reflexivity].
  apply decimal_range in D.
  assert (Hd : d = 0 \/ d = 1 \/ d = 2 \/ d = 3 \/ d = 4 \/ d = 5 \/ d = 6
               \/ d = 7 \/ d = 8 \/ d = 9) by lia.
  repeat (destruct Hd as [-> | Hd]; [reflexivity|]). now subst.
Qed.

Lemma transform_keeps s :
  Py.contains "-" s = false -> Py.contains "-" (Py.transform s) = false.
Proof.
  intros H. unfold Py.transform. apply contains_cat, List.Forall_map.
  eapply List.Forall_impl; [|exact (chars_keeps "-" s H)].
  intros g Hg. now apply to_ascii_keeps.
Qed.

(** A literal without a minus sign denotes a natural number. *)
Lemma int_without_minus s v :
  Py.contains "-" s = false -> Py.int s = Ok v -> 0 <= v.
Proof.
  intros Hc. apply transform_keeps, (strip_keeps Py.c_isspace) in Hc.
  unfold Py.int, Py.int_opt.
  destruct (Py.strip_by Py.c_isspace (Py.transform s)) as [|x s'] eqn:E;
    [discriminate|].
  simpl in Hc. destruct (Ascii.eqb x "+").
  - destruct (Py.int_unsigned s') eqn:U; [|discriminate].
    intros [= <-]. now apply int_unsigned_nonneg in U.
  - destruct (Ascii.eqb x "-"); [discriminate|].
    destruct (Py.int_unsigned (String x s')) eqn:U; [|discriminate].
    intros [= <-]. now apply int_unsigned_nonneg in U.
Qed.

(** ** IndexFilter: membership *)

Lemma call_loop_spec fs index :
  IndexFilter.call_loop fs index = true <-> exists f, In f fs /\ satisfies index f.
Proof.
  induction fs as [|f fs IH]; simpl.
  - split; [discriminate|]. now intros (f & [] & _).
  - unfold satisfies at 1. split.
    + destruct (Py.stop f =? -1) eqn:S.
      * destruct (Z.eqb_spec index (Py.start f)) as [->|Hne].
        -- intros _. exists f. split; [now left|]. unfold satisfies. now rewrite S.
        -- intros H. apply IH in H as (g & Hg & Hs). exists g. auto.
      * destruct (Py.in_range index f) eqn:R.
        -- intros _. exists f. split; [now left|]. unfold satisfies. rewrite S.
           unfold Py.in_range in R. lia.
        -- intros H. apply IH in H as (g & Hg & Hs). exists g. auto.
    + intros (g & [<-|Hg] & Hs).
      * unfold satisfies in Hs. destruct (Py.stop f =? -1).
        -- subst. now rewrite Z.eqb_refl.
        -- unfold Py.in_range.
           destruct (Z.leb_spec (Py.start f) index), (Z.ltb_spec index (Py.stop f));
             simpl; try lia; reflexivity.
      * assert (IndexFilter.call_loop fs index = true) as -> by (apply IH; eauto).
        now destruct (Py.stop f =? -1), (index =? Py.start f), (Py.in_range index f).
Qed.

(** C2 (amended): [matches] is true exactly when the filter list is
    empty or the index satisfies one of its entries; the empty
    specification matches every index, ["2-5"] matches exactly 2, 3
    and 4, ["-5"] exactly the indices from 0 to 4, ["3"] exactly 3, and
    the open range ["2-"] exactly the indices from 2 up to, but not
    including, [sys.maxsize]. *)
Theorem matches_spec :
  (forall fs index,
     IndexFilter.call fs index = true
     <-> fs = [] \/ exists f, In f fs /\ satisfies index f)
  /\ (forall index, matches "" index = Ok true)
  /\ (forall index,
        matches "2-5" index = Ok (bool_decide (index = 2 \/ index = 3 \/ index = 4)))
  /\ (forall index, matches "2-" index = Ok (bool_decide (2 <= index < Py.maxsize)))
  /\ (forall index, matches "-5" index = Ok (bool_decide (0 <= index < 5)))
  /\ (forall index, matches "3" index = Ok (bool_decide (index = 3))).
Proof.
  split; [|split; [|split; [|split; [|split]]]].
  - intros [|f fs] index.
    + simpl. split; auto.
    + change (IndexFilter.call (f :: fs) index)
        with (IndexFilter.call_loop (f :: fs) index).
      rewrite call_loop_spec. split; [auto|]. now intros [?|?].
  - reflexivity.
  - intros index.
    change (matches "2-5" index) with (Ok ((2 <=? index) && (index <? 5) || false)).
    f_equal. case_bool_decide; cmp_cases.
  - intros index.
    change (matches "2-" index)
      with (Ok ((2 <=? index) && (index <? Py.maxsize) || false)).
    f_equal. case_bool_decide; cmp_cases.
  - intros index.
    change (matches "-5" index) with (Ok ((0 <=? index) && (index <? 5) || false)).
    f_equal. case_bool_decide; cmp_cases.
  - intros index.
    change (matches "3" index) with (Ok (if index =? 3 then true else false)).
    f_equal. case_bool_decide; cmp_cases.
Qed.

(** C2, the open range: [sys.maxsize] itself is an index from 2 upwards
    that ["2-"] does not match. *)
Lemma matches_open_range_stops :
  2 <= 9223372036854775807 /\ matches "2-" 9223372036854775807 = Ok false.
Proof. split; [lia|reflexivity]. Qed.

(** ** IndexFilter: inverted bounds *)

Lemma call_loop_empty fs index :
  Forall empty_entry fs -> IndexFilter.call_loop fs index = false.
Proof.
  induction 1 as [|f fs [Hs Hge] _ IH]; simpl; [reflexivity|].
  destruct (Z.eqb_spec (Py.stop f) (-1)); [contradiction|].
  unfold Py.in_range. rewrite IH. cmp_cases.
Qed.

Lemma parse_token_inverted t :
  inverted t ->
  exists a b, IndexFilter.parse_token t = Ok (Py.Range a b) /\ a >= b /\ 0 <= b.
Proof.
  intros (sa & sb & a & b & Hsplit & Hsa & Hsb & Ha & Hb & Hab).
  exists a, b. split; [|split; [assumption|]].
  - unfold IndexFilter.parse_token.
    destruct (Py.contains "-" t) eqn:C.
    + rewrite Hsplit. destruct sa; [congruence|]. destruct sb; [congruence|].
      cbn [Py.truthy]. rewrite Ha, Hb. reflexivity.
    + apply split_without in C. rewrite C in Hsplit. discriminate.
  - pose proof (split_parts_clean "-" t) as Hclean. rewrite Hsplit in Hclean.
    inversion Hclean as [|? ? _ Hrest]; subst.
    inversion Hrest as [|? ? Hc _]; subst.
    eapply int_without_minus; eauto.
Qed.

Lemma parse_tokens_inverted ts :
  Forall inverted ts ->
  exists fs, IndexFilter.parse_tokens ts = Ok fs
             /\ length fs = length ts /\ Forall empty_entry fs.
Proof.
  induction 1 as [|t ts Ht _ (fs & Hfs & Hlen & Hall)]; simpl.
  - exists []. auto.
  - destruct (parse_token_inverted t Ht) as (a & b & -> & Hab & Hb).
    simpl. rewrite Hfs. simpl. exists (Py.Range a b :: fs).
    split; [reflexivity|]. split; [simpl; now rewrite Hlen|].
    constructor; [|assumption]. split; simpl; lia.
Qed.

(** C10: a bounded token [a-b] with [a >= b] parses without error to an
    entry that matches no index, and a specification made of such
    tokens only (at least one) yields a filter that matches no index. *)
Theorem inverted_bounds_match_nothing :
  (forall t, inverted t ->
     exists a b,
       IndexFilter.parse_token t = Ok (Py.Range a b) /\ a >= b
       /\ forall index, IndexFilter.call [Py.Range a b] index = false)
  /\ (forall filters,
        IndexFilter.tokens filters <> [] ->
        Forall inverted (IndexFilter.tokens filters) ->
        exists fs,
          IndexFilter.init filters = Ok fs /\ fs <> []
          /\ forall index, IndexFilter.call fs index = false).
Proof.
  split.
  - intros t Ht. destruct (parse_token_inverted t Ht) as (a & b & Hp & Hab & Hb).
    exists a, b. split; [assumption|]. split; [assumption|]. intros index.
    apply call_loop_empty. constructor; [|constructor]. split; simpl; lia.
  - intros filters Hne Hall. unfold IndexFilter.init.
    destruct (parse_tokens_inverted _ Hall) as (fs & Hfs & Hlen & Hempty).
    exists fs. split; [assumption|].
    destruct fs as [|f fs].
    + destruct (IndexFilter.tokens filters); [congruence|discriminate].
    + split; [discriminate|]. intros index.
      now apply (call_loop_empty (f :: fs)).
Qed.

Lemma inverted_5_2 : inverted "5-2".
Proof.
  exists "5"%string, "2"%string, 5, 2. repeat split; discriminate.
Qed.

(** C10 at ["5-2"] and at the specification ["5-2, 9-9"]. *)
Lemma inverted_bounds_witness :
  (exists a b,
     IndexFilter.parse_token "5-2" = Ok (Py.Range a b) /\ a >= b
     /\ forall index, IndexFilter.call [Py.Range a b] index = false)
  /\ (exists fs,
        IndexFilter.init "5-2, 9-9" = Ok fs /\ fs <> []
        /\ forall index, IndexFilter.call fs index = false).
Proof.
  split.
  - apply (proj1 inverted_bounds_match_nothing), inverted_5_2.
  - apply (proj2 inverted_bounds_match_nothing).
    + discriminate.
    + repeat constructor.
      * exact inverted_5_2.
      * exists "9"%string, "9"%string, 9, 9. repeat split; discriminate.
Defined.

(** ** IndexFilter: parsing *)

Lemma int_error s e : Py.int s = Err e -> e = ValueError.
Proof. unfold Py.int. destruct (Py.int_opt s); [discriminate|]. now intros [= <-]. Qed.

Lemma parse_token_error t e : IndexFilter.parse_token t = Err e -> e = ValueError.
Proof.
  unfold IndexFilter.parse_token. destruct (Py.contains "-" t).
  - destruct (Py.split "-" t) as [|s [|e' [|]]]; try (now intros [= <-]).
    destruct (Py.truthy s), (Py.truthy e'); simpl;
      repeat match goal with
        | |- context [Py.int ?x] =>
            let E := fresh in destruct (Py.int x) eqn:E; simpl;
            [|apply int_error in E; subst]
        end; congruence.
  - destruct (Py.int t) eqn:E; simpl; [discriminate|].
    apply int_error in E. congruence.
Qed.

Lemma parse_token_fails t :
  is_ok (IndexFilter.parse_token t) = false
  <-> malformed t = true \/ overhyphenated t = true.
Proof.
  unfold IndexFilter.parse_token, malformed, overhyphenated, not_integer.
  destruct (Py.contains "-" t) eqn:C; simpl.
  - destruct (Py.split "-" t) as [|s [|e [|x l]]] eqn:S; simpl.
    + now destruct (split_nonempty "-" t).
    + apply split_with in C. rewrite S in C. simpl in C. lia.
    + destruct (Py.truthy s), (Py.truthy e), (Py.int s), (Py.int e);
        simpl; intuition congruence.
    + intuition.
  - destruct (Py.int t); simpl; intuition congruence.
Qed.

Lemma parse_tokens_fails ts :
  is_ok (IndexFilter.parse_tokens ts) = false
  <-> exists t, In t ts /\ is_ok (IndexFilter.parse_token t) = false.
Proof.
  induction ts as [|t ts IH]; simpl.
  - split; [discriminate|]. now intros (? & [] & _).
  - destruct (IndexFilter.parse_token t) as [r|e] eqn:E; simpl.
    + destruct (IndexFilter.parse_tokens ts) as [rs|e] eqn:E'; simpl in *.
      * split; [discriminate|]. intros (u & [<-|Hu] & Hf).
        -- rewrite E in Hf. discriminate.
        -- apply IH. eauto.
      * split; [|reflexivity]. intros _.
        destruct (proj1 IH eq_refl) as (u & Hu & Hf). eauto.
    + split; [|reflexivity]. intros _. exists t. rewrite E. auto.
Qed.

Lemma parse_tokens_error ts e : IndexFilter.parse_tokens ts = Err e -> e = ValueError.
Proof.
  induction ts as [|t ts IH]; simpl; [discriminate|].
  destruct (IndexFilter.parse_token t) eqn:E; simpl.
  - destruct (IndexFilter.parse_tokens ts); simpl; [discriminate|].
    intros [= <-]. now apply IH.
  - intros [= <-]. now apply parse_token_error in E.
Qed.

Lemma init_not_ok filters :
  is_ok (IndexFilter.init filters) = false ->
  IndexFilter.init filters = Err ValueError.
Proof.
  destruct (IndexFilter.init filters) eqn:E; [discriminate|].
  intros _. unfold IndexFilter.init in E. apply parse_tokens_error in E. now subst.
Qed.

(** C7 (amended): parsing fails exactly when some token without hyphen
    is not an integer, or some hyphenated token has a non-empty part
    that is not an integer or has more than one hyphen; the failure is
    a [ValueError]; and when one of the three filters of a run fails to
    parse, [main] raises before anything happens in the world: no
    request is sent, no reply is consumed, nothing is logged. *)
Theorem parse_failure :
  (forall filters,
     is_ok (IndexFilter.init filters) = false
     <-> exists t, In t (IndexFilter.tokens filters)
                   /\ (malformed t = true \/ overhyphenated t = true))
  /\ (forall filters e, IndexFilter.init filters = Err e -> e = ValueError)
  /\ (forall args w,
        is_ok (IndexFilter.init (arg_market_filter args))
        && is_ok (IndexFilter.init (arg_time_period_filter args))
        && is_ok (IndexFilter.init (arg_column_filter args)) = false ->
        main args w = (Raise ValueError, w)).
Proof.
  split; [|split].
  - intros filters. unfold IndexFilter.init. rewrite parse_tokens_fails.
    split; intros (t & Ht & Hf); exists t; (split; [assumption|]);
      now apply parse_token_fails.
  - intros filters e. unfold IndexFilter.init. apply parse_tokens_error.
  - intros args w H. unfold main, IceReport.init, bind.
    destruct (IndexFilter.init (arg_market_filter args)) eqn:E1; simpl in *.
    + destruct (IndexFilter.init (arg_time_period_filter args)) eqn:E2; simpl in *.
      * rewrite (init_not_ok _ H). reflexivity.
      * assert (is_ok (IndexFilter.init (arg_time_period_filter args)) = false)
          as H2 by now rewrite E2.
        rewrite (init_not_ok _ H2) in E2. injection E2 as ->. reflexivity.
    + assert (is_ok (IndexFilter.init (arg_market_filter args)) = false)
        as H1 by now rewrite E1.
      rewrite (init_not_ok _ H1) in E1. injection E1 as ->. reflexivity.
Qed.

(** C7 as stated fails at ["1-2-3"]: every part of the only token is an
    integer, yet parsing raises. *)
Lemma parse_failure_counterexample :
  IndexFilter.tokens "1-2-3" = ["1-2-3"%string]
  /\ malformed "1-2-3" = false
  /\ IndexFilter.init "1-2-3" = Err ValueError.
Proof. repeat split. Qed.

(** C7 at a run whose column filter is ["1-2-3"], with a server ready
    to answer: nothing is sent. *)
Lemma parse_failure_witness :
  let args := {| arg_report_id := 7; arg_market_filter := "-";
                 arg_time_period_filter := "0"; arg_column_filter := "1-2-3";
                 arg_base_dir := "pyce" |} in
  let w := World ∅ None None
             [Replied {| status_code := 200; retry_after := None;
                         body := JCriterion [] |}]
             [] (fun _ => NoFault) [] in
  main args w = (Raise ValueError, w).
Proof.
  intros args w. apply (proj2 (proj2 parse_failure)). reflexivity.
Defined.

(** ** IndexFilter: tokens *)

Lemma filter_truthy_In t l :
  In t (List.filter Py.truthy l) <-> t <> EmptyString /\ In t l.
Proof.
  rewrite filter_In. destruct t; simpl; intuition congruence.
Qed.

(** C8 (amended): the specification is split on commas (the pieces
    contain no comma and joined by commas give the input back); from
    each piece every space character is removed, interior ones
    included, and nothing else (the other characters stay, in order);
    the pieces that are empty after that are dropped, so every token is
    non-empty and free of spaces and commas. *)
Theorem tokens_spec :
  (forall filters,
     Py.join "," (Py.split "," filters) = filters
     /\ Forall (fun p => Py.contains "," p = false) (Py.split "," filters))
  /\ (forall piece,
        list_ascii_of_string (Py.remove " " piece)
        = List.filter (fun x => negb (Ascii.eqb x " ")) (list_ascii_of_string piece))
  /\ (forall filters t,
        In t (IndexFilter.tokens filters)
        <-> t <> EmptyString
            /\ exists piece, In piece (Py.split "," filters)
                             /\ t = Py.remove " " piece)
  /\ (forall filters t,
        In t (IndexFilter.tokens filters) ->
        Py.contains " " t = false /\ Py.contains "," t = false).
Proof.
  split; [|split; [|split]].
  - intros filters. split; [apply join_split|apply split_parts_clean].
  - intros piece. apply remove_filter.
  - intros filters t. unfold IndexFilter.tokens.
    rewrite filter_truthy_In, in_map_iff.
    split; intros [Hne (piece & H1 & H2)]; (split; [assumption|]);
      exists piece; auto.
  - intros filters t. unfold IndexFilter.tokens.
    rewrite filter_truthy_In, in_map_iff. intros [_ (piece & <- & Hin)].
    split; [apply remove_clean|]. apply remove_keeps.
    pose proof (split_parts_clean "," filters) as Hall.
    rewrite List.Forall_forall in Hall. now apply Hall.
Qed.

(** C8 as stated fails at ["1 2"]: stripping would leave the token
    ["1 2"], which is not an integer; the code removes the interior
    space and parses the singleton 12. *)
Lemma tokens_counterexample :
  spec_tokens "1 2" = ["1 2"%string]
  /\ IndexFilter.tokens "1 2" = ["12"%string]
  /\ IndexFilter.init "1 2" = Ok [Py.Range 12 (-1)]
  /\ Py.int "1 2" = Err ValueError.
Proof. repeat split. Qed.

(** ** base64: decoding what was encoded *)

Lemma val_range b : 0 <= Base64.val b < 256.
Proof. unfold Base64.val. pose proof (Byte.to_N_bounded b). lia. Qed.

Lemma chr_val b : Base64.chr (Base64.val b) = b.
Proof.
  unfold Base64.chr. rewrite Z.mod_small by apply val_range.
  unfold Base64.val. rewrite N2Z.id, Byte.of_to_N. reflexivity.
Qed.

Lemma in_all_bytes b : In b all_bytes.
Proof.
  unfold all_bytes. apply in_map_iff. exists (Z.to_nat (Base64.val b)).
  pose proof (val_range b). split.
  - rewrite Z2Nat.id by lia. apply chr_val.
  - apply in_seq. lia.
Qed.

Lemma in_all_sextets n : 0 <= n < 64 -> In n all_sextets.
Proof.
  intros H. unfold all_sextets. apply in_map_iff. exists (Z.to_nat n).
  split; [lia|]. apply in_seq. lia.
Qed.

Lemma sextet_ok_all n : 0 <= n < 64 -> sextet_ok n = true.
Proof.
  intros H. apply in_all_sextets in H. revert n H. apply forallb_forall.
  vm_compute. reflexivity.
Qed.

Lemma quad_ok12_all a b : quad_ok12 a b = true.
Proof.
  assert (forallb (fun a => forallb (quad_ok12 a) all_bytes) all_bytes = true) as H
    by (vm_compute; reflexivity).
  rewrite forallb_forall in H. specialize (H a (in_all_bytes a)).
  rewrite forallb_forall in H. exact (H b (in_all_bytes b)).
Qed.

Lemma quad_ok34_all b c : quad_ok34 b c = true.
Proof.
  assert (forallb (fun b => forallb (quad_ok34 b) all_bytes) all_bytes = true) as H
    by (vm_compute; reflexivity).
  rewrite forallb_forall in H. specialize (H b (in_all_bytes b)).
  rewrite forallb_forall in H. exact (H c (in_all_bytes c)).
Qed.

Lemma sextet_char n :
  0 <= n < 64 ->
  is_urlsafe (urlsafe_char n) = true
  /\ Byte.eqb (Base64.urlsafe_decode_translation (urlsafe_char n)) Base64.PAD = false
  /\ Base64.a2b (Base64.urlsafe_decode_translation (urlsafe_char n)) = Some n.
Proof.
  intros H. pose proof (sextet_ok_all n H) as Hok. unfold sextet_ok in Hok.
  apply andb_true_iff in Hok as [Hok H3]. apply andb_true_iff in Hok as [H1 H2].
  split; [assumption|]. split; [now apply negb_true_iff|].
  destruct (Base64.a2b _) as [v|]; [|discriminate].
  apply Z.eqb_eq in H3. now subst.
Qed.

Lemma is_sextet_range n : is_sextet n = true -> 0 <= n < 64.
Proof. unfold is_sextet. intros H. apply andb_true_iff in H. lia. Qed.

Lemma sextet_ranges a b c :
  0 <= sextet1 a < 64 /\ 0 <= sextet2 a b < 64
  /\ 0 <= sextet3 b c < 64 /\ 0 <= sextet4 c < 64.
Proof.
  pose proof (quad_ok12_all a b) as H12. pose proof (quad_ok34_all b c) as H34.
  unfold quad_ok12 in H12. unfold quad_ok34 in H34.
  rewrite !andb_true_iff in H12. rewrite !andb_true_iff in H34.
  destruct H12 as [[[A1 A2] _] _]. destruct H34 as [[[[A3 A4] _] _] _].
  split; [|split; [|split]]; now apply is_sextet_range.
Qed.

(** One alphabet character through the decoding loop. *)
Lemma a2b_loop_char q l pads n rest :
  0 <= n < 64 ->
  Base64.a2b_loop q l pads (Base64.urlsafe_decode_translation (urlsafe_char n) :: rest)
  = match q with
    | O => Base64.a2b_loop 1 n 0 rest
    | 1%nat =>
        rbind (Base64.a2b_loop 2 (Z.land n 15) 0 rest) (fun out =>
        Ok (Base64.chr (Z.lor (Z.shiftl l 2) (Z.shiftr n 4)) :: out))
    | 2%nat =>
        rbind (Base64.a2b_loop 3 (Z.land n 3) 0 rest) (fun out =>
        Ok (Base64.chr (Z.lor (Z.shiftl l 4) (Z.shiftr n 2)) :: out))
    | _ =>
        rbind (Base64.a2b_loop 0 0 0 rest) (fun out =>
        Ok (Base64.chr (Z.lor (Z.shiftl l 6) n) :: out))
    end.
Proof.
  intros H. destruct (sextet_char n H) as (_ & Hpad & Hval).
  cbn [Base64.a2b_loop]. rewrite Hpad, Hval. reflexivity.
Qed.

Lemma byte_eqb_eq a b : Byte.eqb a b = true -> a = b.
Proof. apply Byte.byte_dec_bl. Qed.

Lemma decode_first a b :
  Base64.chr (Z.lor (Z.shiftl (sextet1 a) 2) (Z.shiftr (sextet2 a b) 4)) = a
  /\ Z.land (sextet2 a b) 15 = Z.shiftr (Base64.val b) 4.
Proof.
  pose proof (quad_ok12_all a b) as H. unfold quad_ok12 in H.
  apply andb_true_iff in H as [H H2]. apply andb_true_iff in H as [_ H1].
  split; [now apply byte_eqb_eq|now apply Z.eqb_eq].
Qed.

Lemma decode_rest b c :
  Base64.chr (Z.lor (Z.shiftl (Z.shiftr (Base64.val b) 4) 4)
                    (Z.shiftr (sextet3 b c) 2)) = b
  /\ Z.land (sextet3 b c) 3 = Z.shiftr (Base64.val c) 6
  /\ Base64.chr (Z.lor (Z.shiftl (Z.shiftr (Base64.val c) 6) 6) (sextet4 c)) = c.
Proof.
  pose proof (quad_ok34_all b c) as H. unfold quad_ok34 in H.
  apply andb_true_iff in H as [H H3]. apply andb_true_iff in H as [H H2].
  apply andb_true_iff in H as [_ H1].
  split; [now apply byte_eqb_eq|]. split; [now apply Z.eqb_eq|now apply byte_eqb_eq].
Qed.

(** A full quad decodes to its three bytes, whatever follows. *)
Lemma decode_quad a b c rest :
  Base64.a2b_loop 0 0 0
    (List.map Base64.urlsafe_decode_translation
       (urlsafe_char (sextet1 a) :: urlsafe_char (sextet2 a b)
        :: urlsafe_char (sextet3 b c) :: urlsafe_char (sextet4 c) :: rest))
  = rbind (Base64.a2b_loop 0 0 0 (List.map Base64.urlsafe_decode_translation rest))
          (fun out => Ok (a :: b :: c :: out)).
Proof.
  destruct (sextet_ranges a b c) as (R1 & R2 & R3 & R4).
  cbn [List.map].
  rewrite (a2b_loop_char 0 _ _ _ _ R1), (a2b_loop_char 1 _ _ _ _ R2),
    (a2b_loop_char 2 _ _ _ _ R3), (a2b_loop_char 3 _ _ _ _ R4).
  destruct (decode_first a b) as [-> ->].
  destruct (decode_rest b c) as (-> & -> & ->).
  destruct (Base64.a2b_loop 0 0 0 _); reflexivity.
Qed.

Lemma map_decode_pads p :
  List.map Base64.urlsafe_decode_translation (repeat Base64.PAD p)
  = repeat Base64.PAD p.
Proof. induction p; simpl; [reflexivity|now rewrite IHp]. Qed.

(** Padding at a quad boundary is ignored. *)
Lemma decode_pads0 l pads p :
  Base64.a2b_loop 0 l pads (repeat Base64.PAD p) = Ok [].
Proof. induction p; simpl; [reflexivity|assumption]. Qed.

(** One byte: two characters, then at least two padding characters. *)
Lemma decode_tail1 a p :
  (2 <= p)%nat ->
  Base64.a2b_loop 0 0 0
    (List.map Base64.urlsafe_decode_translation
       ([urlsafe_char (sextet1 a); urlsafe_char (sextet2 a x00)]
        ++ repeat Base64.PAD p))
  = Ok [a].
Proof.
  intros Hp. destruct p as [|[|p]]; try lia.
  destruct (sextet_ranges a x00 x00) as (R1 & R2 & _).
  cbn [List.map app].
  rewrite (a2b_loop_char 0 _ _ _ _ R1), (a2b_loop_char 1 _ _ _ _ R2).
  destruct (decode_first a x00) as [-> _]. reflexivity.
Qed.

(** Two bytes: three characters, then at least one padding character. *)
Lemma decode_tail2 a b p :
  (1 <= p)%nat ->
  Base64.a2b_loop 0 0 0
    (List.map Base64.urlsafe_decode_translation
       ([urlsafe_char (sextet1 a); urlsafe_char (sextet2 a b);
         urlsafe_char (sextet3 b x00)] ++ repeat Base64.PAD p))
  = Ok [a; b].
Proof.
  intros Hp. destruct p as [|p]; try lia.
  destruct (sextet_ranges a b x00) as (R1 & R2 & R3 & _).
  cbn [List.map app].
  rewrite (a2b_loop_char 0 _ _ _ _ R1), (a2b_loop_char 1 _ _ _ _ R2),
    (a2b_loop_char 2 _ _ _ _ R3).
  destruct (decode_first a b) as [-> ->].
  destruct (decode_rest b x00) as (-> & _). reflexivity.
Qed.

Lemma list_ind3 {A} (P : list A -> Prop) :
  P [] -> (forall a, P [a]) -> (forall a b, P [a; b]) ->
  (forall a b c l, P l -> P (a :: b :: c :: l)) ->
  forall l, P l.
Proof.
  intros H0 H1 H2 H3. fix IH 1.
  intros [|a [|b [|c l]]]; [exact H0|apply H1|apply H2|apply H3, IH].
Qed.

Lemma encode_quad a b c s :
  Base64.urlsafe_b64encode (a :: b :: c :: s)
  = urlsafe_char (sextet1 a) :: urlsafe_char (sextet2 a b)
    :: urlsafe_char (sextet3 b c) :: urlsafe_char (sextet4 c)
    :: Base64.urlsafe_b64encode s.
Proof. reflexivity. Qed.

Lemma encode_one a :
  Base64.urlsafe_b64encode [a]
  = [urlsafe_char (sextet1 a); urlsafe_char (sextet2 a x00); Base64.PAD; Base64.PAD].
Proof.
  unfold Base64.urlsafe_b64encode, urlsafe_char, sextet1, sextet2.
  cbn [Base64.b64encode List.map].
  change (Z.shiftr (Base64.val x00) 4) with 0. rewrite Z.lor_0_r. reflexivity.
Qed.

Lemma encode_two a b :
  Base64.urlsafe_b64encode [a; b]
  = [urlsafe_char (sextet1 a); urlsafe_char (sextet2 a b);
     urlsafe_char (sextet3 b x00); Base64.PAD].
Proof.
  unfold Base64.urlsafe_b64encode, urlsafe_char, sextet1, sextet2, sextet3.
  cbn [Base64.b64encode List.map].
  change (Z.shiftr (Base64.val x00) 6) with 0. rewrite Z.lor_0_r. reflexivity.
Qed.

Lemma urlsafe_excludes_all c : urlsafe_excludes c = true.
Proof.
  revert c. assert (forallb urlsafe_excludes all_bytes = true) as H
    by (vm_compute; reflexivity).
  rewrite forallb_forall in H. intros c. apply H, in_all_bytes.
Qed.

Lemma urlsafe_facts c :
  is_urlsafe c = true ->
  Byte.eqb c Base64.PAD = false
  /\ Utf8.between 0 127 c = true
  /\ Ascii.eqb (ascii_of_byte c) "=" = false
  /\ Ascii.eqb (ascii_of_byte c) "/" = false
  /\ (128 <=? Py.code (ascii_of_byte c)) && (Py.code (ascii_of_byte c) <? 192) = false.
Proof.
  intros H. pose proof (urlsafe_excludes_all c) as E. unfold urlsafe_excludes in E.
  rewrite H in E. cbn [implb] in E. rewrite !andb_true_iff in E.
  rewrite !negb_true_iff in E. tauto.
Qed.

Lemma rstrip_pad_cons c s :
  Byte.eqb c Base64.PAD = false ->
  Base64.rstrip_pad (c :: s) = c :: Base64.rstrip_pad s.
Proof.
  intros H. cbn [Base64.rstrip_pad]. rewrite H.
  now destruct (Base64.rstrip_pad s).
Qed.

Lemma rstrip_pad_char n s :
  0 <= n < 64 ->
  Base64.rstrip_pad (urlsafe_char n :: s) = urlsafe_char n :: Base64.rstrip_pad s.
Proof.
  intros H. apply rstrip_pad_cons.
  destruct (sextet_char n H) as (U & _). now apply urlsafe_facts in U.
Qed.

(** The encoding without its padding, by the length of the input. *)
Lemma stripped_quad a b c s :
  Base64.rstrip_pad (Base64.urlsafe_b64encode (a :: b :: c :: s))
  = urlsafe_char (sextet1 a) :: urlsafe_char (sextet2 a b)
    :: urlsafe_char (sextet3 b c) :: urlsafe_char (sextet4 c)
    :: Base64.rstrip_pad (Base64.urlsafe_b64encode s).
Proof.
  destruct (sextet_ranges a b c) as (R1 & R2 & R3 & R4).
  rewrite encode_quad. now rewrite !rstrip_pad_char.
Qed.

Lemma stripped_one a :
  Base64.rstrip_pad (Base64.urlsafe_b64encode [a])
  = [urlsafe_char (sextet1 a); urlsafe_char (sextet2 a x00)].
Proof.
  destruct (sextet_ranges a x00 x00) as (R1 & R2 & _).
  rewrite encode_one. now rewrite !rstrip_pad_char.
Qed.

Lemma stripped_two a b :
  Base64.rstrip_pad (Base64.urlsafe_b64encode [a; b])
  = [urlsafe_char (sextet1 a); urlsafe_char (sextet2 a b);
     urlsafe_char (sextet3 b x00)].
Proof.
  destruct (sextet_ranges a b x00) as (R1 & R2 & R3 & _).
  rewrite encode_two. now rewrite !rstrip_pad_char.
Qed.

Lemma stripped_urlsafe s :
  Forall (fun c => is_urlsafe c = true)
         (Base64.rstrip_pad (Base64.urlsafe_b64encode s)).
Proof.
  induction s as [|a|a b|a b c s IH] using list_ind3.
  - constructor.
  - rewrite stripped_one. destruct (sextet_ranges a x00 x00) as (R1 & R2 & _).
    repeat constructor; now apply sextet_char.
  - rewrite stripped_two. destruct (sextet_ranges a b x00) as (R1 & R2 & R3 & _).
    repeat constructor; now apply sextet_char.
  - rewrite stripped_quad. destruct (sextet_ranges a b c) as (R1 & R2 & R3 & R4).
    repeat (constructor; [now apply sextet_char|]). assumption.
Qed.

(** The length of the stripped encoding: 4 characters for 3 bytes, 2
    for a last single byte, 3 for a last pair. *)
Lemma stripped_length s :
  exists k r : nat,
    length s = (3 * k + r)%nat /\ (r < 3)%nat
    /\ length (Base64.rstrip_pad (Base64.urlsafe_b64encode s))
       = (4 * k + (if (r =? 0)%nat then 0 else r + 1))%nat.
Proof.
  induction s as [|a|a b|a b c s (k & r & H1 & H2 & H3)] using list_ind3.
  - exists 0%nat, 0%nat. repeat split; lia.
  - exists 0%nat, 1%nat. rewrite stripped_one. repeat split; simpl; lia.
  - exists 0%nat, 2%nat. rewrite stripped_two. repeat split; simpl; lia.
  - exists (S k), r. rewrite stripped_quad. cbn [length]. rewrite H1, H3.
    repeat split; lia.
Qed.

Lemma decode_stripped s p :
  pad_enough (length s) p ->
  Base64.a2b_loop 0 0 0
    (List.map Base64.urlsafe_decode_translation
       (Base64.rstrip_pad (Base64.urlsafe_b64encode s) ++ repeat Base64.PAD p))
  = Ok s.
Proof.
  induction s as [|a|a b|a b c s IH] using list_ind3; intros [Hp1 Hp2].
  - cbn [Base64.urlsafe_b64encode Base64.b64encode List.map Base64.rstrip_pad app].
    rewrite map_decode_pads. apply decode_pads0.
  - rewrite stripped_one. apply decode_tail1. apply Hp1. reflexivity.
  - rewrite stripped_two. apply decode_tail2. apply Hp2. reflexivity.
  - rewrite stripped_quad. cbn [app]. rewrite decode_quad.
    rewrite IH; [reflexivity|].
    cbn [length] in Hp1, Hp2.
    replace (S (S (S (length s)))) with (length s + 1 * 3)%nat in Hp1, Hp2 by lia.
    rewrite Nat.Div0.mod_add in Hp1, Hp2. split; assumption.
Qed.

Lemma string_of_bytes_cons c e :
  string_of_list_byte (c :: e) = String (ascii_of_byte c) (string_of_list_byte e).
Proof. reflexivity. Qed.

Lemma valid_urlsafe e :
  Forall (fun c => is_urlsafe c = true) e -> Utf8.valid e = true.
Proof.
  induction 1 as [|c e Hc _ IH]; [reflexivity|].
  apply urlsafe_facts in Hc as (_ & Hc & _). cbn [Utf8.valid]. now rewrite Hc.
Qed.

Lemma len_urlsafe e :
  Forall (fun c => is_urlsafe c = true) e ->
  Py.len (string_of_list_byte e) = Z.of_nat (length e).
Proof.
  induction 1 as [|c e Hc _ IH]; [reflexivity|].
  apply urlsafe_facts in Hc as (_ & _ & _ & _ & Hc).
  rewrite string_of_bytes_cons. cbn [Py.len length]. rewrite Hc, IH. lia.
Qed.

Lemma urlsafe_no_pad e :
  Forall (fun c => is_urlsafe c = true) e ->
  Py.contains "=" (string_of_list_byte e) = false
  /\ Py.contains "/" (string_of_list_byte e) = false.
Proof.
  induction 1 as [|c e Hc _ [IH1 IH2]]; [split; reflexivity|].
  apply urlsafe_facts in Hc as (_ & _ & H1 & H2 & _).
  rewrite string_of_bytes_cons. cbn [Py.contains]. now rewrite H1, H2.
Qed.

Lemma encode_data_ok s :
  encode_data s
  = Ok (string_of_list_byte
          (Base64.rstrip_pad (Base64.urlsafe_b64encode (Utf8.encode s)))).
Proof.
  unfold encode_data, Utf8.decode.
  now rewrite (valid_urlsafe _ (stripped_urlsafe (Utf8.encode s))).
Qed.

(** The padding that [decode_data] restores is enough. *)
Lemma encode_file_name market : encode_data market = Ok (file_name market).
Proof. unfold file_name. now rewrite encode_data_ok. Qed.

Lemma restored_padding_enough s :
  pad_enough (length s)
    (Z.to_nat
       ((- Z.of_nat (length (Base64.rstrip_pad (Base64.urlsafe_b64encode s))))
        mod 8)).
Proof.
  destruct (stripped_length s) as (k & r & H1 & H2 & H3). rewrite H1, H3.
  unfold pad_enough. replace (3 * k + r)%nat with (r + k * 3)%nat by lia.
  rewrite Nat.Div0.mod_add, Nat.mod_small by assumption.
  split; intros ->; cbn [Nat.eqb Nat.add].
  - assert (2 <= (- Z.of_nat (4 * k + 2)) mod 8); [|lia].
    pose proof (Z.mod_pos_bound (- Z.of_nat (4 * k + 2)) 8 ltac:(lia)).
    pose proof (Z.div_mod (- Z.of_nat (4 * k + 2)) 8 ltac:(lia)). lia.
  - assert (1 <= (- Z.of_nat (4 * k + 3)) mod 8); [|lia].
    pose proof (Z.mod_pos_bound (- Z.of_nat (4 * k + 3)) 8 ltac:(lia)).
    pose proof (Z.div_mod (- Z.of_nat (4 * k + 3)) 8 ltac:(lia)). lia.
Qed.

(** C9: for every string (a well-formed [str], given by its UTF-8
    bytes), [encode_data] succeeds, its result contains no [=], and
    [decode_data] gives the string back. *)
Theorem decode_encode_data s :
  Utf8.wellformed s ->
  exists e,
    encode_data s = Ok e /\ Py.contains "=" e = false /\ decode_data e = Ok s.
Proof.
  intros Hwf. rewrite encode_data_ok.
  set (E := Base64.rstrip_pad (Base64.urlsafe_b64encode (Utf8.encode s))).
  pose proof (stripped_urlsafe (Utf8.encode s)) as HE. fold E in HE.
  exists (string_of_list_byte E). split; [reflexivity|].
  split; [now apply urlsafe_no_pad|].
  unfold decode_data, Utf8.encode at 1.
  rewrite list_byte_of_string_of_list_byte, (len_urlsafe _ HE).
  unfold Base64.urlsafe_b64decode, Base64.b64decode.
  unfold E. rewrite decode_stripped by apply restored_padding_enough.
  cbn [rbind]. unfold Utf8.decode, Utf8.encode.
  unfold Utf8.wellformed in Hwf. rewrite Hwf.
  now rewrite string_of_list_byte_of_string.
Qed.

(** C9 at a string whose standard base64 form, [fn5+PyA/Pg==], has
    [+], [/] and padding. *)
Lemma decode_encode_data_witness :
  exists e,
    encode_data "~~~? ?>" = Ok e /\ Py.contains "=" e = false
    /\ decode_data e = Ok "~~~? ?>"%string.
Proof. apply decode_encode_data. reflexivity. Defined.

(** ** The request loop *)

Example report7_init : IceReport.init 7 "-" "0" "-" "pyce" BASE_URL = Ok report7.
Proof. reflexivity. Qed.

Section Request.

Variable self : IceReport.t.
Variables method url : string.
Variable data : list (string * string).

Let request := IceReport.request self method url data.

Lemma request_success w r rest :
  server w = Replied r :: rest ->
  status_code r < 400 \/ 600 <= status_code r ->
  request w
  = (Return r, set_server rest (emit (Send method url data (cookie w)) w)).
Proof.
  intros Hs Hr. unfold request, IceReport.request. rewrite Hs.
  cbn [IceReport.request_loop]. unfold bind, Os.session_request. rewrite Hs.
  unfold Os.raise_for_status.
  replace ((400 <=? status_code r) && (status_code r <? 600)) with false
    by (symmetry; cmp_cases).
  reflexivity.
Qed.

Lemma request_fatal w r rest :
  server w = Replied r :: rest ->
  400 <= status_code r < 600 -> status_code r <> 409 -> status_code r <> 429 ->
  request w
  = (Raise (HTTPError (status_code r)),
     emit (Print (MError (HTTPError (status_code r))))
          (set_server rest (emit (Send method url data (cookie w)) w))).
Proof.
  intros Hs Hr H409 H429. unfold request, IceReport.request. rewrite Hs.
  cbn [IceReport.request_loop]. unfold bind, Os.session_request. rewrite Hs.
  unfold Os.raise_for_status.
  replace ((400 <=? status_code r) && (status_code r <? 600)) with true
    by (symmetry; cmp_cases).
  cbn. destruct (Z.eqb_spec (status_code r) 409); [contradiction|].
  destruct (Z.eqb_spec (status_code r) 429); [contradiction|]. reflexivity.
Qed.

Lemma request_conflict w r rest line more :
  server w = Replied r :: rest ->
  status_code r = 409 -> stdin w = line :: more ->
  request w
  = request
      (set_cookie (Some (Py.strip line))
         (set_stdin more
            (emit (Input (IceReport.cookie_prompt self))
               (emit (Print (MError (HTTPError 409)))
                  (set_server rest (emit (Send method url data (cookie w)) w)))))).
Proof.
  intros Hs Hr Hin. unfold request, IceReport.request. rewrite Hs.
  cbn [IceReport.request_loop]. unfold bind at 1, Os.session_request. rewrite Hs.
  unfold Os.raise_for_status. rewrite Hr. cbn.
  unfold bind, Os.input. cbn. rewrite Hin. reflexivity.
Qed.

Lemma request_conflict_eof w r rest :
  server w = Replied r :: rest ->
  status_code r = 409 -> stdin w = [] ->
  request w
  = (Raise EOFError,
     emit (Input (IceReport.cookie_prompt self))
       (emit (Print (MError (HTTPError 409)))
          (set_server rest (emit (Send method url data (cookie w)) w)))).
Proof.
  intros Hs Hr Hin. unfold request, IceReport.request. rewrite Hs.
  cbn [IceReport.request_loop]. unfold bind at 1, Os.session_request. rewrite Hs.
  unfold Os.raise_for_status. rewrite Hr. cbn.
  unfold bind, Os.input. cbn. rewrite Hin. reflexivity.
Qed.

Lemma request_too_many w r rest h n :
  server w = Replied r :: rest ->
  status_code r = 429 -> retry_after r = Some h -> Py.int h = Ok n ->
  0 <= n <= Py.max_sleep ->
  request w
  = request
      (emit (Sleep n)
         (emit (Print (MSleep n))
            (emit (Print (MError (HTTPError 429)))
               (set_server rest (emit (Send method url data (cookie w)) w))))).
Proof.
  intros Hs Hr Hh Hn Hrange. unfold request, IceReport.request. rewrite Hs.
  cbn [IceReport.request_loop]. unfold bind at 1, Os.session_request. rewrite Hs.
  unfold Os.raise_for_status. rewrite Hr. cbn. rewrite Hh. cbn.
  unfold bind, lift. rewrite Hn. cbn. unfold Os.sleep.
  pose proof sleep_bounds as [_ Hb].
  replace (n <? 0) with false by (symmetry; cmp_cases).
  replace (Py.sleep_overflow <? n) with false by (symmetry; cmp_cases).
  replace (Py.max_sleep <? n) with false by (symmetry; cmp_cases).
  reflexivity.
Qed.

End Request.

Lemma sent_app a b : sent (a ++ b) = sent a ++ sent b.
Proof. apply List.filter_app. Qed.

Lemma slept_app a b : slept (a ++ b) = slept a ++ slept b.
Proof. apply flat_map_app. Qed.

Lemma prompted_app a b : prompted (a ++ b) = (prompted a + prompted b)%nat.
Proof. unfold prompted. now rewrite List.filter_app, length_app. Qed.

Lemma retried_conflict method url data t ts evs c e p :
  status_code t = 409 ->
  retried method url data ts evs ->
  retried method url data (t :: ts)
    (Send method url data c :: Print e :: Input p :: evs).
Proof.
  intros Ht (Hn & Hall & Hsl & Hp). unfold retried, delays, conflicts.
  cbn. rewrite Ht. cbn. repeat split.
  - f_equal. exact Hn.
  - constructor; [eauto|exact Hall].
  - exact Hsl.
  - f_equal. exact Hp.
Qed.

Lemma retried_too_many method url data t ts evs c e n :
  status_code t = 429 -> retry_delay t = Some n ->
  retried method url data ts evs ->
  retried method url data (t :: ts)
    (Send method url data c :: Print e :: Print (MSleep n) :: Sleep n :: evs).
Proof.
  intros Ht Hd (Hn & Hall & Hsl & Hp). unfold retried, delays, conflicts.
  cbn. rewrite Ht, Hd. cbn. repeat split.
  - f_equal. exact Hn.
  - constructor; [eauto|exact Hall].
  - f_equal. exact Hsl.
  - exact Hp.
Qed.

(** Any number of transient responses is absorbed: the loop asks again
    each time and returns the first response that is not an error. *)
Lemma request_retries self method url data ts : forall final rest w,
  forallb transient ts = true ->
  status_code final < 400 \/ 600 <= status_code final ->
  server w = List.map Replied ts ++ Replied final :: rest ->
  (conflicts ts <= length (stdin w))%nat ->
  exists w' evs,
    IceReport.request self method url data w = (Return final, w')
    /\ server w' = rest
    /\ trace w' = trace w ++ evs
    /\ retried method url data ts evs.
Proof.
  induction ts as [|t ts IH]; intros final rest w Hts Hfinal Hs Hin.
  - simpl in Hs. rewrite (request_success _ _ _ _ _ _ _ Hs Hfinal).
    eexists _, [_]. split; [reflexivity|]. split; [reflexivity|].
    split; [reflexivity|]. unfold retried. cbn. repeat split.
    repeat constructor. eauto.
  - cbn [forallb] in Hts. apply andb_true_iff in Hts as [Ht Hts].
    cbn [List.map app] in Hs. unfold transient in Ht.
    destruct (Z.eqb_spec (status_code t) 409) as [H409|H409].
    + assert (conflicts (t :: ts) = S (conflicts ts)) as Hc
        by (unfold conflicts; cbn; rewrite H409; reflexivity).
      rewrite Hc in Hin.
      destruct (stdin w) as [|line more] eqn:Hstdin; [cbn in Hin; lia|].
      rewrite (request_conflict _ _ _ _ _ _ _ _ _ Hs H409 Hstdin).
      match goal with
      | |- context [IceReport.request _ _ _ _ ?W] => set (w1 := W)
      end.
      destruct (IH final rest w1 Hts Hfinal eq_refl)
        as (w' & evs & Hr & Hsrv & Htr & Hret).
      * cbn in *. lia.
      * exists w'. eexists. split; [exact Hr|]. split; [exact Hsrv|].
        split; [|eapply retried_conflict; [exact H409|exact Hret]].
        rewrite Htr. cbn. rewrite <- !app_assoc. reflexivity.
    + cbn [orb] in Ht. apply andb_true_iff in Ht as [H429 Hd].
      apply Z.eqb_eq in H429.
      destruct (retry_delay t) as [n|] eqn:Hdelay; [|discriminate].
      pose proof Hdelay as Hdelay'. unfold retry_delay in Hdelay'.
      destruct (retry_after t) as [h|] eqn:Hh; [|discriminate].
      destruct (Py.int h) as [n'|] eqn:Hint; [|discriminate].
      destruct ((0 <=? n') && (n' <=? Py.max_sleep)) eqn:Hrange; [|discriminate].
      injection Hdelay' as ->. apply andb_true_iff in Hrange.
      rewrite (request_too_many _ _ _ _ _ _ _ _ _ Hs H429 Hh Hint ltac:(lia)).
      assert (conflicts (t :: ts) = conflicts ts) as Hc.
      { unfold conflicts. cbn.
        destruct (Z.eqb_spec (status_code t) 409); [contradiction|reflexivity]. }
      rewrite Hc in Hin.
      match goal with
      | |- context [IceReport.request _ _ _ _ ?W] => set (w1 := W)
      end.
      destruct (IH final rest w1 Hts Hfinal eq_refl)
        as (w' & evs & Hr & Hsrv & Htr & Hret).
      * exact Hin.
      * exists w'. eexists. split; [exact Hr|]. split; [exact Hsrv|].
        split; [|eapply retried_too_many; [exact H429|exact Hdelay|exact Hret]].
        rewrite Htr. cbn. rewrite <- !app_assoc. reflexivity.
Qed.

(** The console runs dry: when a 409 comes and no line is left to read,
    the prompt ends the request with [EOFError], whatever transient
    responses came before. *)
Lemma request_runs_dry self method url data ts : forall r rest w,
  forallb transient ts = true ->
  status_code r = 409 ->
  server w = List.map Replied ts ++ Replied r :: rest ->
  length (stdin w) = conflicts ts ->
  exists w' evs,
    IceReport.request self method url data w = (Raise EOFError, w')
    /\ server w' = rest
    /\ trace w' = trace w ++ evs
    /\ prompted evs = S (conflicts ts).
Proof.
  induction ts as [|t ts IH]; intros r rest w Hts Hr Hs Hin.
  - simpl in Hs. destruct (stdin w) as [|line more] eqn:Hstdin; [|discriminate].
    rewrite (request_conflict_eof _ _ _ _ _ _ _ Hs Hr Hstdin).
    eexists _, _. split; [reflexivity|]. split; [reflexivity|].
    split; [cbn; rewrite <- !app_assoc; reflexivity|]. reflexivity.
  - cbn [forallb] in Hts. apply andb_true_iff in Hts as [Ht Hts].
    cbn [List.map app] in Hs. unfold transient in Ht.
    destruct (Z.eqb_spec (status_code t) 409) as [H409|H409].
    + assert (conflicts (t :: ts) = S (conflicts ts)) as Hc
        by (unfold conflicts; cbn; rewrite H409; reflexivity).
      rewrite Hc in Hin.
      destruct (stdin w) as [|line more] eqn:Hstdin; [discriminate|].
      rewrite (request_conflict _ _ _ _ _ _ _ _ _ Hs H409 Hstdin).
      match goal with
      | |- context [IceReport.request _ _ _ _ ?W] => set (w1 := W)
      end.
      destruct (IH r rest w1 Hts Hr eq_refl)
        as (w' & evs & Hrun & Hsrv & Htr & Hp).
      * cbn in *. lia.
      * exists w'. eexists. split; [exact Hrun|]. split; [exact Hsrv|].
        split; [rewrite Htr; cbn; rewrite <- !app_assoc; reflexivity|].
        rewrite Hc, <- Hp. reflexivity.
    + cbn [orb] in Ht. apply andb_true_iff in Ht as [H429 Hd].
      apply Z.eqb_eq in H429.
      destruct (retry_delay t) as [n|] eqn:Hdelay; [|discriminate].
      pose proof Hdelay as Hdelay'. unfold retry_delay in Hdelay'.
      destruct (retry_after t) as [h|] eqn:Hh; [|discriminate].
      destruct (Py.int h) as [n'|] eqn:Hint; [|discriminate].
      destruct ((0 <=? n') && (n' <=? Py.max_sleep)) eqn:Hrange; [|discriminate].
      injection Hdelay' as ->. apply andb_true_iff in Hrange.
      rewrite (request_too_many _ _ _ _ _ _ _ _ _ Hs H429 Hh Hint ltac:(lia)).
      assert (conflicts (t :: ts) = conflicts ts) as Hc.
      { unfold conflicts. cbn.
        destruct (Z.eqb_spec (status_code t) 409); [contradiction|reflexivity]. }
      rewrite Hc in Hin.
      match goal with
      | |- context [IceReport.request _ _ _ _ ?W] => set (w1 := W)
      end.
      destruct (IH r rest w1 Hts Hr eq_refl)
        as (w' & evs & Hrun & Hsrv & Htr & Hp).
      * exact Hin.
      * exists w'. eexists. split; [exact Hrun|]. split; [exact Hsrv|].
        split; [rewrite Htr; cbn; rewrite <- !app_assoc; reflexivity|].
        rewrite Hc, <- Hp. reflexivity.
Qed.

(** C1 (amended).  For a request issued through [request] and the next
    response [r] of the server:
    - on 429 with a [Retry-After] that is an integer [n] from 0 to
      [Py.max_sleep], the loop sleeps exactly [n] and goes on with the
      same request;
    - on 409 it prompts once: when a line can be read, the line
      without the white space around it becomes the session's cookie
      and the loop goes on with the same request; at the end of the
      input the prompt raises [EOFError], which ends the request;
    - on any other status from 400 to 599 it raises [HTTPError] at once,
      with one request sent and nothing retried;
    - a response with any other status (below 400, not only 2xx) is
      returned.
    Nothing caps the loop.  Whatever the number of transient responses
    (409, or 429 with such a [Retry-After]), as long as the console has
    a line for every 409 they are all absorbed (one request more than
    responses, one sleep per 429, one prompt per 409) and the first
    response that is not an error is returned; and the 409 that finds
    the console empty ends the request with [EOFError]. *)
Theorem request_policy (self : IceReport.t) (method url : string)
  (data : list (string * string)) :
  (forall w r rest,
     server w = Replied r :: rest ->
     let request := IceReport.request self method url data in
     let w1 := set_server rest (emit (Send method url data (cookie w)) w) in
     let w2 := emit (Print (MError (HTTPError (status_code r)))) w1 in
     (status_code r = 429 ->
      forall h n, retry_after r = Some h -> Py.int h = Ok n ->
                  0 <= n <= Py.max_sleep ->
        request w = request (emit (Sleep n) (emit (Print (MSleep n)) w2)))
     /\ (status_code r = 409 ->
         forall line more, stdin w = line :: more ->
           request w
           = request (set_cookie (Some (Py.strip line))
                        (set_stdin more
                           (emit (Input (IceReport.cookie_prompt self)) w2))))
     /\ (status_code r = 409 -> stdin w = [] ->
         request w
         = (Raise EOFError, emit (Input (IceReport.cookie_prompt self)) w2))
     /\ (400 <= status_code r < 600 ->
         status_code r <> 409 -> status_code r <> 429 ->
         request w = (Raise (HTTPError (status_code r)), w2))
     /\ (status_code r < 400 \/ 600 <= status_code r ->
         request w = (Return r, w1)))
  /\ (forall ts final rest w,
        forallb transient ts = true ->
        status_code final < 400 \/ 600 <= status_code final ->
        server w = List.map Replied ts ++ Replied final :: rest ->
        (conflicts ts <= length (stdin w))%nat ->
        exists w' evs,
          IceReport.request self method url data w = (Return final, w')
          /\ server w' = rest
          /\ trace w' = trace w ++ evs
          /\ retried method url data ts evs)
  /\ (forall ts r rest w,
        forallb transient ts = true ->
        status_code r = 409 ->
        server w = List.map Replied ts ++ Replied r :: rest ->
        length (stdin w) = conflicts ts ->
        exists w' evs,
          IceReport.request self method url data w = (Raise EOFError, w')
          /\ server w' = rest
          /\ trace w' = trace w ++ evs
          /\ prompted evs = S (conflicts ts)).
Proof.
  split; [|split].
  - intros w r rest Hs request w1 w2. subst request w1 w2.
    split; [|split; [|split; [|split]]].
    + intros H429 h n Hh Hn Hrange. rewrite H429.
      exact (request_too_many _ _ _ _ _ _ _ _ _ Hs H429 Hh Hn Hrange).
    + intros H409 line more Hin. rewrite H409.
      exact (request_conflict _ _ _ _ _ _ _ _ _ Hs H409 Hin).
    + intros H409 Hin. rewrite H409.
      exact (request_conflict_eof _ _ _ _ _ _ _ Hs H409 Hin).
    + intros. now apply request_fatal.
    + intros. now apply request_success.
  - intros. now apply request_retries.
  - intros ts r rest w Hts Hr Hs Hin.
    exact (request_runs_dry self method url data ts r rest w Hts Hr Hs Hin).
Qed.

(** C1 as stated fails at status 304: it is neither 2xx, 409 nor 429,
    and the response is returned, not raised. *)
Lemma request_returns_304 :
  let r := {| status_code := 304; retry_after := None; body := JInvalid |} in
  let w := World ∅ None None [Replied r] [] (fun _ => NoFault) [] in
  (IceReport.request report7 "GET" "https://www.ice.com/x" [] w).1 = Return r.
Proof. reflexivity. Qed.

(** C1 at a server that answers 429 (wait 3 s), 409, 429 (wait 0 s) and
    then 200, with one line ready on the console. *)
Lemma request_policy_witness :
  let busy n := {| status_code := 429; retry_after := Some n; body := JInvalid |} in
  let conflict := {| status_code := 409; retry_after := None; body := JInvalid |} in
  let final := {| status_code := 200; retry_after := None; body := JCriterion [] |} in
  let ts := [busy "3"%string; conflict; busy "0"%string] in
  let w := World ∅ None None (List.map Replied ts ++ [Replied final])
             [" sid=1 "%string] (fun _ => NoFault) [] in
  exists w' evs,
    IceReport.request report7 "GET" "https://www.ice.com/x" [] w = (Return final, w')
    /\ server w' = []
    /\ trace w' = trace w ++ evs
    /\ retried "GET" "https://www.ice.com/x" [] ts evs.
Proof.
  intros busy conflict final ts w.
  apply (proj1 (proj2 (request_policy report7 "GET" "https://www.ice.com/x" []))).
  - reflexivity.
  - left. reflexivity.
  - reflexivity.
  - cbn. lia.
Defined.

(** ** What a request leaves untouched *)

Lemma network_only_trans w1 w2 w3 evs1 evs2 :
  network_only w1 w2 evs1 -> network_only w2 w3 evs2 ->
  network_only w1 w3 (evs1 ++ evs2).
Proof.
  intros (F1 & C1 & D1 & T1) (F2 & C2 & D2 & T2). unfold network_only.
  rewrite F2, C2, D2, T2, T1, app_assoc. auto.
Qed.

(** Every run of the loop sends its request at least once, and touches
    neither the files nor the cache. *)
Lemma request_loop_frame self method url data replies : forall w,
  exists evs,
    network_only w (IceReport.request_loop self method url data replies w).2
      (Send method url data (cookie w) :: evs).
Proof.
  induction replies as [|x rest IH]; intros w; cbn [IceReport.request_loop].
  - unfold Os.session_request.
    destruct (server w) as [|[r|e] s]; exists []; solve_frame.
  - unfold bind at 1, Os.session_request.
    destruct (server w) as [|[r|e] s]; try (exists []; solve_frame).
    destruct (Os.raise_for_status r) as [|error].
    { exists []. solve_frame. }
    unfold bind at 1, print, modify.
    destruct (status_code r =? 409).
    + unfold bind at 1, Os.input. cbn [stdin emit set_server].
      destruct (stdin w) as [|line more].
      { eexists [_; _]. solve_frame. }
      unfold bind at 1, modify.
      match goal with
      | |- context [IceReport.request_loop _ _ _ _ _ ?W] => destruct (IH W) as (evs & H)
      end.
      eexists (_ :: _ :: _ :: evs).
      destruct H as (F & C & D & T). unfold network_only.
      rewrite F, C, D, T. solve_frame.
    + destruct (status_code r =? 429); [|eexists [_]; solve_frame].
      unfold bind at 1, lift.
      destruct (retry_after r) as [h|]; [|eexists [_]; solve_frame].
      cbn [ret]. unfold bind at 1.
      destruct (Py.int h) as [n|e]; [|eexists [_]; solve_frame].
      cbn [ret]. unfold bind at 1, print, modify. unfold bind at 1, Os.sleep.
      destruct (n <? 0).
      { eexists [_; _]. solve_frame. }
      destruct (Py.sleep_overflow <? n).
      { eexists [_; _]. solve_frame. }
      destruct (Py.max_sleep <? n).
      { eexists [_; _]. solve_frame. }
      unfold modify.
      match goal with
      | |- context [IceReport.request_loop _ _ _ _ _ ?W] => destruct (IH W) as (evs & H)
      end.
      eexists (_ :: _ :: _ :: _ :: evs).
      destruct H as (F & C & D & T). unfold network_only.
      rewrite F, C, D, T. solve_frame.
Qed.

(** ** The one-slot cache of [get_results] *)

Lemma fetch_results_frame self market time_period w :
  exists evs,
    network_only w (IceReport.fetch_results self market time_period w).2
      (results_request self market time_period (cookie w) :: evs).
Proof.
  unfold IceReport.fetch_results, bind, IceReport.request.
  destruct (request_loop_frame self "POST" (IceReport.results_url self)
              [(IceReport.MARKET_KEY, market); (IceReport.TIME_PERIOD_KEY, time_period)]
              (server w) w) as (evs & H).
  exists evs.
  destruct (IceReport.request_loop _ _ _ _ _ w) as [[r| |] w'];
    try exact H.
  destruct (body r); exact H.
Qed.

Lemma get_results_hit self market time_period w v :
  IceReport.cache_lookup (cache w) market time_period = Some v ->
  IceReport.get_results self market time_period w = (Return v, w).
Proof.
  intros H. unfold IceReport.get_results, bind, get. now rewrite H.
Qed.

Lemma get_results_miss self market time_period w :
  IceReport.cache_lookup (cache w) market time_period = None ->
  IceReport.get_results self market time_period w
  = match IceReport.fetch_results self market time_period w with
    | (Return v, w') => (Return v, set_cache (Some (market, time_period, v)) w')
    | r => r
    end.
Proof.
  intros H. unfold IceReport.get_results, bind at 1, get. rewrite H.
  unfold bind, modify, ret.
  now destruct (IceReport.fetch_results self market time_period w) as [[v| |] w'].
Qed.

Lemma cache_lookup_same market time_period v :
  IceReport.cache_lookup (Some (market, time_period, v)) market time_period = Some v.
Proof. unfold IceReport.cache_lookup. now rewrite !String.eqb_refl. Qed.

Lemma cache_lookup_other m p v market time_period :
  (m, p) <> (market, time_period) ->
  IceReport.cache_lookup (Some (m, p, v)) market time_period = None.
Proof.
  intros H. unfold IceReport.cache_lookup.
  destruct (String.eqb_spec m market), (String.eqb_spec p time_period);
    try reflexivity.
  subst. contradiction.
Qed.

(** After a call has returned, its page is the cache's entry. *)
Lemma get_results_cached self market time_period w v w' :
  IceReport.get_results self market time_period w = (Return v, w') ->
  IceReport.cache_lookup (cache w') market time_period = Some v.
Proof.
  destruct (IceReport.cache_lookup (cache w) market time_period) as [v0|] eqn:E.
  - rewrite (get_results_hit _ _ _ _ _ E). now intros [= <- <-].
  - rewrite (get_results_miss _ _ _ _ E).
    destruct (IceReport.fetch_results self market time_period w) as [[v1| |] w1];
      intros [= <- <-].
    apply cache_lookup_same.
Qed.

(** C5: [get_results] keeps one page, keyed by [(market, time_period)].
    - A call that finds its arguments in the cache returns the stored
      page and does nothing else.
    - A call that does not (the cache is empty or holds another pair)
      sends the POST, and when it returns its page is the one entry of
      the cache, the previous entry being gone.
    - Hence, once a call has returned, the same call again returns the
      same page and leaves the world as it is: the two calls together
      make the one network call of the first. *)
Theorem get_results_one_slot (self : IceReport.t) (market time_period : string) :
  let call := IceReport.get_results self market time_period in
  (forall w v,
     IceReport.cache_lookup (cache w) market time_period = Some v ->
     call w = (Return v, w))
  /\ (forall w,
        IceReport.cache_lookup (cache w) market time_period = None ->
        (exists evs,
           trace (call w).2
           = trace w ++ results_request self market time_period (cookie w) :: evs)
        /\ forall v w',
             call w = (Return v, w') ->
             cache w' = Some (market, time_period, v))
  /\ (forall w m p v0,
        cache w = Some (m, p, v0) -> (m, p) <> (market, time_period) ->
        IceReport.cache_lookup (cache w) market time_period = None)
  /\ (forall w v w',
        call w = (Return v, w') ->
        call w' = (Return v, w') /\ sent (trace (call w').2) = sent (trace w'))
  /\ (forall w r rest subheader rows,
        IceReport.cache_lookup (cache w) market time_period = None ->
        server w = Replied r :: rest ->
        status_code r < 400 \/ 600 <= status_code r ->
        body r = JResults subheader rows ->
        exists w1,
          call w = (Return (subheader, rows), w1)
          /\ call w1 = (Return (subheader, rows), w1)
          /\ sent (trace w1)
             = sent (trace w) ++ [results_request self market time_period (cookie w)]
          /\ server w1 = rest).
Proof.
  intros call. subst call. split; [|split; [|split; [|split]]].
  - intros w v H. now apply get_results_hit.
  - intros w Hmiss. rewrite (get_results_miss _ _ _ _ Hmiss). split.
    + destruct (fetch_results_frame self market time_period w)
        as (evs & _ & _ & _ & T).
      exists evs.
      now destruct (IceReport.fetch_results self market time_period w) as [[v| |] w'].
    + intros v w'.
      destruct (IceReport.fetch_results self market time_period w) as [[v1| |] w1];
        now intros [= <- <-].
  - intros w m p v0 Hc Hne. rewrite Hc. now apply cache_lookup_other.
  - intros w v w' H. apply get_results_cached in H.
    rewrite (get_results_hit _ _ _ _ _ H). auto.
  - intros w r rest subheader rows Hmiss Hs Hr Hb.
    rewrite (get_results_miss _ _ _ _ Hmiss).
    unfold IceReport.fetch_results, bind.
    rewrite (request_success _ _ _ _ _ _ _ Hs Hr), Hb. cbn [ret].
    eexists. split; [reflexivity|]. split.
    + apply get_results_hit. cbn. apply cache_lookup_same.
    + cbn. rewrite sent_app. split; reflexivity.
Qed.

(** C5 at a cache that holds the page of market A when market B is
    asked for, the server answering at once. *)
Lemma get_results_one_slot_witness :
  let r := {| status_code := 200; retry_after := None;
              body := JResults "Jan" [["b1"; "b2"]] |}%string in
  let w := World ∅ None (Some ("A", "T0", ("Jan", [["a1"]])))%string
             [Replied r] [] (fun _ => NoFault) [] in
  exists w1,
    IceReport.get_results report7 "B" "T0" w = (Return ("Jan", [["b1"; "b2"]]), w1)%string
    /\ IceReport.get_results report7 "B" "T0" w1
       = (Return ("Jan", [["b1"; "b2"]]), w1)%string
    /\ sent (trace w1)
       = sent (trace w) ++ [results_request report7 "B" "T0" (cookie w)]
    /\ server w1 = [].
Proof.
  intros r w.
  apply (proj2 (proj2 (proj2 (proj2 (get_results_one_slot report7 "B" "T0")))) w r).
  - reflexivity.
  - reflexivity.
  - left. reflexivity.
  - reflexivity.
Defined.

(** ** [dump]: a market whose fragment exists *)

Lemma truthy_nonempty s : s <> EmptyString -> Py.truthy s = true.
Proof. destruct s; [congruence|reflexivity]. Qed.

(** C6 (amended): once the period's label is known, a market whose
    fragment file exists is skipped: the iteration logs the skip and
    does nothing else (no request, no reply consumed, no file touched).
    The market that meets an unset label is first asked for, through
    [get_results], to learn the label; with its fragment present it is
    then skipped in the same way, without a second call. *)
Theorem dump_market_skip (self : IceReport.t) (time_period market : string) :
  (forall date temp_dir file_name content w,
     date <> EmptyString ->
     encode_data market = Ok file_name ->
     fs w !! fragment_path temp_dir file_name = Some (File content) ->
     IceReport.dump_market self time_period (date, temp_dir) market w
     = (Return (date, temp_dir), emit (Print (MSkip market time_period)) w))
  /\ (forall date rows file_name content w w1,
        IceReport.get_results self market time_period w = (Return (date, rows), w1) ->
        fs w1 !! fragment_dir self date = Some Dir ->
        encode_data market = Ok file_name ->
        fs w1 !! fragment_path (fragment_dir self date) file_name
        = Some (File content) ->
        IceReport.dump_market self time_period (EmptyString, EmptyString) market w
        = (Return (date, fragment_dir self date),
           emit (Print (MSkip market time_period)) w1)).
Proof.
  split.
  - intros date temp_dir file_name content w Hdate Henc Hfile.
    unfold IceReport.dump_market. cbn [fst snd].
    rewrite (truthy_nonempty _ Hdate). cbn [negb].
    unfold bind at 1, ret. unfold bind at 1, lift. rewrite Henc.
    unfold ret, bind at 1, Os.isfile, get. cbn [fst snd].
    unfold fragment_path in Hfile. rewrite Hfile.
    reflexivity.
  - intros date rows file_name content w w1 Hget Hdir Henc Hfile.
    unfold IceReport.dump_market. cbn [fst snd Py.truthy negb].
    unfold bind at 1. unfold bind at 1. rewrite Hget. cbn [fst snd].
    unfold fragment_path, fragment_dir in *.
    unfold bind at 1, Os.makedirs. rewrite Hdir. unfold ret.
    unfold bind at 1, lift. rewrite Henc.
    unfold ret, bind at 1, Os.isfile, get. cbn [fst snd]. rewrite Hfile.
    reflexivity.
Qed.

(** C6 as stated fails for the first market of a period: the fragment
    of market A exists, and still a POST for A goes out (to learn the
    label) before A is skipped. *)
Lemma first_market_is_fetched :
  encode_data "A" = Ok "QQ"%string
  /\ fs resumed_world !! "pyce/Jan/~7/QQ.csv"%string = Some (File [["old"%string]])
  /\ firstn 3 (trace (main pyce7 resumed_world).2)
     = [Send "GET" "https://www.ice.com/marketdata/api/reports/7/criteria" [] None;
        results_request report7 "A" "T0" None;
        Print (MSkip "A" "T0")].
Proof. repeat split; vm_compute; reflexivity. Qed.

(** C6 at market B of a period labelled Jan whose fragment is there. *)
Lemma dump_market_skip_witness :
  let w := World (<["pyce/Jan/~7/Qg.csv" := File [["b0"%string]]]> resumed_fs)
             None None [] [] (fun _ => NoFault) [] in
  IceReport.dump_market report7 "T0" ("Jan", "pyce/Jan/~7")%string "B" w
  = (Return ("Jan", "pyce/Jan/~7")%string, emit (Print (MSkip "B" "T0")) w).
Proof.
  intros w.
  apply (proj1 (dump_market_skip report7 "T0" "B")) with (file_name := "Qg"%string)
                                                       (content := [["b0"%string]]).
  - discriminate.
  - reflexivity.
  - vm_compute. reflexivity.
Defined.

(** ** [dump]: a write that fails *)



Lemma get_results_frame self market time_period w :
  fs (IceReport.get_results self market time_period w).2 = fs w
  /\ faults (IceReport.get_results self market time_period w).2 = faults w.
Proof.
  destruct (IceReport.cache_lookup (cache w) market time_period) as [v|] eqn:E.
  - rewrite (get_results_hit _ _ _ _ _ E). auto.
  - rewrite (get_results_miss _ _ _ _ E).
    destruct (fetch_results_frame self market time_period w)
      as (evs & F & _ & D & _).
    destruct (IceReport.fetch_results self market time_period w) as [[v| |] w'];
      auto.
Qed.



Lemma write_fragment_unopened self market time_period path rows w e removal :
  fs w !! path = None ->
  faults w path = OpenFault e removal ->
  is_exception e = true ->
  IceReport.write_fragment self market time_period path rows w
  = (Raise removal, emit (Print (MError e)) w).
Proof.
  intros Hnone Hfault Hexc.
  unfold IceReport.write_fragment, bind at 1, try_except, Os.write_rows.
  rewrite Hnone, Hfault, Hexc. unfold bind, print, modify, Os.remove. cbn.
  now rewrite Hnone, Hfault.
Qed.




(** The whole run on the full disk: it ends with the error of the
    write; the fragment of A is there, the fragment of B is not, and
    nothing was merged. *)
Example full_disk_run :
  let r := main pyce7 full_disk_world in
  r.1 = Raise (OSError 28)
  /\ map_to_list (fs r.2)
     = [("pyce/Jan/~7/QQ.csv", File [["a1"]]); ("pyce/Jan/~7", Dir);
        ("pyce/Jan", Dir); ("pyce", Dir)]%string
  /\ last (trace r.2) = Some (Print (MError (OSError 28))).
Proof. vm_compute. repeat split. Qed.

(** ** [dump]: the merge *)

Lemma strip_prefix_app pre s r :
  Path.strip_prefix pre s = Some r <-> s = pre +:+ r.
Proof.
  revert s. induction pre as [|x pre IH]; intros s; cbn.
  - split; [now intros [= ->]|now intros ->].
  - destruct s as [|y s]; [split; discriminate|].
    destruct (Ascii.eqb_spec x y) as [->|Hne].
    + rewrite IH. split; [now intros ->|now intros [= ->]].
    + split; [discriminate|]. intros [= -> _]. congruence.
Qed.

Lemma under_self d : Os.under d d = true.
Proof. unfold Os.under. now rewrite String.eqb_refl. Qed.

Lemma csv_entry_under d p : Os.csv_entry d p = true -> Os.under d p = true.
Proof.
  unfold Os.csv_entry, Os.under.
  destruct (Path.strip_prefix _ p); [intros _; apply orb_true_r|discriminate].
Qed.

(** The loop of the merge appends the rows of each path that is a file
    to the consolidated file and logs every path. *)
Lemma read_complete content :
  Forall (fun r => Csv.row_ok r = true) content ->
  (Csv.read content).2 = true
  /\ (Csv.read content).1 = List.map (List.map Csv.universal_newlines) content.
Proof.
  induction 1 as [|r content Hr _ [IH2 IH1]]; [now split|].
  cbn [Csv.read List.map]. rewrite Hr. cbn [fst snd]. now rewrite IH1, IH2.
Qed.

Lemma merge_loop base_path date (m : gmap string node) l :
  forall acc c ca s i f tr sd,
    ~ In base_path l ->
    Forall (fun p => readable m p = true) l ->
    for_each l (merge_one base_path date)
      (MkWorld (<[base_path := File acc]> m) c ca s i f tr sd)
    = (Return tt,
       MkWorld (<[base_path := File (acc ++ flat_map (rows_of m) l)]> m) c ca s i f
         (tr ++ List.map (fun p => Print (MMerged p date)) l) sd).
Proof.
  induction l as [|p l IH]; intros acc c ca s i f tr sd Hnotin Hread;
    cbn [for_each].
  - cbn. now rewrite !app_nil_r.
  - assert (base_path <> p) as Hne by (intros ->; apply Hnotin; now left).
    assert (~ In base_path l) as Hl by (intros H; apply Hnotin; now right).
    inversion Hread as [|? ? Hp Hread']; subst.
    unfold bind at 1, merge_one at 1, bind at 1, Os.isfile, get. cbn [fs].
    rewrite lookup_insert_ne by exact Hne.
    cbn [flat_map List.map]. unfold rows_of at 1. unfold readable in Hp.
    destruct (m !! p) as [[rows|]|] eqn:E.
    + unfold bind at 1. unfold bind at 1, Os.read_rows. cbn [fs].
      rewrite lookup_insert_ne, E by exact Hne.
      unfold bind at 1, Os.append_rows. cbn [fs]. rewrite lookup_insert_eq.
      rewrite Hp.
      unfold print, modify, emit, set_fs, ret. cbn. rewrite insert_insert_eq.
      rewrite IH by assumption. now rewrite <- !app_assoc.
    + unfold bind at 1, ret, print, modify, emit. cbn.
      rewrite IH by assumption. now rewrite <- !app_assoc.
    + unfold bind at 1, ret, print, modify, emit. cbn.
      rewrite IH by assumption. now rewrite <- !app_assoc.
Qed.

Lemma string_app_assoc a b c : (a +:+ b) +:+ c = a +:+ b +:+ c.
Proof.
  induction a as [|x a IH]; [reflexivity|].
  change (String x ((a +:+ b) +:+ c) = String x (a +:+ b +:+ c)).
  now rewrite IH.
Qed.

Lemma listing_spec d (m : gmap string node) p :
  In p (Os.listing d m)
  <-> exists name,
        p = d +:+ "/" +:+ name /\ Path.matches_csv name = true /\ is_Some (m !! p).
Proof.
  unfold Os.listing. rewrite filter_In, <- list_elem_of_In, list_elem_of_fmap.
  unfold Os.csv_entry. split.
  - intros [([q x] & -> & Hin) Hcsv]. cbn [fst] in *.
    apply elem_of_map_to_list in Hin.
    destruct (Path.strip_prefix _ q) as [name|] eqn:E; [|discriminate].
    apply strip_prefix_app in E. rewrite string_app_assoc in E.
    exists name. rewrite Hin. eauto.
  - intros (name & -> & Hcsv & [x Hx]). split.
    + exists (d +:+ "/" +:+ name, x). split; [reflexivity|].
      now apply elem_of_map_to_list.
    + assert (Path.strip_prefix (d +:+ String Path.sep EmptyString)
                (d +:+ "/" +:+ name) = Some name) as ->; [|exact Hcsv].
      apply strip_prefix_app. now rewrite string_app_assoc.
Qed.

(** The merge, for any existing directory whose path is not empty, has
    no pattern character and does not end in a separator, and with the
    consolidated file outside of it. *)
Lemma dump_merge_general (self : IceReport.t) (date temp_dir : string) (w : world) :
  let base_path :=
    Path.join (Path.dirname temp_dir)
              [pretty (IceReport.report_id self) +:+ ".csv"] in
  let listed := Os.listing temp_dir (<[base_path := File []]> (fs w)) in
  let fragments := scandir w listed in
  temp_dir <> EmptyString ->
  Path.endswith_sep temp_dir = false ->
  Path.has_magic temp_dir = false ->
  fs w !! temp_dir = Some Dir ->
  fs w !! base_path <> Some Dir ->
  Os.under temp_dir base_path = false ->
  Permutation listed fragments ->
  Forall (fun p => readable (fs w) p = true) listed ->
  exists w',
    IceReport.dump_merge self date temp_dir w = (Return tt, w')
    /\ (forall p,
          In p fragments
          <-> exists name,
                p = temp_dir +:+ "/" +:+ name /\ Path.matches_csv name = true
                /\ is_Some (fs w !! p))
    /\ fs w' !! base_path = Some (File (flat_map (rows_of (fs w)) fragments))
    /\ (forall p, Os.under temp_dir p = true -> fs w' !! p = None)
    /\ (forall p, Os.under temp_dir p = false -> p <> base_path ->
                  fs w' !! p = fs w !! p)
    /\ trace w'
       = trace w ++ List.map (fun p => Print (MMerged p date)) fragments
         ++ [Print (MReport (IceReport.report_id self) date base_path)].
Proof.
  intros base_path listed fragments Hne Hsep Hmagic Hdir Hbase Hout Hperm Hread.
  assert (forall p, Os.under temp_dir p = true -> p <> base_path) as Hdiff
    by (intros p Hp ->; congruence).
  assert (~ In base_path listed) as Hnotin0.
  { intros Hin. apply listing_spec in Hin as (name & Hp & Hcsv & _).
    assert (Os.csv_entry temp_dir base_path = true) as Hc.
    { unfold Os.csv_entry. rewrite Hp.
      assert (Path.strip_prefix (temp_dir +:+ String Path.sep EmptyString)
                (temp_dir +:+ "/" +:+ name) = Some name) as ->; [|exact Hcsv].
      apply strip_prefix_app. now rewrite string_app_assoc. }
    apply csv_entry_under in Hc. congruence. }
  assert (~ In base_path fragments) as Hnotin.
  { intros Hin. apply Hnotin0.
    apply Permutation_in with (l := fragments); [now symmetry|exact Hin]. }
  assert (Forall (fun p => readable (fs w) p = true) fragments) as Hread'
    by (now apply (Permutation_Forall Hperm)).
  destruct w as [m c ca s i f tr sd]. cbn [fs trace scandir] in *.
  unfold IceReport.dump_merge, bind at 1, Os.isdir, get. cbn [fs].
  rewrite Hdir, (truthy_nonempty _ Hne). cbn [andb].
  fold base_path. unfold bind at 1, Os.open_w. cbn [fs].
  assert (match m !! base_path with
          | Some Dir => (Raise IsADirectoryError, MkWorld m c ca s i f tr sd)
          | _ => (Return tt,
                  set_fs (insert base_path (File [])) (MkWorld m c ca s i f tr sd))
          end
          = (Return tt, MkWorld (<[base_path := File []]> m) c ca s i f tr sd)) as ->.
  { destruct (m !! base_path) as [[|]|]; try reflexivity. congruence. }
  unfold bind at 1, Os.glob_csv.
  rewrite Hmagic, Hsep, (truthy_nonempty _ Hne). cbn [orb negb fs scandir].
  fold listed. fold fragments.
  change (for_each fragments _) with (for_each fragments (merge_one base_path date)).
  unfold bind at 1.
  rewrite (merge_loop base_path date m fragments [] c ca s i f tr sd Hnotin Hread').
  cbn [app].
  unfold bind at 1, print, modify, emit, Os.rmtree.
  cbn [fs trace cookie cache server stdin faults scandir].
  rewrite lookup_insert_ne, Hdir
    by (intros E; rewrite E, under_self in Hout; discriminate).
  eexists. split; [reflexivity|]. cbn [fs trace set_fs].
  split; [|split; [|split; [|split]]].
  - intros p. split.
    + intros Hin.
      apply Permutation_in with (l' := listed) in Hin; [|now symmetry].
      apply listing_spec in Hin as (name & Hp & Hcsv & Hsome).
      exists name. split; [exact Hp|]. split; [exact Hcsv|].
      rewrite lookup_insert_ne in Hsome; [exact Hsome|].
      intros E. apply Hnotin0. rewrite E. apply listing_spec. eauto.
    + intros (name & Hp & Hcsv & Hsome).
      apply Permutation_in with (l := listed); [exact Hperm|].
      apply listing_spec. exists name. split; [exact Hp|]. split; [exact Hcsv|].
      destruct (decide (base_path = p)) as [->|Hd].
      * rewrite lookup_insert_eq. eauto.
      * now rewrite lookup_insert_ne.
  - apply map_lookup_filter_Some. split; [|exact Hout].
    now rewrite lookup_insert_eq.
  - intros p Hp. apply map_lookup_filter_None. right. intros x _. cbn. congruence.
  - intros p Hp Hpb. rewrite map_lookup_filter.
    rewrite lookup_insert_ne by congruence.
    destruct (m !! p) as [x|]; [|reflexivity]. cbn.
    rewrite option_guard_True; [reflexivity|exact Hp].
  - now rewrite <- app_assoc.
Qed.

(** ** The paths that [dump] builds *)

Lemma pretty_N_go_plain x : forall s, plain s = true -> plain (pretty_N_go x s) = true.
Proof.
  induction (N.lt_wf_0 x) as [x _ IH]; intros s Hs.
  assert (x = 0 \/ 0 < x)%N as [->|Hx] by lia.
  - now rewrite pretty_N_go_0.
  - rewrite pretty_N_go_step by exact Hx. apply IH.
    + now apply N.div_lt.
    + cbn [plain]. rewrite Hs, andb_true_r.
      unfold pretty_N_char. now repeat case_match.
Qed.

Lemma pretty_N_go_nonempty x : forall s, s <> EmptyString -> pretty_N_go x s <> EmptyString.
Proof.
  induction (N.lt_wf_0 x) as [x _ IH]; intros s Hs.
  assert (x = 0 \/ 0 < x)%N as [->|Hx] by lia.
  - now rewrite pretty_N_go_0.
  - rewrite pretty_N_go_step by exact Hx. apply IH; [now apply N.div_lt|discriminate].
Qed.

Lemma pretty_positive_plain (p : positive) :
  plain (pretty p) = true /\ pretty p <> EmptyString.
Proof.
  unfold pretty, pretty_positive, pretty, pretty_N.
  destruct (decide (N.pos p = 0%N)) as [|_]; [discriminate|].
  split; [now apply pretty_N_go_plain|].
  rewrite pretty_N_go_step by lia. apply pretty_N_go_nonempty. discriminate.
Qed.

(** [str(n)] for an integer: digits, after a minus sign if negative. *)
Lemma pretty_Z_plain (z : Z) : plain (pretty z) = true /\ pretty z <> EmptyString.
Proof.
  unfold pretty, pretty_Z. destruct z as [|p|p].
  - split; [reflexivity|discriminate].
  - apply pretty_positive_plain.
  - destruct (pretty_positive_plain p) as [H _]. split; [|discriminate].
    change ("-" +:+ pretty p) with (String "-" (pretty p)). cbn [plain].
    now rewrite H.
Qed.

Lemma append_nil_r s : s +:+ EmptyString = s.
Proof.
  induction s as [|x s IH]; [reflexivity|].
  change (String x (s +:+ EmptyString) = String x s). now rewrite IH.
Qed.

Lemma plain_facts s :
  plain s = true ->
  Py.contains Path.sep s = false
  /\ forall x s', s = String x s' -> Ascii.eqb x "~" = false /\ Ascii.eqb x Path.sep = false.
Proof.
  induction s as [|x s IH]; intros H; [split; [reflexivity|discriminate]|].
  cbn [plain] in H. apply andb_true_iff in H as [Hx Hs].
  assert (Ascii.eqb x "~" = false /\ Ascii.eqb x Path.sep = false) as [H1 H2].
  { apply orb_true_iff in Hx as [Hx|Hx].
    - unfold Py.digit in Hx.
      destruct (Ascii.eqb_spec x "~") as [->|_]; [discriminate|].
      destruct (Ascii.eqb_spec x Path.sep) as [->|_]; [discriminate|]. auto.
    - apply Ascii.eqb_eq in Hx. subst. auto. }
  split.
  - cbn [Py.contains]. rewrite H2. now apply IH.
  - intros y s' [= <- <-]. auto.
Qed.

Lemma endswith_sep_cons x s :
  s <> EmptyString -> Path.endswith_sep (String x s) = Path.endswith_sep s.
Proof. destruct s; [congruence|reflexivity]. Qed.

Lemma endswith_sep_app a b :
  b <> EmptyString -> Path.endswith_sep (a +:+ b) = Path.endswith_sep b.
Proof.
  intros Hb. induction a as [|x a IH]; [reflexivity|].
  change (Path.endswith_sep (String x (a +:+ b)) = Path.endswith_sep b).
  rewrite endswith_sep_cons; [exact IH|].
  destruct a; [exact Hb|discriminate].
Qed.

Lemma endswith_sep_contains s :
  Py.contains Path.sep s = false -> Path.endswith_sep s = false.
Proof.
  induction s as [|x s IH]; [reflexivity|]. cbn [Py.contains].
  destruct (Ascii.eqb x Path.sep) eqn:E; [discriminate|]. intros H.
  destruct s as [|y s]; [exact E|]. rewrite endswith_sep_cons by discriminate.
  now apply IH.
Qed.

Lemma head_without_sep s : Py.contains Path.sep s = false -> Path.head s = EmptyString.
Proof. destruct s as [|x s]; [reflexivity|]. cbn [Path.head]. now intros ->. Qed.

(** The part before the last separator, when the last component has
    none. *)
Lemma head_app q t :
  Py.contains Path.sep t = false ->
  q = EmptyString \/ Path.endswith_sep q = true ->
  Path.head (q +:+ t) = q.
Proof.
  intros Ht. induction q as [|x q IH]; intros Hq.
  - now apply head_without_sep.
  - destruct Hq as [Hq|Hq]; [discriminate|].
    change (String x q +:+ t) with (String x (q +:+ t)). cbn [Path.head].
    assert (Py.contains Path.sep (String x (q +:+ t)) = true) as ->.
    { destruct q as [|y q].
      - cbn in Hq. cbn [Py.contains]. now rewrite Hq.
      - rewrite endswith_sep_cons in Hq by discriminate.
        cbn [Py.contains]. destruct (Ascii.eqb x Path.sep); [reflexivity|].
        rewrite contains_app.
        assert (Py.contains Path.sep (String y q) = true) as ->; [|reflexivity].
        destruct (Py.contains Path.sep (String y q)) eqn:E; [reflexivity|].
        apply endswith_sep_contains in E. congruence. }
    f_equal. destruct q as [|y q].
    + now apply head_without_sep.
    + apply IH. right. now rewrite endswith_sep_cons in Hq by discriminate.
Qed.

Lemma rstrip_sep_split q :
  exists s, all_sep s = true /\ q = Path.rstrip_sep q +:+ s.
Proof.
  induction q as [|x q (s & Hs & Hq)]; [now exists EmptyString|].
  cbn [Path.rstrip_sep]. destruct (Path.rstrip_sep q) as [|y r] eqn:E.
  - change (q = s) in Hq. subst s. destruct (Ascii.eqb x Path.sep) eqn:Hx.
    + exists (String x q). split; [cbn [all_sep]; now rewrite Hx|reflexivity].
    + exists q. split; [assumption|reflexivity].
  - exists s. split; [assumption|].
    change (String x q = String x (String y r +:+ s)). now rewrite <- Hq.
Qed.

Lemma rstrip_sep_end q : Path.endswith_sep (Path.rstrip_sep q) = false.
Proof.
  induction q as [|x q IH]; [reflexivity|]. cbn [Path.rstrip_sep].
  destruct (Path.rstrip_sep q) as [|y r] eqn:E.
  - destruct (Ascii.eqb x Path.sep) eqn:Hx; [reflexivity|exact Hx].
  - rewrite endswith_sep_cons by discriminate. exact IH.
Qed.

Lemma strip_prefix_common a x y :
  Path.strip_prefix (a +:+ x) (a +:+ y) = Path.strip_prefix x y.
Proof.
  induction a as [|c a IH]; [reflexivity|].
  change (Path.strip_prefix (String c (a +:+ x)) (String c (a +:+ y))
          = Path.strip_prefix x y).
  cbn [Path.strip_prefix]. now rewrite Ascii.eqb_refl.
Qed.

Lemma eqb_common a x y : String.eqb (a +:+ x) (a +:+ y) = String.eqb x y.
Proof.
  induction a as [|c a IH]; [reflexivity|].
  change (String.eqb (String c (a +:+ x)) (String c (a +:+ y)) = String.eqb x y).
  cbn [String.eqb]. now rewrite Ascii.eqb_refl.
Qed.

(** Two strings that part at their first character. *)
Lemma under_apart a x y c d :
  Ascii.eqb c d = false ->
  Os.under (a +:+ String c x) (a +:+ String d y) = false.
Proof.
  intros Hcd. unfold Os.under.
  rewrite eqb_common, string_app_assoc, strip_prefix_common.
  change (String c x +:+ String Path.sep EmptyString)
    with (String c (x +:+ String Path.sep EmptyString)).
  cbn [String.eqb Path.strip_prefix]. now rewrite Hcd.
Qed.

Lemma join2_relative p c b :
  Ascii.eqb c Path.sep = false ->
  Path.join2 p (String c b)
  = if negb (Py.truthy p) || Path.endswith_sep p then p +:+ String c b
    else p +:+ String Path.sep (String c b).
Proof. intros H. unfold Path.join2. cbn [Path.startswith_sep]. now rewrite H. Qed.

(** The fragment directory of [dump] is not empty, does not end in a
    separator, and does not contain the consolidated file. *)
Lemma fragment_dir_shape (self : IceReport.t) (date : string) :
  let temp_dir := fragment_dir self date in
  let base_path :=
    Path.join (Path.dirname temp_dir)
              [pretty (IceReport.report_id self) +:+ ".csv"] in
  temp_dir <> EmptyString
  /\ Path.endswith_sep temp_dir = false
  /\ Os.under temp_dir base_path = false.
Proof.
  intros temp_dir base_path. subst temp_dir base_path. unfold fragment_dir.
  destruct (pretty_Z_plain (IceReport.report_id self)) as [Hplain Hne].
  destruct (plain_facts _ Hplain) as [Hnosep Hfirst].
  destruct (pretty (IceReport.report_id self)) as [|n0 n] eqn:En; [congruence|].
  destruct (Hfirst n0 n eq_refl) as [Htilde Hslash].
  cbn [Path.join fold_left].
  set (P := Path.join2 (IceReport.base_dir self) date).
  change ("~" +:+ String n0 n) with (String "~" (String n0 n)).
  change (String n0 n +:+ ".csv") with (String n0 (n +:+ ".csv")).
  set (t := String n0 n). set (f := n +:+ ".csv").
  assert (Py.contains Path.sep (String "~" t) = false) as HT by exact Hnosep.
  assert (exists q, (q = EmptyString \/ Path.endswith_sep q = true)
                    /\ Path.join2 P (String "~" t) = q +:+ String "~" t)
    as (q & Hq & ->).
  { rewrite join2_relative by reflexivity.
    destruct P as [|p0 P'] eqn:EP; [exists EmptyString; auto|].
    cbn [Py.truthy negb orb].
    destruct (Path.endswith_sep (String p0 P')) eqn:E.
    - exists (String p0 P'). auto.
    - exists (String p0 P' +:+ "/"). split.
      + right. now rewrite endswith_sep_app by discriminate.
      + now rewrite string_app_assoc. }
  split; [|split].
  - destruct q; discriminate.
  - rewrite endswith_sep_app by discriminate. now apply endswith_sep_contains.
  - unfold Path.dirname. rewrite (head_app q _ HT Hq).
    destruct (rstrip_sep_split q) as (s & Hs & Hsplit).
    pose proof (rstrip_sep_end q) as Hend.
    rewrite join2_relative by exact Hslash.
    destruct (Path.rstrip_sep q) as [|d0 d] eqn:Ed; cbn [Py.truthy].
    + (* the directory part is empty or made of separators *)
      change (q = s) in Hsplit. subst s.
      assert (negb (Py.truthy q) || Path.endswith_sep q = true) as ->.
      { destruct Hq as [-> | ->]; [reflexivity|apply orb_true_r]. }
      apply under_apart. now rewrite Ascii.eqb_sym.
    + cbn [negb orb]. rewrite Hend. rewrite Hsplit. destruct s as [|s0 s].
      * rewrite append_nil_r in Hsplit. rewrite Hsplit in Hq.
        destruct Hq as [Hq|Hq]; [discriminate|congruence].
      * cbn [all_sep] in Hs. apply andb_true_iff in Hs as [Hs0 Hs].
        apply Ascii.eqb_eq in Hs0. subst s0.
        rewrite string_app_assoc.
        change (String Path.sep s +:+ String "~" t)
          with (String Path.sep EmptyString +:+ (s +:+ String "~" t)).
        change (String d0 d +:+ String Path.sep (String n0 f))
          with (String d0 d +:+ (String Path.sep EmptyString +:+ String n0 f)).
        rewrite <- !(string_app_assoc (String d0 d) (String Path.sep EmptyString)).
        destruct s as [|s1 s].
        -- apply under_apart. now rewrite Ascii.eqb_sym.
        -- cbn [all_sep] in Hs. apply andb_true_iff in Hs as [Hs1 _].
           apply Ascii.eqb_eq in Hs1. subst s1.
           change (String Path.sep s +:+ String "~" t)
             with (String Path.sep (s +:+ String "~" t)).
           apply under_apart. now rewrite Ascii.eqb_sym.
Qed.

Lemma rstrip_sep_id p : Path.endswith_sep p = false -> Path.rstrip_sep p = p.
Proof.
  induction p as [|x p IH]; [reflexivity|]. cbn [Path.rstrip_sep].
  destruct p as [|y p].
  - cbn. now intros ->.
  - rewrite endswith_sep_cons by discriminate. intros H. now rewrite (IH H).
Qed.

Lemma rstrip_sep_slash p :
  Path.rstrip_sep (p +:+ String Path.sep EmptyString) = Path.rstrip_sep p.
Proof.
  induction p as [|x p IH]; [reflexivity|].
  change (Path.rstrip_sep (String x (p +:+ String Path.sep EmptyString))
          = Path.rstrip_sep (String x p)).
  cbn [Path.rstrip_sep]. now rewrite IH.
Qed.

(** For a plain base directory and a plain label the consolidated file
    is [base_dir/label/report_id.csv]. *)
Lemma consolidated_path (self : IceReport.t) (date : string) :
  IceReport.base_dir self <> EmptyString ->
  Path.endswith_sep (IceReport.base_dir self) = false ->
  date <> EmptyString ->
  Path.startswith_sep date = false ->
  Path.endswith_sep date = false ->
  Path.join (Path.dirname (fragment_dir self date))
            [pretty (IceReport.report_id self) +:+ ".csv"]
  = IceReport.base_dir self +:+ "/" +:+ date +:+ "/"
    +:+ pretty (IceReport.report_id self) +:+ ".csv".
Proof.
  intros Hb Hbe Hd Hds Hde. unfold fragment_dir.
  destruct (pretty_Z_plain (IceReport.report_id self)) as [Hplain Hne].
  destruct (plain_facts _ Hplain) as [Hnosep Hfirst].
  destruct (pretty (IceReport.report_id self)) as [|n0 n] eqn:En; [congruence|].
  destruct (Hfirst n0 n eq_refl) as [Htilde Hslash].
  cbn [Path.join fold_left].
  assert (Path.join2 (IceReport.base_dir self) date
          = IceReport.base_dir self +:+ "/" +:+ date) as ->.
  { unfold Path.join2. rewrite Hds, Hbe, (truthy_nonempty _ Hb). reflexivity. }
  set (P := IceReport.base_dir self +:+ "/" +:+ date).
  assert (Path.endswith_sep P = false) as HP.
  { unfold P. rewrite endswith_sep_app; [|destruct date; [congruence|discriminate]].
    change ("/" +:+ date) with (String Path.sep date).
    destruct date; [congruence|]. now rewrite endswith_sep_cons by discriminate. }
  assert (P <> EmptyString) as HPne.
  { unfold P. destruct (IceReport.base_dir self); [congruence|discriminate]. }
  change ("~" +:+ String n0 n) with (String "~" (String n0 n)).
  change (String n0 n +:+ ".csv") with (String n0 (n +:+ ".csv")).
  rewrite (join2_relative P "~" (String n0 n)) by reflexivity.
  rewrite HP, (truthy_nonempty _ HPne). cbn [negb orb].
  change (P +:+ String Path.sep (String "~" (String n0 n)))
    with (P +:+ (String Path.sep EmptyString +:+ String "~" (String n0 n))).
  rewrite <- string_app_assoc.
  unfold Path.dirname. rewrite head_app.
  - rewrite rstrip_sep_slash, (rstrip_sep_id _ HP), (truthy_nonempty _ HPne).
    rewrite (join2_relative P n0) by exact Hslash.
    rewrite HP, (truthy_nonempty _ HPne). cbn [negb orb]. unfold P.
    now rewrite !string_app_assoc.
  - exact Hnosep.
  - right. now rewrite endswith_sep_app by discriminate.
Qed.

(** C3, corrected.  When the fragment directory of a period exists
    after its markets, its path holds no pattern character of [glob],
    and no directory sits at the consolidated path, the merge creates
    (or truncates) the consolidated file
    [dirname(temp_dir)/report_id.csv], which for a plain base directory
    and label is [base_dir/label/report_id.csv]; lists the entries of
    the fragment directory whose name ends in [.csv] and does not start
    with a dot, whichever run wrote them, in the order in which the
    system lists the directory; appends to the consolidated file the
    rows of each listed entry that is a regular file, as [csv.reader]
    reads them back in text mode (no field over the limit of the
    reader); logs each listed entry; logs the report; and removes the
    fragment directory with everything below it.  Files elsewhere are
    left as they were. *)
Theorem dump_merge_spec (self : IceReport.t) (date : string) (w : world) :
  let temp_dir := fragment_dir self date in
  let base_path :=
    Path.join (Path.dirname temp_dir)
              [pretty (IceReport.report_id self) +:+ ".csv"] in
  let listed := Os.listing temp_dir (<[base_path := File []]> (fs w)) in
  let fragments := scandir w listed in
  (IceReport.base_dir self <> EmptyString ->
   Path.endswith_sep (IceReport.base_dir self) = false ->
   date <> EmptyString ->
   Path.startswith_sep date = false ->
   Path.endswith_sep date = false ->
   base_path = IceReport.base_dir self +:+ "/" +:+ date +:+ "/"
               +:+ pretty (IceReport.report_id self) +:+ ".csv")
  /\ (Path.has_magic temp_dir = false ->
      fs w !! temp_dir = Some Dir ->
      fs w !! base_path <> Some Dir ->
      Permutation listed fragments ->
      Forall (fun p => readable (fs w) p = true) listed ->
      exists w',
        IceReport.dump_merge self date temp_dir w = (Return tt, w')
        /\ (forall p,
              In p fragments
              <-> exists name,
                    p = temp_dir +:+ "/" +:+ name /\ Path.matches_csv name = true
                    /\ is_Some (fs w !! p))
        /\ fs w' !! base_path = Some (File (flat_map (rows_of (fs w)) fragments))
        /\ (forall p, Os.under temp_dir p = true -> fs w' !! p = None)
        /\ (forall p, Os.under temp_dir p = false -> p <> base_path ->
                      fs w' !! p = fs w !! p)
        /\ trace w'
           = trace w ++ List.map (fun p => Print (MMerged p date)) fragments
             ++ [Print (MReport (IceReport.report_id self) date base_path)])
  /\ (forall p content,
        fs w !! p = Some (File content) ->
        Forall (fun r => Csv.row_ok r = true) content ->
        readable (fs w) p = true
        /\ rows_of (fs w) p
           = List.map (List.map Csv.universal_newlines) content).
Proof.
  intros temp_dir base_path listed fragments. split; [|split].
  - apply consolidated_path.
  - intros Hmagic Hdir Hbase Hperm Hread.
    destruct (fragment_dir_shape self date) as (Hne & Hsep & Hout).
    now apply dump_merge_general.
  - intros p content Hp Hok. unfold readable, rows_of. rewrite Hp.
    now apply read_complete.
Qed.

(** C3 as stated fails on the path: after the merge there is no
    [base_dir/report_id.csv]; the consolidated file is
    [base_dir/label/report_id.csv]. *)
Lemma consolidated_file_is_under_label :
  let r := main pyce7 resumed_world in
  r.1 = Return tt
  /\ Path.join "pyce" ["7.csv"%string] = "pyce/7.csv"%string
  /\ fs r.2 !! "pyce/7.csv"%string = None
  /\ is_Some (fs r.2 !! "pyce/Jan/7.csv"%string).
Proof.
  intros r. split; [vm_compute; reflexivity|]. split; [reflexivity|].
  split; [vm_compute; reflexivity|]. vm_compute. eauto.
Qed.

(** C3 at a fragment directory that holds the fragments of A (from an
    earlier run) and B, a hidden file and a sub-directory, in a world
    that lists a directory backwards. *)
Lemma dump_merge_witness :
  let m : gmap string node :=
    <["pyce/Jan/~7/Qg.csv" := File [["b1"]]]>
      (<["pyce/Jan/~7/.hidden.csv" := File [["h"]]]>
         (<["pyce/Jan/~7/dir.csv" := Dir]> resumed_fs))%string in
  let w := MkWorld m None None [] [] (fun _ => NoFault) [] (@rev string) in
  let fragments :=
    rev (Os.listing "pyce/Jan/~7" (<["pyce/Jan/7.csv" := File []]> m)) in
  exists w',
    IceReport.dump_merge report7 "Jan" "pyce/Jan/~7" w = (Return tt, w')
    /\ (forall p,
          In p fragments
          <-> exists name,
                p = "pyce/Jan/~7" +:+ "/" +:+ name /\ Path.matches_csv name = true
                /\ is_Some (fs w !! p))
    /\ fs w' !! "pyce/Jan/7.csv"%string
       = Some (File (flat_map (rows_of (fs w)) fragments))
    /\ (forall p, Os.under "pyce/Jan/~7" p = true -> fs w' !! p = None)
    /\ (forall p, Os.under "pyce/Jan/~7" p = false -> p <> "pyce/Jan/7.csv"%string ->
                  fs w' !! p = fs w !! p)
    /\ trace w'
       = trace w ++ List.map (fun p => Print (MMerged p "Jan")) fragments
         ++ [Print (MReport 7 "Jan" "pyce/Jan/7.csv")].
Proof.
  intros m w fragments.
  apply (proj1 (proj2 (dump_merge_spec report7 "Jan" w))).
  - reflexivity.
  - vm_compute. reflexivity.
  - vm_compute. discriminate.
  - apply Permutation_rev.
  - vm_compute. repeat constructor.
Defined.

(** What that merge reads: the fragments of A and B, in the order of
    the backward listing; the hidden file and the directory contribute
    no row. *)
Example dump_merge_run :
  let m : gmap string node :=
    <["pyce/Jan/~7/Qg.csv" := File [["b1"]]]>
      (<["pyce/Jan/~7/.hidden.csv" := File [["h"]]]>
         (<["pyce/Jan/~7/dir.csv" := Dir]> resumed_fs))%string in
  let w := MkWorld m None None [] [] (fun _ => NoFault) [] (@rev string) in
  let r := IceReport.dump_merge report7 "Jan" "pyce/Jan/~7" w in
  map_to_list (fs r.2) = [("pyce/Jan/7.csv", File [["old"]; ["b1"]])]%string
  /\ trace r.2
     = [Print (MMerged "pyce/Jan/~7/dir.csv" "Jan");
        Print (MMerged "pyce/Jan/~7/QQ.csv" "Jan");
        Print (MMerged "pyce/Jan/~7/Qg.csv" "Jan");
        Print (MReport 7 "Jan" "pyce/Jan/7.csv")].
Proof.
  vm_compute. repeat split.
Qed.


(** ** Further properties *)

(** When [open] fails for a market of a period whose label is known,
    the iteration ends with the exception that the handler's
    [os.remove] raises ([FileNotFoundError] when there is merely no
    file, the path's own error otherwise): the page was fetched, the
    error of [open] is logged, and no file is created. *)
Theorem dump_market_open_fault (self : IceReport.t) (time_period market : string)
  date temp_dir rows w w1 e removal :
  let path := fragment_path temp_dir (file_name market) in
  date <> EmptyString ->
  fs w !! path = None ->
  IceReport.get_results self market time_period w = (Return (date, rows), w1) ->
  faults w path = OpenFault e removal ->
  is_exception e = true ->
  IceReport.dump_market self time_period (date, temp_dir) market w
  = (Raise removal, emit (Print (MError e)) w1)
  /\ fs w1 = fs w.
Proof.
  intros path Hdate Hnone Hget Hfault Hexc.
  pose proof (get_results_frame self market time_period w) as [F D].
  rewrite Hget in F, D. cbn [snd] in F, D. split; [|exact F].
  unfold IceReport.dump_market. cbn [fst snd].
  rewrite (truthy_nonempty _ Hdate). cbn [negb].
  unfold bind at 1, ret. unfold bind at 1, lift. rewrite encode_file_name.
  unfold ret. cbn [fst snd].
  change (Path.join temp_dir [file_name market +:+ ".csv"]) with path.
  unfold bind at 1, Os.isfile, get. rewrite Hnone.
  unfold bind at 1. unfold bind at 1. rewrite Hget. cbn [fst snd].
  rewrite String.eqb_refl.
  rewrite (write_fragment_unopened self market time_period path rows w1 e removal);
    [reflexivity|now rewrite F|now rewrite D|exact Hexc].
Qed.

(** Without a fragment directory (no label was ever set, or the
    directory is gone) the merge does nothing. *)
Lemma dump_merge_nothing self date temp_dir w :
  temp_dir = EmptyString \/ fs w !! temp_dir <> Some Dir ->
  IceReport.dump_merge self date temp_dir w = (Return tt, w).
Proof.
  intros H. unfold IceReport.dump_merge, bind, Os.isdir, get.
  destruct H as [->|H]; [now destruct (fs w !! EmptyString) as [[|]|]|].
  destruct (fs w !! temp_dir) as [[|]|]; try congruence;
    now rewrite andb_false_r.
Qed.

Lemma filter_from_all {T} (l : list T) : forall i, IndexFilter.filter_from [] i l = l.
Proof. induction l as [|x l IH]; intros i; cbn; [reflexivity|now rewrite IH]. Qed.

(** A filter without entries keeps every element, in order. *)
Lemma filter_no_spec {T} (l : list T) :
  IndexFilter.init "" = Ok [] /\ IndexFilter.filter [] l = l.
Proof. split; [reflexivity|apply filter_from_all]. Qed.

(** The file name of a market never contains a separator or padding:
    every market has a fragment path directly in the fragment
    directory. *)
Lemma encode_data_path_safe market :
  exists file_name,
    encode_data market = Ok file_name
    /\ Py.contains "/" file_name = false
    /\ Py.contains "=" file_name = false.
Proof.
  rewrite encode_data_ok. eexists. split; [reflexivity|].
  destruct (urlsafe_no_pad _ (stripped_urlsafe (Utf8.encode market))). auto.
Qed.

(** The market with the empty name gets the fragment [.csv], a hidden
    file: the pattern [*.csv] does not select it. *)
Example empty_market_fragment :
  encode_data "" = Ok ""%string
  /\ fragment_path "pyce/Jan/~7" "" = "pyce/Jan/~7/.csv"%string
  /\ Os.csv_entry "pyce/Jan/~7" "pyce/Jan/~7/.csv" = false.
Proof. repeat split. Qed.

(** [dump_market_open_fault] on a disk for which the name of the
    fragment of B is too long: [open] and [os.remove] both fail with
    ENAMETOOLONG. *)
Lemma dump_market_open_fault_witness :
  let w := World (<["pyce/Jan/~7" := Dir]> ∅) None None
             [results_reply "Jan" [["b1"%string]]] []
             (fun _ => OpenFault (OSError 36) (OSError 36)) [] in
  let w1 := set_cache (Some ("B", "T0", ("Jan", [["b1"]])))%string
              (set_server [] (emit (results_request report7 "B" "T0" None) w)) in
  IceReport.dump_market report7 "T0" ("Jan", "pyce/Jan/~7")%string "B" w
  = (Raise (OSError 36), emit (Print (MError (OSError 36))) w1)
  /\ fs w1 = fs w.
Proof.
  intros w w1.
  apply (dump_market_open_fault report7 "T0" "B" "Jan" "pyce/Jan/~7"
           [["b1"%string]] w w1 (OSError 36) (OSError 36));
    [discriminate|vm_compute; reflexivity|reflexivity|reflexivity|reflexivity].
Defined.

(** [dump_merge_nothing] after a period in which no label was set. *)
Lemma dump_merge_nothing_witness :
  IceReport.dump_merge report7 "" "" resumed_world = (Return tt, resumed_world).
Proof.
  apply dump_merge_nothing. left. reflexivity.
Defined.

(** The fragment directory of [dump] never contains the consolidated
    file, so removing the directory cannot remove the file. *)
Theorem consolidated_file_outside (self : IceReport.t) (date : string) :
  let temp_dir := fragment_dir self date in
  temp_dir <> EmptyString
  /\ Path.endswith_sep temp_dir = false
  /\ Os.under temp_dir
       (Path.join (Path.dirname temp_dir)
                  [pretty (IceReport.report_id self) +:+ ".csv"]) = false.
Proof.
  intros temp_dir. destruct (fragment_dir_shape self date) as (H1 & H2 & H3).
  repeat split; assumption.
Qed.

(** ** IndexFilter.filter: what a filter keeps *)

Lemma filter_from_app {T} fs (l1 : list T) : forall l2 i,
  IndexFilter.filter_from fs i (l1 ++ l2)
  = IndexFilter.filter_from fs i l1
    ++ IndexFilter.filter_from fs (i + Z.of_nat (length l1)) l2.
Proof.
  induction l1 as [|x l1 IH]; intros l2 i; cbn [app IndexFilter.filter_from length].
  - now rewrite Z.add_0_r.
  - rewrite IH. replace (i + 1 + Z.of_nat (length l1)) with (i + Z.of_nat (S (length l1))) by lia.
    now destruct (IndexFilter.call fs i).
Qed.

Lemma call_range a b i :
  b <> -1 -> IndexFilter.call [Py.Range a b] i = (a <=? i) && (i <? b).
Proof.
  intros Hb. cbn. destruct (Z.eqb_spec b (-1)); [contradiction|].
  unfold Py.in_range. cbn. now destruct ((a <=? i) && (i <? b)).
Qed.

Lemma filter_from_range {T} a b (l : list T) : forall i,
  b <> -1 ->
  IndexFilter.filter_from [Py.Range a b] i l
  = firstn (Z.to_nat (b - i) - Z.to_nat (a - i)) (skipn (Z.to_nat (a - i)) l).
Proof.
  induction l as [|x l IH]; intros i Hb.
  - cbn. now rewrite skipn_nil, firstn_nil.
  - cbn [IndexFilter.filter_from]. rewrite call_range, IH by exact Hb.
    destruct (Z.leb_spec a i) as [Hai|Hai]; cbn [andb].
    + replace (Z.to_nat (a - i)) with 0%nat by lia.
      replace (Z.to_nat (a - (i + 1))) with 0%nat by lia.
      cbn [skipn]. destruct (Z.ltb_spec i b) as [Hib|Hib].
      * replace (Z.to_nat (b - i) - 0)%nat with (S (Z.to_nat (b - (i + 1)) - 0)) by lia.
        reflexivity.
      * replace (Z.to_nat (b - i) - 0)%nat with 0%nat by lia.
        replace (Z.to_nat (b - (i + 1)) - 0)%nat with 0%nat by lia.
        reflexivity.
    + replace (Z.to_nat (a - i)) with (S (Z.to_nat (a - (i + 1)))) by lia.
      cbn [skipn]. f_equal. lia.
Qed.

Lemma filter_range_slice_aux {T} (a b : Z) (l : list T) :
  0 <= a -> b <> -1 ->
  IndexFilter.filter [Py.Range a b] l
  = firstn (Z.to_nat (b - a)) (skipn (Z.to_nat a) l).
Proof.
  intros Ha Hb. unfold IndexFilter.filter. rewrite filter_from_range by exact Hb.
  rewrite !Z.sub_0_r. f_equal. lia.
Qed.

(** A range entry is a slice: the filter of ["a-b"] keeps [l[a:b]]. *)
Theorem filter_range_slice {T} (a b : Z) (l : list T) :
  0 <= a -> b <> -1 ->
  IndexFilter.filter [Py.Range a b] l
  = firstn (Z.to_nat (b - a)) (skipn (Z.to_nat a) l).
Proof.
  exact (filter_range_slice_aux a b l).
Qed.

Lemma filter_range_slice_witness :
  IndexFilter.filter [Py.Range 2 5] ["a"; "b"; "c"; "d"; "e"; "f"; "g"]%string
  = firstn (Z.to_nat (5 - 2)) (skipn (Z.to_nat 2) ["a"; "b"; "c"; "d"; "e"; "f"; "g"]%string).
Proof. apply filter_range_slice; [lia|discriminate]. Defined.

Lemma call_singleton k i : IndexFilter.call [Py.Range k (-1)] i = (i =? k).
Proof. cbn. now destruct (i =? k). Qed.

Lemma filter_from_singleton {T} k (l : list T) : forall i,
  IndexFilter.filter_from [Py.Range k (-1)] i l
  = if i <=? k
    then match nth_error l (Z.to_nat (k - i)) with Some x => [x] | None => [] end
    else [].
Proof.
  induction l as [|x l IH]; intros i.
  - cbn. destruct (i <=? k); [|reflexivity]. now destruct (Z.to_nat (k - i)).
  - cbn [IndexFilter.filter_from]. rewrite call_singleton, IH.
    destruct (Z.eqb_spec i k) as [->|Hne].
    + rewrite Z.sub_diag, Z.leb_refl. cbn.
      destruct (Z.leb_spec (k + 1) k); [lia|reflexivity].
    + destruct (Z.leb_spec i k) as [Hik|Hik].
      * destruct (Z.leb_spec (i + 1) k); [|lia].
        replace (Z.to_nat (k - i)) with (S (Z.to_nat (k - (i + 1)))) by lia.
        reflexivity.
      * destruct (Z.leb_spec (i + 1) k); [lia|reflexivity].
Qed.

(** A singleton entry keeps the element at its position, if there is
    one. *)
Theorem filter_singleton_nth {T} (k : Z) (l : list T) :
  0 <= k ->
  IndexFilter.filter [Py.Range k (-1)] l
  = match nth_error l (Z.to_nat k) with Some x => [x] | None => [] end.
Proof.
  intros Hk. unfold IndexFilter.filter. rewrite filter_from_singleton.
  destruct (Z.leb_spec 0 k); [|lia]. now rewrite Z.sub_0_r.
Qed.

Lemma filter_singleton_nth_witness :
  IndexFilter.filter [Py.Range 1 (-1)] ["a"; "b"; "c"]%string
  = match nth_error ["a"; "b"; "c"]%string (Z.to_nat 1) with
    | Some x => [x]
    | None => []
    end.
Proof. apply filter_singleton_nth. lia. Defined.

Lemma filter_from_In {T} fs (l : list T) : forall i x,
  In x (IndexFilter.filter_from fs i l)
  <-> exists j, nth_error l j = Some x /\ IndexFilter.call fs (i + Z.of_nat j) = true.
Proof.
  induction l as [|y l IH]; intros i x; cbn [IndexFilter.filter_from].
  - split; [intros []|]. intros [j [Hj _]]. now destruct j.
  - assert (Hrest : In x (IndexFilter.filter_from fs (i + 1) l)
                    <-> exists j, nth_error (y :: l) (S j) = Some x
                                  /\ IndexFilter.call fs (i + Z.of_nat (S j)) = true).
    { rewrite IH. split; intros [j [Hj Hc]]; exists j; (split; [exact Hj|]).
      - now replace (i + Z.of_nat (S j)) with (i + 1 + Z.of_nat j) by lia.
      - now replace (i + 1 + Z.of_nat j) with (i + Z.of_nat (S j)) by lia. }
    destruct (IndexFilter.call fs i) eqn:Hi.
    + cbn [In]. rewrite Hrest. split.
      * intros [->|[j H]]; [exists 0%nat|exists (S j); exact H].
        cbn. now rewrite Z.add_0_r.
      * intros [[|j] [Hj Hc]]; [left; now inversion Hj|right; now exists j].
    + rewrite Hrest. split.
      * intros [j H]. now exists (S j).
      * intros [[|j] [Hj Hc]]; [|now exists j].
        cbn in Hc. rewrite Z.add_0_r in Hc. congruence.
Qed.

Lemma filter_from_sublist {T} fs (l : list T) : forall i,
  sublist (IndexFilter.filter_from fs i l) l.
Proof.
  induction l as [|y l IH]; intros i; cbn [IndexFilter.filter_from].
  - constructor.
  - destruct (IndexFilter.call fs i); [apply sublist_skip|apply sublist_cons]; apply IH.
Qed.

(** [filter] keeps exactly the elements whose position, counted from
    0, the filter matches; it keeps them in their order and never
    invents or repeats one. *)
Theorem filter_keeps_matching {T : Type} :
  (forall (fs : list Py.range) (l : list T) x,
     In x (IndexFilter.filter fs l)
     <-> exists j, nth_error l j = Some x /\ IndexFilter.call fs (Z.of_nat j) = true)
  /\ (forall (fs : list Py.range) (l : list T),
        sublist (IndexFilter.filter fs l) l)
  /\ (forall (fs : list Py.range) (l1 l2 : list T),
        IndexFilter.filter fs (l1 ++ l2)
        = IndexFilter.filter fs l1
          ++ IndexFilter.filter_from fs (Z.of_nat (length l1)) l2).
Proof.
  split; [|split].
  - intros fs l x. unfold IndexFilter.filter. rewrite filter_from_In.
    split; intros [j H]; exists j; exact H.
  - intros fs l. apply filter_from_sublist.
  - intros fs l1 l2. unfold IndexFilter.filter. now rewrite filter_from_app.
Qed.

(** The filters of the command line's defaults: ["-"] (markets and
    columns) keeps every element of a list shorter than [sys.maxsize],
    ["0"] (time periods) keeps only the first. *)
Theorem default_filters {T : Type} (l : list T) :
  (exists fs, IndexFilter.init "-" = Ok fs
              /\ (Z.of_nat (length l) <= Py.maxsize -> IndexFilter.filter fs l = l))
  /\ (exists fs, IndexFilter.init "0" = Ok fs
                 /\ IndexFilter.filter fs l = firstn 1 l).
Proof.
  split.
  - exists [Py.Range 0 Py.maxsize]. split; [reflexivity|]. intros Hlen.
    rewrite filter_range_slice_aux. 2: lia. 2: discriminate.
    cbn [skipn Z.to_nat]. apply firstn_all2. lia.
  - exists [Py.Range 0 (-1)]. split; [reflexivity|].
    unfold IndexFilter.filter. rewrite filter_from_singleton. cbn.
    now destruct l.
Qed.

(** ** IndexFilter.__init__: spaces, commas and the entries built *)

Lemma remove_idem c s : Py.remove c (Py.remove c s) = Py.remove c s.
Proof.
  induction s as [|x s IH]; cbn; [reflexivity|].
  destruct (Ascii.eqb x c) eqn:E; [exact IH|]. cbn. now rewrite E, IH.
Qed.

Lemma split_remove c d s :
  Ascii.eqb d c = false ->
  Py.split c (Py.remove d s) = map (Py.remove d) (Py.split c s).
Proof.
  intros Hdc. induction s as [|x s IH]; [reflexivity|].
  cbn [Py.remove Py.split].
  destruct (Ascii.eqb_spec x d) as [->|Hxd].
  - rewrite Hdc, IH. pose proof (split_nonempty c s) as Hne.
    destruct (Py.split c s) as [|h t]; [contradiction|].
    cbn [map Py.remove]. now rewrite Ascii.eqb_refl.
  - cbn [Py.split]. destruct (Ascii.eqb x c) eqn:Exc.
    + now rewrite IH.
    + rewrite IH. pose proof (split_nonempty c s) as Hne.
      destruct (Py.split c s) as [|h t]; [contradiction|].
      cbn [map Py.remove]. destruct (Ascii.eqb_spec x d); [contradiction|reflexivity].
Qed.

Lemma tokens_remove_spaces filters :
  IndexFilter.tokens (Py.remove " " filters) = IndexFilter.tokens filters.
Proof.
  unfold IndexFilter.tokens. rewrite split_remove by reflexivity.
  rewrite map_map. f_equal. apply map_ext. intros p. apply remove_idem.
Qed.

(** Spaces carry no meaning anywhere in a filter specification: the
    constructor builds the same entries, or fails alike, with all of
    them removed. *)
Theorem init_ignores_spaces filters :
  IndexFilter.init (Py.remove " " filters) = IndexFilter.init filters.
Proof.
  unfold IndexFilter.init. now rewrite tokens_remove_spaces.
Qed.

Lemma split_app c a b :
  Py.split c (a +:+ String c b) = Py.split c a ++ Py.split c b.
Proof.
  induction a as [|x a IH].
  - change ("" +:+ String c b) with (String c b).
    cbn [Py.split]. now rewrite Ascii.eqb_refl.
  - change (String x a +:+ String c b) with (String x (a +:+ String c b)).
    cbn [Py.split]. rewrite IH. destruct (Ascii.eqb x c); [reflexivity|].
    pose proof (split_nonempty c a) as Hne.
    now destruct (Py.split c a) as [|h t]; [contradiction|].
Qed.

Lemma tokens_app a b :
  IndexFilter.tokens (a +:+ String "," b)
  = IndexFilter.tokens a ++ IndexFilter.tokens b.
Proof.
  unfold IndexFilter.tokens. now rewrite split_app, map_app, List.filter_app.
Qed.

Lemma parse_tokens_app ts1 ts2 :
  IndexFilter.parse_tokens (ts1 ++ ts2)
  = rbind (IndexFilter.parse_tokens ts1) (fun f1 =>
    rbind (IndexFilter.parse_tokens ts2) (fun f2 => Ok (f1 ++ f2))).
Proof.
  induction ts1 as [|t ts1 IH]; cbn [app IndexFilter.parse_tokens].
  - cbn. now destruct (IndexFilter.parse_tokens ts2).
  - destruct (IndexFilter.parse_token t) as [r|e]; [|reflexivity]. cbn [rbind].
    rewrite IH. destruct (IndexFilter.parse_tokens ts1) as [f1|e]; [|reflexivity].
    cbn [rbind]. now destruct (IndexFilter.parse_tokens ts2).
Qed.

Lemma call_loop_app fs1 fs2 index :
  IndexFilter.call_loop (fs1 ++ fs2) index
  = IndexFilter.call_loop fs1 index || IndexFilter.call_loop fs2 index.
Proof.
  induction fs1 as [|f fs1 IH]; [reflexivity|]. cbn [app IndexFilter.call_loop].
  rewrite IH. destruct (Py.stop f =? -1).
  - now destruct (index =? Py.start f).
  - now destruct (Py.in_range index f).
Qed.

(** The comma is a union: the specification [a,b] parses exactly when
    [a] and [b] do, to the entries of [a] followed by those of [b];
    when both have entries, it matches the indices that either
    matches. *)
Theorem init_comma_union :
  (forall a b,
     IndexFilter.init (a +:+ "," +:+ b)
     = rbind (IndexFilter.init a) (fun fa =>
       rbind (IndexFilter.init b) (fun fb => Ok (fa ++ fb))))
  /\ (forall fa fb index,
        fa <> [] -> fb <> [] ->
        IndexFilter.call (fa ++ fb) index
        = IndexFilter.call fa index || IndexFilter.call fb index)
  /\ (forall fa index,
        IndexFilter.call (fa ++ []) index = IndexFilter.call fa index).
Proof.
  split; [|split].
  - intros a b. unfold IndexFilter.init.
    change ("," +:+ b) with (String "," b).
    now rewrite tokens_app, parse_tokens_app.
  - intros fa fb index Ha Hb.
    destruct fa as [|f fa]; [contradiction|]. destruct fb as [|g fb]; [contradiction|].
    exact (call_loop_app (f :: fa) (g :: fb) index).
  - intros fa index. now rewrite app_nil_r.
Qed.

Lemma parse_token_shape t f :
  IndexFilter.parse_token t = Ok f ->
  0 <= Py.start f
  /\ (if Py.contains "-" t then 0 <= Py.stop f else Py.stop f = -1).
Proof.
  unfold IndexFilter.parse_token. destruct (Py.contains "-" t) eqn:Hc.
  - pose proof (split_parts_clean "-" t) as Hclean.
    destruct (Py.split "-" t) as [|s [|e [|x rest]]]; try discriminate.
    inversion Hclean as [|? ? Hs Hrest]; subst.
    inversion Hrest as [|? ? He _]; subst.
    assert (Ha : forall a, (if Py.truthy s then Py.int s else Ok 0) = Ok a -> 0 <= a).
    { intros a. destruct (Py.truthy s).
      - now apply int_without_minus.
      - intros [= <-]. lia. }
    assert (Hb : forall b, (if Py.truthy e then Py.int e else Ok Py.maxsize) = Ok b -> 0 <= b).
    { intros b. destruct (Py.truthy e).
      - now apply int_without_minus.
      - intros [= <-]. unfold Py.maxsize. lia. }
    destruct (if Py.truthy s then Py.int s else Ok 0) as [a|]; [|discriminate].
    destruct (if Py.truthy e then Py.int e else Ok Py.maxsize) as [b|]; [|discriminate].
    cbn. intros [= <-]. cbn. split; [now apply Ha|now apply Hb].
  - destruct (Py.int t) as [a|] eqn:Hi; [|discriminate]. cbn. intros [= <-]. cbn.
    split; [|reflexivity]. now apply (int_without_minus t).
Qed.

Lemma parse_tokens_shape ts : forall fs,
  IndexFilter.parse_tokens ts = Ok fs ->
  Forall2 (fun t f =>
             0 <= Py.start f
             /\ (if Py.contains "-" t then 0 <= Py.stop f else Py.stop f = -1))
          ts fs.
Proof.
  induction ts as [|t ts IH]; intros fs; cbn [IndexFilter.parse_tokens].
  - intros [= <-]. constructor.
  - destruct (IndexFilter.parse_token t) as [f|] eqn:Ht; [|discriminate]. cbn [rbind].
    destruct (IndexFilter.parse_tokens ts) as [fs'|]; [|discriminate]. cbn [rbind].
    intros [= <-]. constructor; [now apply parse_token_shape|now apply IH].
Qed.

Lemma call_loop_negative fs index :
  Forall (fun f => 0 <= Py.start f) fs -> index < 0 ->
  IndexFilter.call_loop fs index = false.
Proof.
  intros Hfs Hneg. induction Hfs as [|f fs Hf _ IH]; [reflexivity|].
  cbn [IndexFilter.call_loop]. rewrite IH. unfold Py.in_range.
  destruct (Py.stop f =? -1); cmp_cases.
Qed.

(** The entries a successful constructor stores: one per token, in the
    tokens' order; a token with a hyphen gives a range with
    non-negative bounds, a token without one a singleton (stop -1) at
    a non-negative position.  So no signed index can be written, and a
    filter with an entry matches no negative index. *)
Theorem init_entries filters fs :
  IndexFilter.init filters = Ok fs ->
  Forall2 (fun t f =>
             0 <= Py.start f
             /\ (if Py.contains "-" t then 0 <= Py.stop f else Py.stop f = -1))
          (IndexFilter.tokens filters) fs
  /\ (fs <> [] -> forall index, index < 0 -> IndexFilter.call fs index = false).
Proof.
  intros Hinit. pose proof (parse_tokens_shape _ _ Hinit) as Hshape.
  split; [exact Hshape|]. intros Hne index Hneg.
  destruct fs as [|f fs]; [contradiction|].
  apply (call_loop_negative (f :: fs)); [|exact Hneg].
  clear -Hshape. induction Hshape as [|t f' ts fs' [H _] _ IH]; constructor; auto.
Qed.

Lemma init_entries_witness :
  Forall2 (fun t f =>
             0 <= Py.start f
             /\ (if Py.contains "-" t then 0 <= Py.stop f else Py.stop f = -1))
          (IndexFilter.tokens "2-5, 7") [Py.Range 2 5; Py.Range 7 (-1)]
  /\ ([Py.Range 2 5; Py.Range 7 (-1)] <> [] ->
      forall index, index < 0 ->
      IndexFilter.call [Py.Range 2 5; Py.Range 7 (-1)] index = false).
Proof. apply (init_entries "2-5, 7"). reflexivity. Defined.

(** ** [request]: the responses it does not recover from *)


(** ** The cookie that is stored *)

Lemma cat_app a b : Py.cat (a ++ b) = Py.cat a +:+ Py.cat b.
Proof.
  induction a as [|x a IH]; [reflexivity|].
  cbn [Py.cat app]. now rewrite IH, string_app_assoc.
Qed.

(** The characters of a string are its bytes, cut. *)
Lemma cat_chars s : Py.cat (Py.chars s) = s.
Proof.
  induction s as [|x s IH]; [reflexivity|]. cbn [Py.chars].
  destruct (Py.chars s) as [|c cs].
  - cbn in IH. now subst.
  - cbn [Py.cat] in IH. destruct (Py.starts_continued c); cbn [Py.cat].
    + change (String x c +:+ Py.cat cs) with (String x (c +:+ Py.cat cs)).
      now rewrite IH.
    + change (String x EmptyString +:+ c +:+ Py.cat cs)
        with (String x (c +:+ Py.cat cs)).
      now rewrite IH.
Qed.

Lemma chars_aligned s : aligned (Py.chars s).
Proof.
  induction s as [|x s [IH1 IH2]]; [split; constructor|]. cbn [Py.chars].
  destruct (Py.chars s) as [|c cs].
  - split; [|constructor]. constructor; [reflexivity|constructor].
  - inversion IH1 as [|? ? Hc Hcs]; subst. cbn [tail] in IH2.
    destruct (Py.starts_continued c) eqn:E.
    + split; [|exact IH2]. constructor; [|exact Hcs].
      destruct c as [|y t]; [discriminate|]. cbn in *. now rewrite E.
    + split; [constructor; [reflexivity|exact IH1]|].
      cbn [tail]. now constructor.
Qed.

Lemma chars_head s :
  match Py.chars s with
  | c :: _ => Py.starts_continued c = Py.starts_continued s
  | [] => s = EmptyString
  end.
Proof.
  destruct s as [|x s]; [reflexivity|]. cbn [Py.chars].
  destruct (Py.chars s) as [|c cs]; [reflexivity|].
  now destruct (Py.starts_continued c).
Qed.

Lemma chars_unit c rest :
  is_char c = true -> Py.starts_continued rest = false ->
  Py.chars (c +:+ rest) = c :: Py.chars rest.
Proof.
  destruct c as [|x t]; [discriminate|]. cbn [is_char]. revert x.
  induction t as [|y t IH]; intros x Ht Hrest.
  - change (String x EmptyString +:+ rest) with (String x rest). cbn [Py.chars].
    pose proof (chars_head rest) as Hh.
    destruct (Py.chars rest) as [|g gs]; [reflexivity|]. now rewrite Hh, Hrest.
  - cbn [continued] in Ht. apply andb_true_iff in Ht as [Hy Ht].
    change (String x (String y t) +:+ rest) with (String x (String y t +:+ rest)).
    cbn [Py.chars]. rewrite (IH y Ht Hrest). cbn [Py.starts_continued].
    now rewrite Hy.
Qed.

(** Characters cut by [Py.chars] are found again in their
    concatenation. *)
Lemma chars_cat cs : aligned cs -> Py.chars (Py.cat cs) = cs.
Proof.
  induction cs as [|c cs IH]; intros [H1 H2]; [reflexivity|].
  inversion H1 as [|? ? Hc Hcs]; subst. cbn [tail] in H2. cbn [Py.cat].
  rewrite chars_unit; [|exact Hc|].
  - rewrite IH; [reflexivity|]. split; [exact Hcs|].
    destruct cs as [|d cs]; [constructor|]. now inversion H2.
  - destruct cs as [|d cs]; [reflexivity|].
    inversion H2 as [|? ? Hd _]; subst. inversion Hcs as [|? ? Hd' _]; subst.
    destruct d as [|y t]; [discriminate|]. exact Hd.
Qed.

Lemma aligned_app a b : aligned (a ++ b) -> aligned a /\ aligned b.
Proof.
  intros [H1 H2]. apply List.Forall_app in H1 as [Ha Hb].
  destruct a as [|x a].
  - split; [split; constructor|]. split; [exact Hb|exact H2].
  - cbn [app tail] in H2. apply List.Forall_app in H2 as [Ha' Hb'].
    split; [split; assumption|]. split; [exact Hb|].
    destruct b as [|y b]; [constructor|]. now inversion Hb'.
Qed.

Lemma lstrip_spec cs :
  exists l,
    forallb Py.isspace l = true /\ cs = l ++ Py.lstrip_chars cs
    /\ head_space (Py.lstrip_chars cs) = false.
Proof.
  induction cs as [|c cs [l [Hl [Hs Hstart]]]].
  - now exists [].
  - cbn [Py.lstrip_chars]. destruct (Py.isspace c) eqn:Hc.
    + exists (c :: l). cbn [forallb]. rewrite Hc, Hl.
      split; [reflexivity|]. split; [|exact Hstart].
      cbn [app]. now rewrite <- Hs.
    + exists []. split; [reflexivity|]. split; [reflexivity|]. exact Hc.
Qed.

Lemma rstrip_spec cs :
  exists r,
    forallb Py.isspace r = true /\ cs = Py.rstrip_chars cs ++ r
    /\ head_space (rev (Py.rstrip_chars cs)) = false
    /\ (head_space cs = false -> head_space (Py.rstrip_chars cs) = false).
Proof.
  induction cs as [|c cs [r [Hr [Hs [Hend _]]]]].
  - now exists [].
  - cbn [Py.rstrip_chars]. destruct (Py.rstrip_chars cs) as [|d t] eqn:Ht.
    + destruct (Py.isspace c) eqn:Hc.
      * exists (c :: r). cbn [forallb]. rewrite Hc, Hr.
        split; [reflexivity|]. split; [now rewrite Hs at 1|]. now split.
      * exists r. split; [exact Hr|]. split; [now rewrite Hs at 1|].
        split; [exact Hc|]. intros _. exact Hc.
    + exists r. split; [exact Hr|]. split.
      * change ((c :: d :: t) ++ r) with (c :: (d :: t) ++ r). now rewrite <- Hs.
      * split; [|intros H; exact H].
        cbn [rev] in *. destruct (rev t ++ [d]) as [|z zs] eqn:Hz; [|exact Hend].
        now destruct (rev t).
Qed.

(** The result of [strip] neither begins nor ends with a white space
    character, and what was cut off on either side is white space. *)
Lemma strip_spec s :
  startswith_space (Py.strip s) = false
  /\ endswith_space (Py.strip s) = false
  /\ exists l r,
       all_space l = true /\ all_space r = true /\ s = l +:+ Py.strip s +:+ r.
Proof.
  unfold Py.strip, startswith_space, endswith_space, all_space.
  destruct (lstrip_spec (Py.chars s)) as [l [Hl [Hs Hstart]]].
  destruct (rstrip_spec (Py.lstrip_chars (Py.chars s))) as [r [Hr [Hs' [Hend Hkeep]]]].
  set (m := Py.rstrip_chars (Py.lstrip_chars (Py.chars s))) in *.
  pose proof (chars_aligned s) as Hal. rewrite Hs, Hs' in Hal.
  apply aligned_app in Hal as [Hal Hmr]. apply aligned_app in Hmr as [Ham Har].
  rewrite (chars_cat m Ham).
  split; [now apply Hkeep|]. split; [exact Hend|].
  exists (Py.cat l), (Py.cat r). rewrite (chars_cat l Hal), (chars_cat r Har).
  split; [exact Hl|]. split; [exact Hr|].
  rewrite <- !cat_app, <- Hs', <- Hs. symmetry. apply cat_chars.
Qed.

(** After a 409 the program asks once for a cookie and repeats the
    same request with it: the cookie sent is the typed line without
    the white space characters around it (those of Unicode, as
    [str.strip] knows them), and nothing else of the line is
    changed. *)
Theorem request_sends_new_cookie (self : IceReport.t) (method url : string)
  (data : list (string * string)) w r final rest line more :
  server w = Replied r :: Replied final :: rest ->
  status_code r = 409 ->
  status_code final < 400 \/ 600 <= status_code final ->
  stdin w = line :: more ->
  exists w',
    IceReport.request self method url data w = (Return final, w')
    /\ sent (trace w')
       = sent (trace w)
         ++ [Send method url data (cookie w);
             Send method url data (Some (Py.strip line))]
    /\ cookie w' = Some (Py.strip line)
    /\ stdin w' = more /\ server w' = rest
    /\ startswith_space (Py.strip line) = false
    /\ endswith_space (Py.strip line) = false
    /\ exists l r,
         all_space l = true /\ all_space r = true
         /\ line = l +:+ Py.strip line +:+ r.
Proof.
  intros Hs Hr Hfinal Hin.
  rewrite (request_conflict self method url data w r _ line more Hs Hr Hin).
  match goal with |- context [IceReport.request _ _ _ _ ?W] => set (w1 := W) end.
  rewrite (request_success self method url data w1 final rest eq_refl Hfinal).
  eexists. split; [reflexivity|]. cbn.
  split.
  - rewrite !sent_app. cbn. now rewrite !app_nil_r, <- app_assoc.
  - split; [reflexivity|]. split; [reflexivity|]. split; [reflexivity|].
    apply strip_spec.
Qed.

Lemma request_sends_new_cookie_witness :
  let conflict := {| status_code := 409; retry_after := None; body := JInvalid |} in
  let final := {| status_code := 200; retry_after := None; body := JCriterion [] |} in
  let line := nbsp +:+ " sid=1; t=a b " +:+ nbsp in
  let w := World ∅ (Some "old"%string) None [Replied conflict; Replied final]
             [line] (fun _ => NoFault) [] in
  exists w',
    IceReport.request report7 "GET" "https://www.ice.com/x" [] w = (Return final, w')
    /\ sent (trace w')
       = sent (trace w)
         ++ [Send "GET" "https://www.ice.com/x" [] (cookie w);
             Send "GET" "https://www.ice.com/x" [] (Some (Py.strip line))]
    /\ cookie w' = Some (Py.strip line)
    /\ stdin w' = [] /\ server w' = []
    /\ startswith_space (Py.strip line) = false
    /\ endswith_space (Py.strip line) = false
    /\ exists l r,
         all_space l = true /\ all_space r = true
         /\ line = l +:+ Py.strip line +:+ r.
Proof.
  intros conflict final line w.
  apply (request_sends_new_cookie report7 "GET" "https://www.ice.com/x" [] w
           conflict final [] line []);
    [reflexivity|reflexivity|left; cbn; lia|reflexivity].
Defined.

(** [_update_cookies_input] replaces the session's cookie by the typed
    line without the white space characters around it, those of
    Unicode as [str.strip] knows them (a line of white space gives the
    empty cookie), and touches nothing else; at the end of the input
    it raises [EOFError] and leaves the cookie alone. *)
Theorem update_cookies_input_spec (url : string) :
  (forall w line more,
     stdin w = line :: more ->
     exists w' c,
       update_cookies_input url w = (Return tt, w')
       /\ cookie w' = Some c /\ stdin w' = more
       /\ fs w' = fs w /\ server w' = server w /\ cache w' = cache w
       /\ sent (trace w') = sent (trace w)
       /\ startswith_space c = false /\ endswith_space c = false
       /\ (exists l r,
             all_space l = true /\ all_space r = true /\ line = l +:+ c +:+ r)
       /\ (all_space line = true -> c = EmptyString))
  /\ (forall w,
        stdin w = [] ->
        exists w',
          update_cookies_input url w = (Raise EOFError, w')
          /\ cookie w' = cookie w /\ fs w' = fs w).
Proof.
  split.
  - intros w line more Hin. eexists. exists (Py.strip line).
    unfold update_cookies_input, bind, Os.input.
    rewrite Hin. cbn. split; [reflexivity|]. cbn. repeat (split; [reflexivity|]).
    split; [now rewrite sent_app, app_nil_r|].
    destruct (strip_spec line) as [H1 [H2 H3]].
    split; [exact H1|]. split; [exact H2|]. split; [exact H3|].
    intros Hall. unfold Py.strip, all_space in *.
    assert (Hl : forall cs, forallb Py.isspace cs = true -> Py.lstrip_chars cs = []).
    { induction cs as [|c cs IH]; [reflexivity|]. cbn. intros H.
      apply andb_true_iff in H as [-> H]. now apply IH. }
    now rewrite Hl.
  - intros w Hin. eexists. unfold update_cookies_input, bind, Os.input.
    rewrite Hin. split; [reflexivity|]. split; reflexivity.
Qed.

(** ** [get_criteria] and a [dump] that selects nothing *)

Lemma criteria_fold (l : list Criteria) :
  fold_right
    (fun (criteria : Criteria) (acc : list string * list string) =>
       if String.eqb (name criteria) IceReport.MARKET_KEY
       then (List.map value (values criteria), acc.2)
       else if String.eqb (name criteria) IceReport.TIME_PERIOD_KEY
       then (acc.1, List.map value (values criteria))
       else acc)
    ([], []) l
  = (match List.find (fun c => String.eqb (name c) IceReport.MARKET_KEY) l with
     | Some c => List.map value (values c)
     | None => []
     end,
     match List.find (fun c => String.eqb (name c) IceReport.TIME_PERIOD_KEY) l with
     | Some c => List.map value (values c)
     | None => []
     end).
Proof.
  induction l as [|c l IH]; [reflexivity|]. cbn [fold_right List.find]. rewrite IH.
  destruct (String.eqb_spec (name c) IceReport.MARKET_KEY) as [Hm|Hm].
  - rewrite Hm. reflexivity.
  - now destruct (String.eqb (name c) IceReport.TIME_PERIOD_KEY).
Qed.

Lemma get_criteria_ok self w r rest cs :
  server w = Replied r :: rest ->
  status_code r < 400 \/ 600 <= status_code r ->
  body r = JCriterion cs ->
  IceReport.get_criteria self w
  = (Return (criteria_values IceReport.MARKET_KEY cs,
             criteria_values IceReport.TIME_PERIOD_KEY cs),
     set_server rest (emit (criteria_request self (cookie w)) w)).
Proof.
  intros Hs Hr Hb. unfold IceReport.get_criteria, bind.
  rewrite (request_success self _ _ _ w r rest Hs Hr), Hb. unfold ret.
  rewrite <- fold_left_rev_right. unfold criteria_values.
  rewrite <- (criteria_fold (rev cs)). reflexivity.
Qed.

Lemma find_none_all {A} (p : A -> bool) l :
  (forall x, In x l -> p x = false) -> List.find p l = None.
Proof.
  induction l as [|x l IH]; [reflexivity|]. intros H. cbn.
  rewrite (H x) by now left. apply IH. intros y Hy. apply H. now right.
Qed.

(** [get_criteria] sends one GET and returns, for the markets and for
    the time periods, the values of the last criterion of that name in
    the reply; a name that is missing gives the empty list, not an
    error, and criteria of other names are ignored. *)
Theorem get_criteria_values (self : IceReport.t) :
  (forall w r rest cs,
     server w = Replied r :: rest ->
     status_code r < 400 \/ 600 <= status_code r ->
     body r = JCriterion cs ->
     IceReport.get_criteria self w
     = (Return (criteria_values IceReport.MARKET_KEY cs,
                criteria_values IceReport.TIME_PERIOD_KEY cs),
        set_server rest (emit (criteria_request self (cookie w)) w)))
  /\ (forall key cs,
        (forall c, In c cs -> name c <> key) -> criteria_values key cs = [])
  /\ (forall key before c after,
        name c = key -> (forall c', In c' after -> name c' <> key) ->
        criteria_values key (before ++ c :: after) = List.map value (values c)).
Proof.
  split; [|split].
  - intros w r rest cs. apply get_criteria_ok.
  - intros key cs Hcs. unfold criteria_values. rewrite find_none_all; [reflexivity|].
    intros c Hc. apply String.eqb_neq, Hcs. now apply in_rev.
  - intros key before c after Hc Hafter. unfold criteria_values.
    rewrite rev_app_distr. cbn [rev]. rewrite <- app_assoc. cbn [app].
    assert (Hfind : forall l1 l2,
              List.find (fun c => String.eqb (name c) key) l1 = None ->
              List.find (fun c => String.eqb (name c) key) (l1 ++ l2)
              = List.find (fun c => String.eqb (name c) key) l2).
    { induction l1 as [|x l1 IH]; [reflexivity|]. intros l2. cbn.
      destruct (String.eqb (name x) key); [discriminate|]. apply IH. }
    rewrite Hfind.
    + cbn. rewrite Hc, String.eqb_refl. reflexivity.
    + apply find_none_all. intros c' Hc'. apply String.eqb_neq, Hafter.
      now apply in_rev.
Qed.

Lemma dump_period_empty self markets time_period w :
  IndexFilter.filter (IceReport.market_filter self) markets = [] ->
  IceReport.dump_period self markets time_period w = (Return tt, w).
Proof.
  intros Hm. unfold IceReport.dump_period. rewrite Hm. reflexivity.
Qed.

(** When the filters select no time period, or no market, [dump]
    stops after the criteria request: it returns without a POST and
    without creating, writing or removing anything. *)
Theorem dump_nothing_selected (self : IceReport.t) w r rest cs :
  server w = Replied r :: rest ->
  status_code r < 400 \/ 600 <= status_code r ->
  body r = JCriterion cs ->
  IndexFilter.filter (IceReport.time_period_filter self)
    (criteria_values IceReport.TIME_PERIOD_KEY cs) = []
  \/ IndexFilter.filter (IceReport.market_filter self)
       (criteria_values IceReport.MARKET_KEY cs) = [] ->
  IceReport.dump self w
  = (Return tt, set_server rest (emit (criteria_request self (cookie w)) w)).
Proof.
  intros Hs Hr Hb Hnone. unfold IceReport.dump, bind.
  rewrite (get_criteria_ok self w r rest cs Hs Hr Hb). cbn [fst snd].
  destruct Hnone as [Hp|Hm].
  - rewrite Hp. reflexivity.
  - generalize (set_server rest (emit (criteria_request self (cookie w)) w)).
    induction (IndexFilter.filter (IceReport.time_period_filter self)
                 (criteria_values IceReport.TIME_PERIOD_KEY cs)) as [|p ps IH];
      intros w1; [reflexivity|].
    cbn [for_each]. unfold bind. rewrite (dump_period_empty self _ p w1 Hm). apply IH.
Qed.

Lemma dump_nothing_selected_witness :
  let r := {| status_code := 200; retry_after := None;
              body := JCriterion
                        [ {| name := "selectedTimePeriod"; displayName := "Period";
                             values := [ {| value := "T0"; label := "t" |} ] |} ] |} in
  let w := World resumed_fs None None [Replied r] [] (fun _ => NoFault) [] in
  IceReport.dump report7 w
  = (Return tt, set_server [] (emit (criteria_request report7 (cookie w)) w)).
Proof.
  intros r w.
  eapply (dump_nothing_selected report7 w r []);
    [reflexivity|left; cbn; lia|reflexivity|right; reflexivity].
Defined.

(** A failing criteria request ends [dump] before it touches the
    disk: the HTTP error, or the error of a body that is not a JSON
    list of criteria, propagates after the one GET. *)
Theorem dump_criteria_failure (self : IceReport.t) :
  (forall w r rest,
     server w = Replied r :: rest ->
     400 <= status_code r < 600 -> status_code r <> 409 -> status_code r <> 429 ->
     exists w',
       IceReport.dump self w = (Raise (HTTPError (status_code r)), w')
       /\ fs w' = fs w
       /\ sent (trace w') = sent (trace w) ++ [criteria_request self (cookie w)])
  /\ (forall w r rest,
        server w = Replied r :: rest ->
        status_code r < 400 \/ 600 <= status_code r ->
        exists w',
          fs w' = fs w
          /\ sent (trace w') = sent (trace w) ++ [criteria_request self (cookie w)]
          /\ (body r = JInvalid ->
              IceReport.dump self w = (Raise JSONDecodeError, w'))
          /\ (forall subheader rows, body r = JResults subheader rows ->
              IceReport.dump self w = (Raise TypeError, w'))).
Proof.
  split.
  - intros w r rest Hs Hr H409 H429. eexists.
    unfold IceReport.dump, IceReport.get_criteria, bind.
    rewrite (request_fatal self _ _ _ w r rest Hs Hr H409 H429).
    split; [reflexivity|]. split; [reflexivity|]. cbn.
    rewrite !sent_app. cbn. now rewrite app_nil_r.
  - intros w r rest Hs Hr.
    exists (set_server rest (emit (criteria_request self (cookie w)) w)).
    split; [reflexivity|]. split; [cbn; now rewrite sent_app|].
    split.
    + intros Hb. unfold IceReport.dump, IceReport.get_criteria, bind.
      now rewrite (request_success self _ _ _ w r rest Hs Hr), Hb.
    + intros subheader rows Hb. unfold IceReport.dump, IceReport.get_criteria, bind.
      now rewrite (request_success self _ _ _ w r rest Hs Hr), Hb.
Qed.

(** ** The addresses of a report *)

Lemma drop_last_slash s : drop_last (s +:+ "/") = s.
Proof.
  induction s as [|x s IH]; [reflexivity|].
  change (String x s +:+ "/") with (String x (s +:+ "/")).
  cbn [drop_last]. rewrite IH. now destruct s.
Qed.

Lemma join_url_segments base paths :
  Path.endswith_sep base = false ->
  Forall (fun p => Py.truthy p = true) paths ->
  join_url base paths = fold_left (fun b p => b +:+ "/" +:+ p) paths base.
Proof.
  intros Hbase Hpaths. unfold join_url. rewrite Hbase. clear Hbase. revert base.
  induction Hpaths as [|p paths Hp _ IH]; intros base; cbn [fold_left].
  - apply drop_last_slash.
  - rewrite Hp. rewrite (string_app_assoc base "/" p). apply IH.
Qed.

Lemma pretty_Z_segment (z : Z) :
  Py.truthy (pretty z) = true /\ Path.endswith_sep (pretty z) = false.
Proof.
  destruct (pretty_Z_plain z) as [Hplain Hne]. split.
  - now apply truthy_nonempty.
  - apply endswith_sep_contains. now apply plain_facts.
Qed.

(** The three addresses of a report, for every report id (a negative
    one included): the page where the cookie is obtained and the two
    API endpoints.  The instance also keeps the id and the base
    directory as given. *)
Theorem init_urls report_id market_filter time_period_filter column_filter base_dir self :
  IceReport.init report_id market_filter time_period_filter column_filter
                 base_dir BASE_URL = Ok self ->
  IceReport.cookie_url self = "https://www.ice.com/report/" +:+ pretty report_id
  /\ IceReport.criteria_url self
     = "https://www.ice.com/marketdata/api/reports/" +:+ pretty report_id
       +:+ "/criteria"
  /\ IceReport.results_url self
     = "https://www.ice.com/marketdata/api/reports/" +:+ pretty report_id
       +:+ "/results"
  /\ IceReport.report_id self = report_id
  /\ IceReport.base_dir self = base_dir
  /\ IndexFilter.init market_filter = Ok (IceReport.market_filter self)
  /\ IndexFilter.init time_period_filter = Ok (IceReport.time_period_filter self)
  /\ IndexFilter.init column_filter = Ok (IceReport.column_filter self).
Proof.
  unfold IceReport.init.
  destruct (IndexFilter.init market_filter) as [mf|]; [|discriminate].
  destruct (IndexFilter.init time_period_filter) as [tf|]; [|discriminate].
  destruct (IndexFilter.init column_filter) as [cf|]; [|discriminate].
  cbn [rbind]. intros [= <-]. cbn [IceReport.cookie_url IceReport.criteria_url
    IceReport.results_url IceReport.report_id IceReport.base_dir
    IceReport.market_filter IceReport.time_period_filter IceReport.column_filter].
  destruct (pretty_Z_segment report_id) as [Htruthy Hend].
  assert (Hapi : join_url BASE_URL ["marketdata"; "api"; "reports"; pretty report_id]
                 = "https://www.ice.com/marketdata/api/reports/" +:+ pretty report_id).
  { rewrite join_url_segments; [reflexivity|reflexivity|].
    repeat constructor. exact Htruthy. }
  assert (Hapi_end : Path.endswith_sep
                       ("https://www.ice.com/marketdata/api/reports/"
                        +:+ pretty report_id) = false).
  { rewrite endswith_sep_app; [exact Hend|]. now destruct (pretty report_id). }
  repeat split.
  - rewrite join_url_segments; [reflexivity|reflexivity|].
    repeat constructor. exact Htruthy.
  - rewrite Hapi, join_url_segments; [|exact Hapi_end|repeat constructor].
    cbn [fold_left]. now rewrite string_app_assoc.
  - rewrite Hapi, join_url_segments; [|exact Hapi_end|repeat constructor].
    cbn [fold_left]. now rewrite string_app_assoc.
Qed.

Lemma init_urls_witness :
  IceReport.cookie_url report7 = "https://www.ice.com/report/" +:+ pretty 7
  /\ IceReport.criteria_url report7
     = "https://www.ice.com/marketdata/api/reports/" +:+ pretty 7 +:+ "/criteria"
  /\ IceReport.results_url report7
     = "https://www.ice.com/marketdata/api/reports/" +:+ pretty 7 +:+ "/results"
  /\ IceReport.report_id report7 = 7
  /\ IceReport.base_dir report7 = "pyce"%string
  /\ IndexFilter.init "-" = Ok (IceReport.market_filter report7)
  /\ IndexFilter.init "0" = Ok (IceReport.time_period_filter report7)
  /\ IndexFilter.init "-" = Ok (IceReport.column_filter report7).
Proof. apply (init_urls 7 "-" "0" "-" "pyce" report7). reflexivity. Defined.

(** ** The names of the fragments *)

Lemma string_of_bytes_inj e1 e2 :
  string_of_list_byte e1 = string_of_list_byte e2 -> e1 = e2.
Proof.
  intros H. apply (f_equal list_byte_of_string) in H.
  now rewrite !list_byte_of_string_of_list_byte in H.
Qed.

Lemma bytes_of_string_inj s1 s2 :
  list_byte_of_string s1 = list_byte_of_string s2 -> s1 = s2.
Proof.
  intros H. apply (f_equal string_of_list_byte) in H.
  now rewrite !string_of_list_byte_of_string in H.
Qed.

Lemma stripped_inj s1 s2 :
  Base64.rstrip_pad (Base64.urlsafe_b64encode s1)
  = Base64.rstrip_pad (Base64.urlsafe_b64encode s2) ->
  s1 = s2.
Proof.
  intros H.
  assert (Hpad : forall n, pad_enough n 2) by (intros n; split; lia).
  pose proof (decode_stripped s1 2 (Hpad _)) as H1.
  pose proof (decode_stripped s2 2 (Hpad _)) as H2.
  rewrite H in H1. congruence.
Qed.

Lemma encode_data_inj m1 m2 f :
  encode_data m1 = Ok f -> encode_data m2 = Ok f -> m1 = m2.
Proof.
  rewrite !encode_data_ok. intros [= <-] [= H].
  apply bytes_of_string_inj, stripped_inj. symmetry. now apply string_of_bytes_inj.
Qed.

Lemma length_string_of_bytes e : String.length (string_of_list_byte e) = length e.
Proof.
  induction e as [|c e IH]; [reflexivity|].
  rewrite string_of_bytes_cons. cbn [String.length]. now rewrite IH.
Qed.

(** Different markets get different fragment files: [encode_data] is
    injective.  The name has 4 characters for every 3 bytes of the
    market's UTF-8 form, rounded up. *)
Theorem encode_data_names :
  (forall m1 m2 f, encode_data m1 = Ok f -> encode_data m2 = Ok f -> m1 = m2)
  /\ (forall m f,
        encode_data m = Ok f ->
        String.length f = ((4 * length (Utf8.encode m) + 2) / 3)%nat).
Proof.
  split; [exact encode_data_inj|].
  intros m f. rewrite encode_data_ok. intros [= <-].
  rewrite length_string_of_bytes.
  destruct (stripped_length (Utf8.encode m)) as [k [r [Hlen [Hr ->]]]].
  rewrite Hlen. destruct r as [|[|[|r]]]; [| | |lia]; cbn [Nat.eqb].
  - apply (Nat.div_unique _ 3 _ 2); lia.
  - apply (Nat.div_unique _ 3 _ 0); lia.
  - apply (Nat.div_unique _ 3 _ 1); lia.
Qed.

Lemma a2b_urlsafe c :
  is_urlsafe c = true ->
  Byte.eqb (Base64.urlsafe_decode_translation c) Base64.PAD = false
  /\ exists v, Base64.a2b (Base64.urlsafe_decode_translation c) = Some v.
Proof.
  assert (Hall : forallb
            (fun c => implb (is_urlsafe c)
               (negb (Byte.eqb (Base64.urlsafe_decode_translation c) Base64.PAD)
                && match Base64.a2b (Base64.urlsafe_decode_translation c) with
                   | Some _ => true
                   | None => false
                   end)) all_bytes = true) by (vm_compute; reflexivity).
  rewrite forallb_forall in Hall. specialize (Hall c (in_all_bytes c)).
  intros Hc. rewrite Hc in Hall. cbn [implb] in Hall.
  apply andb_true_iff in Hall as [Hpad Hval]. split.
  - now apply negb_true_iff.
  - destruct (Base64.a2b (Base64.urlsafe_decode_translation c)) as [v|];
      [now exists v|discriminate].
Qed.

Lemma a2b_loop_pads_only l pads p :
  Base64.a2b_loop 1 l pads (repeat Base64.PAD p) = Err BinasciiError.
Proof. induction p as [|p IH]; [reflexivity|exact IH]. Qed.

Lemma a2b_loop_dangling e : forall q l pads p k,
  Forall (fun c => is_urlsafe c = true) e ->
  (q < 4)%nat -> (q + length e = 4 * k + 1)%nat ->
  Base64.a2b_loop q l pads
    (List.map Base64.urlsafe_decode_translation e ++ repeat Base64.PAD p)
  = Err BinasciiError.
Proof.
  induction e as [|c e IH]; intros q l pads p k He Hq Hlen.
  - cbn [length] in Hlen. replace q with 1%nat by lia. apply a2b_loop_pads_only.
  - inversion He as [|? ? Hc He']; subst.
    destruct (a2b_urlsafe c Hc) as [Hpad [v Hv]].
    cbn [List.map app Base64.a2b_loop length] in *. rewrite Hpad, Hv.
    destruct q as [|[|[|q]]].
    + apply (IH 1%nat v 0%nat p k He'); lia.
    + rewrite (IH 2%nat _ 0%nat p k He'); [reflexivity|lia|lia].
    + rewrite (IH 3%nat _ 0%nat p k He'); [reflexivity|lia|lia].
    + rewrite (IH 0%nat _ 0%nat p (k - 1)%nat He'); [reflexivity|lia|lia].
Qed.

(** [decode_data] refuses a name of the alphabet whose length is one
    more than a multiple of 4: no padding can complete its last quad,
    and [binascii.Error] is raised.  No name that [encode_data] gives
    has such a length. *)
Theorem decode_data_dangling (e : list byte) :
  Forall (fun c => is_urlsafe c = true) e ->
  (length e mod 4 = 1)%nat ->
  decode_data (string_of_list_byte e) = Err BinasciiError
  /\ forall m, encode_data m <> Ok (string_of_list_byte e).
Proof.
  intros He Hlen. split.
  - unfold decode_data, Utf8.encode, Base64.urlsafe_b64decode, Base64.b64decode.
    rewrite list_byte_of_string_of_list_byte, List.map_app, map_decode_pads.
    rewrite (a2b_loop_dangling e 0 0 0 _ (length e / 4)); [reflexivity|exact He|lia|].
    pose proof (Nat.div_mod_eq (length e) 4). lia.
  - intros m. rewrite encode_data_ok. intros [= H].
    apply string_of_bytes_inj in H.
    destruct (stripped_length (Utf8.encode m)) as [k [r [_ [Hr Hl]]]].
    rewrite H in Hl. rewrite Hl in Hlen.
    destruct r as [|[|[|r]]]; [| | |lia]; cbn [Nat.eqb] in Hlen.
    + rewrite Nat.add_0_r, Nat.mul_comm, Nat.Div0.mod_mul in Hlen. discriminate.
    + rewrite Nat.add_comm, Nat.mul_comm, Nat.Div0.mod_add in Hlen. discriminate.
    + rewrite Nat.add_comm, Nat.mul_comm, Nat.Div0.mod_add in Hlen. discriminate.
Qed.

Lemma decode_data_dangling_witness :
  decode_data (string_of_list_byte (list_byte_of_string "aGVsb"))
  = Err BinasciiError
  /\ forall m, encode_data m
               <> Ok (string_of_list_byte (list_byte_of_string "aGVsb")).
Proof.
  apply decode_data_dangling.
  - repeat constructor.
  - reflexivity.
Defined.

(** ** [dump]: a period on a fresh directory *)




Lemma dot_not_urlsafe c :
  is_urlsafe c = true -> Ascii.eqb (ascii_of_byte c) "." = false.
Proof.
  assert (Hall : forallb
            (fun c => implb (is_urlsafe c) (negb (Ascii.eqb (ascii_of_byte c) ".")))
            all_bytes = true) by (vm_compute; reflexivity).
  rewrite forallb_forall in Hall. specialize (Hall c (in_all_bytes c)).
  intros Hc. rewrite Hc in Hall. now apply negb_true_iff.
Qed.

Lemma file_name_facts market :
  Py.contains Path.sep (file_name market) = false
  /\ (market <> EmptyString ->
      exists x rest, file_name market = String x rest /\ Ascii.eqb x "." = false).
Proof.
  unfold file_name. rewrite encode_data_ok.
  pose proof (stripped_urlsafe (Utf8.encode market)) as Hsafe.
  split; [now apply urlsafe_no_pad|]. intros Hne.
  destruct (stripped_length (Utf8.encode market)) as [k [r [Hlen [Hr Hl]]]].
  destruct (Base64.rstrip_pad (Base64.urlsafe_b64encode (Utf8.encode market)))
    as [|c e].
  - exfalso. cbn [length] in Hl.
    assert (length (Utf8.encode market) = 0%nat) as H0
      by (destruct r; cbn [Nat.eqb] in Hl; lia).
    apply Hne. apply bytes_of_string_inj. unfold Utf8.encode in H0.
    now destruct (list_byte_of_string market).
  - inversion Hsafe as [|? ? Hc _]; subst. rewrite string_of_bytes_cons.
    eexists. eexists. split; [reflexivity|]. now apply dot_not_urlsafe.
Qed.

Lemma fragment_shape self date market :
  fragment self date market
  = fragment_dir self date +:+ "/" +:+ file_name market +:+ ".csv".
Proof.
  destruct (fragment_dir_shape self date) as [Hne [Hend _]].
  destruct (file_name_facts market) as [Hsep _].
  unfold fragment, fragment_path, Path.join. cbn [fold_left]. unfold Path.join2.
  assert (Path.startswith_sep (file_name market +:+ ".csv") = false) as ->.
  { destruct (file_name market) as [|x f]; [reflexivity|].
    change (String x f +:+ ".csv") with (String x (f +:+ ".csv")).
    cbn [Py.contains Path.startswith_sep] in Hsep |- *.
    now destruct (Ascii.eqb x Path.sep). }
  rewrite Hend, (truthy_nonempty _ Hne). reflexivity.
Qed.




Lemma endswith_suffix suffix s : Path.endswith suffix (s +:+ suffix) = true.
Proof.
  induction s as [|x s IH].
  - change ("" +:+ suffix) with suffix.
    destruct suffix as [|c t]; [reflexivity|].
    cbn [Path.endswith]. now rewrite String.eqb_refl.
  - change (String x s +:+ suffix) with (String x (s +:+ suffix)).
    cbn [Path.endswith]. rewrite IH. apply orb_true_r.
Qed.

Lemma fragment_listed market :
  market <> EmptyString -> Path.matches_csv (file_name market +:+ ".csv") = true.
Proof.
  intros Hne. destruct (file_name_facts market) as [Hsep Hfirst].
  destruct (Hfirst Hne) as [x [rest [Hf Hx]]].
  unfold Path.matches_csv. rewrite endswith_suffix, contains_app, Hsep. cbn [andb orb negb].
  rewrite Hf. change (String x rest +:+ ".csv") with (String x (rest +:+ ".csv")).
  cbn. destruct x as [b0 b1 b2 b3 b4 b5 b6 b7].
  destruct b0, b1, b2, b3, b4, b5, b6, b7; try reflexivity; discriminate.
Qed.

Lemma get_results_fresh self market time_period date rows rest w :
  server w = results_reply date rows :: rest ->
  IceReport.cache_lookup (cache w) market time_period = None ->
  IceReport.get_results self market time_period w
  = (Return (date, rows),
     set_cache (Some (market, time_period, (date, rows)))
       (set_server rest
          (emit (results_request self market time_period (cookie w)) w))).
Proof.
  intros Hs Hc. rewrite (get_results_miss _ _ _ _ Hc).
  unfold IceReport.fetch_results, bind.
  rewrite (request_success self _ _ _ w _ rest Hs) by (left; cbn; lia).
  reflexivity.
Qed.





















Lemma merge_one_frame base_path date path w :
  server (merge_one base_path date path w).2 = server w
  /\ cookie (merge_one base_path date path w).2 = cookie w.
Proof.
  unfold merge_one, bind, Os.isfile, get, Os.read_rows, Os.append_rows, print,
    modify, ret, raise.
  cbv beta iota.
  destruct (fs w !! path) as [[c|]|] eqn:E; cbv beta iota; rewrite ?E;
    cbv beta iota; auto.
  destruct (fs w !! base_path) as [[c'|]|]; cbv beta iota;
    destruct ((Csv.read c).2); cbn; auto.
Qed.

Lemma merge_frame base_path date l : forall w,
  server (for_each l (merge_one base_path date) w).2 = server w
  /\ cookie (for_each l (merge_one base_path date) w).2 = cookie w.
Proof.
  induction l as [|p l IH]; intros w; [now split|].
  cbn [for_each]. unfold bind.
  destruct (merge_one_frame base_path date p w) as [Hs Hc].
  destruct (merge_one base_path date p w) as [[[]| |] w1]; cbn [snd] in *;
    [|now split|now split].
  destruct (IH w1) as [Hs' Hc']. split; congruence.
Qed.

Lemma dump_merge_frame self date temp_dir w :
  server (IceReport.dump_merge self date temp_dir w).2 = server w
  /\ cookie (IceReport.dump_merge self date temp_dir w).2 = cookie w.
Proof.
  remember (IceReport.dump_merge self date temp_dir w) as r eqn:Hr. revert Hr.
  unfold IceReport.dump_merge, bind at 1, Os.isdir, get.
  destruct (Py.truthy temp_dir && _); [|intros ->; now split].
  unfold bind at 1, Os.open_w.
  set (base_path := Path.join (Path.dirname temp_dir)
                      [pretty (IceReport.report_id self) +:+ ".csv"]).
  assert (Hopen : exists o w1,
            match fs w !! base_path with
            | Some Dir => (Raise IsADirectoryError, w)
            | _ => (Return tt, set_fs (insert base_path (File [])) w)
            end = (o, w1) /\ server w1 = server w /\ cookie w1 = cookie w).
  { destruct (fs w !! base_path) as [[c|]|]; eexists; eexists; split;
      try reflexivity; now split. }
  destruct Hopen as [o [w1 [-> [Hs1 Hc1]]]].
  destruct o as [[]| |]; [|intros ->; now split|intros ->; now split].
  unfold bind at 1, Os.glob_csv.
  destruct (Path.has_magic temp_dir || Path.endswith_sep temp_dir
            || negb (Py.truthy temp_dir)); [intros ->; now split|].
  change (for_each ?l _) with (for_each l (merge_one base_path date)).
  unfold bind at 1.
  destruct (merge_frame base_path date (scandir w1 (Os.listing temp_dir (fs w1))) w1)
    as [Hs2 Hc2].
  destruct (for_each _ (merge_one base_path date) w1) as [[[]| |] w2];
    cbn [snd] in *; [|intros ->; split; cbn; congruence|intros ->; split; cbn; congruence].
  unfold bind, print, modify, Os.rmtree. cbn [fs emit].
  destruct (fs w2 !! temp_dir) as [[c|]|]; intros ->; cbn; split; congruence.
Qed.


Lemma sent_prints {A} (f : A -> message) l :
  sent (List.map (fun x => Print (f x)) l) = [].
Proof. induction l as [|x l IH]; [reflexivity|exact IH]. Qed.

Lemma fold_const {A B} (x : B) (l : list A) : forall y,
  l <> [] -> fold_left (fun _ _ => x) l y = x.
Proof.
  induction l as [|a l IH]; intros y Hl; [contradiction|].
  cbn [fold_left]. destruct l as [|b l]; [reflexivity|]. now apply IH.
Qed.






(** ** [dump]: a market of a period whose label is known *)

(** Once the period has its label, a market without a fragment is
    fetched and its page compared with the label.  A page that
    carries another label is only reported: nothing is written and
    the loop goes on, so the market is missing from this run's
    consolidated file.  A page with the label is written as the
    market's fragment, each row through the column filter. *)
Theorem dump_market_label (self : IceReport.t) (time_period market : string)
  date temp_dir subheader rows w w1 :
  let path := fragment_path temp_dir (file_name market) in
  date <> EmptyString ->
  (forall c, fs w !! path <> Some (File c)) ->
  IceReport.get_results self market time_period w = (Return (subheader, rows), w1) ->
  (subheader <> date ->
   IceReport.dump_market self time_period (date, temp_dir) market w
   = (Return (date, temp_dir),
      emit (Print (MMismatch market time_period subheader)) w1)
   /\ fs w1 = fs w)
  /\ (subheader = date -> fs w !! path = None -> faults w path = NoFault ->
      IceReport.dump_market self time_period (date, temp_dir) market w
      = (Return (date, temp_dir),
         emit (Print (MWritten market time_period path))
           (set_fs (insert path (File (columns self rows))) w1))).
Proof.
  intros path Hdate Hnofile Hget.
  pose proof (get_results_frame self market time_period w) as [F D].
  rewrite Hget in F, D. cbn [snd] in F, D.
  assert (Hstep : IceReport.dump_market self time_period (date, temp_dir) market w
                  = ((if String.eqb date subheader
                      then IceReport.write_fragment self market time_period path rows
                      else print (MMismatch market time_period subheader));;
                     ret (date, temp_dir)) w1).
  { unfold IceReport.dump_market. cbn [fst snd].
    rewrite (truthy_nonempty _ Hdate). cbn [negb].
    unfold bind at 1, ret. unfold bind at 1, lift. rewrite encode_file_name.
    unfold ret. cbn [fst snd].
    change (Path.join temp_dir [file_name market +:+ ".csv"]) with path.
    unfold bind at 1, Os.isfile, get.
    assert (match fs w !! path with Some (File _) => true | _ => false end = false)
      as ->.
    { destruct (fs w !! path) as [[c|]|] eqn:E; try reflexivity.
      exfalso. exact (Hnofile c eq_refl). }
    unfold bind at 1. unfold bind at 1. rewrite Hget. reflexivity. }
  split.
  - intros Hne. split; [|exact F]. rewrite Hstep.
    destruct (String.eqb_spec date subheader) as [E|_]; [congruence|]. reflexivity.
  - intros -> Hfile Hfault. rewrite Hstep, String.eqb_refl.
    unfold bind, IceReport.write_fragment, bind, try_except, Os.write_rows.
    rewrite F, D, Hfile, Hfault. reflexivity.
Qed.

Lemma dump_market_label_witness :
  let w := World (<["pyce/Jan/~7" := Dir]> ∅) None None
             [results_reply "Feb" [["b1"%string]]] [] (fun _ => NoFault) [] in
  let w1 := set_cache (Some ("B", "T0", ("Feb", [["b1"]])))%string
              (set_server [] (emit (results_request report7 "B" "T0" None) w)) in
  let path := fragment_path "pyce/Jan/~7" (file_name "B") in
  ("Feb"%string <> "Jan"%string ->
   IceReport.dump_market report7 "T0" ("Jan", "pyce/Jan/~7")%string "B" w
   = (Return ("Jan", "pyce/Jan/~7")%string,
      emit (Print (MMismatch "B" "T0" "Feb")) w1)
   /\ fs w1 = fs w)
  /\ ("Feb"%string = "Jan"%string -> fs w !! path = None -> faults w path = NoFault ->
      IceReport.dump_market report7 "T0" ("Jan", "pyce/Jan/~7")%string "B" w
      = (Return ("Jan", "pyce/Jan/~7")%string,
         emit (Print (MWritten "B" "T0" path))
           (set_fs (insert path (File (columns report7 [["b1"%string]]))) w1))).
Proof.
  intros w w1 path.
  apply (dump_market_label report7 "T0" "B" "Jan" "pyce/Jan/~7" "Feb"
           [["b1"%string]] w w1).
  - discriminate.
  - intros c. vm_compute. discriminate.
  - reflexivity.
Defined.

(** ** [join_url] *)

Lemma join_url_fold paths : forall base,
  drop_last
    (fold_left (fun b path => if Py.truthy path then (b +:+ path) +:+ "/" else b)
               paths (base +:+ "/"))
  = fold_left (fun b p => b +:+ "/" +:+ p) (List.filter Py.truthy paths) base.
Proof.
  induction paths as [|p paths IH]; intros base; cbn [fold_left List.filter].
  - apply drop_last_slash.
  - destruct (Py.truthy p); [|apply IH].
    cbn [fold_left]. rewrite (string_app_assoc base "/" p). apply IH.
Qed.

Lemma url_word_no_sep s : url_word s = true -> Py.contains Path.sep s = false.
Proof.
  induction s as [|x s IH]; [reflexivity|].
  cbn [url_word Py.contains]. intros H. apply andb_true_iff in H as [Hx Hs].
  rewrite (IH Hs). destruct (Ascii.eqb_spec x Path.sep) as [->|]; [|reflexivity].
  discriminate.
Qed.

(** [join_url] on the site's address and word segments (the segments
    for which the model follows [urljoin]): the non-empty segments are
    appended, each after one slash; empty segments are skipped; a slash
    at the end of the base makes no difference; the result never ends
    in the slash the loop works with. *)
Theorem join_url_words (paths : list string) :
  Forall (fun p => url_word p = true) paths ->
  join_url BASE_URL paths
  = fold_left (fun b p => b +:+ "/" +:+ p) (List.filter Py.truthy paths) BASE_URL
  /\ join_url (BASE_URL +:+ "/") paths = join_url BASE_URL paths
  /\ Path.endswith_sep (join_url BASE_URL paths) = false.
Proof.
  intros Hwords.
  assert (H1 : join_url BASE_URL paths
               = fold_left (fun b p => b +:+ "/" +:+ p)
                           (List.filter Py.truthy paths) BASE_URL)
    by (unfold join_url; cbn [Path.endswith_sep BASE_URL]; apply join_url_fold).
  split; [exact H1|]. split.
  - rewrite H1. unfold join_url.
    assert (Path.endswith_sep (BASE_URL +:+ "/") = true) as -> by reflexivity.
    apply join_url_fold.
  - rewrite H1.
    assert (Hend : forall l base,
              Forall (fun p => url_word p = true) l ->
              Path.endswith_sep base = false ->
              Path.endswith_sep
                (fold_left (fun b p => b +:+ "/" +:+ p) (List.filter Py.truthy l) base)
              = false).
    { induction l as [|p l IH]; intros base Hl Hbase; [exact Hbase|].
      inversion Hl as [|? ? Hp Hl']; subst. cbn [List.filter].
      destruct p as [|x p]; cbn [Py.truthy]; [now apply IH|].
      cbn [fold_left]. apply IH; [exact Hl'|].
      rewrite endswith_sep_app by discriminate.
      change ("/" +:+ String x p) with (String "/" (String x p)).
      rewrite endswith_sep_cons by discriminate.
      apply endswith_sep_contains. now apply url_word_no_sep. }
    now apply Hend.
Qed.

Lemma join_url_words_witness :
  join_url BASE_URL ["report"; ""; "<report_id>"]
  = fold_left (fun b p => b +:+ "/" +:+ p)
              (List.filter Py.truthy ["report"; ""; "<report_id>"]%string) BASE_URL
  /\ join_url (BASE_URL +:+ "/") ["report"; ""; "<report_id>"]
     = join_url BASE_URL ["report"; ""; "<report_id>"]
  /\ Path.endswith_sep (join_url BASE_URL ["report"; ""; "<report_id>"]) = false.
Proof. apply join_url_words. repeat constructor. Defined.

(** ** [dump]: a period whose fragments are all there *)

Lemma dump_market_present self time_period date temp_dir market c w :
  date <> EmptyString ->
  fs w !! fragment_path temp_dir (file_name market) = Some (File c) ->
  IceReport.dump_market self time_period (date, temp_dir) market w
  = (Return (date, temp_dir), emit (Print (MSkip market time_period)) w).
Proof.
  intros Hdate Hfile. unfold IceReport.dump_market. cbn [fst snd].
  rewrite (truthy_nonempty _ Hdate). cbn [negb].
  unfold bind at 1, ret. unfold bind at 1, lift. rewrite encode_file_name.
  unfold ret, bind at 1, Os.isfile, get. cbn [fst snd].
  unfold fragment_path in Hfile. rewrite Hfile. reflexivity.
Qed.

Lemma dump_markets_present self time_period date temp_dir ms : forall w,
  date <> EmptyString ->
  (forall m, In m ms ->
             exists c, fs w !! fragment_path temp_dir (file_name m) = Some (File c)) ->
  for_fold (IceReport.dump_market self time_period) (date, temp_dir) ms w
  = (Return (date, temp_dir),
     MkWorld (fs w) (cookie w) (cache w) (server w) (stdin w) (faults w)
             (trace w ++ List.map (fun m => Print (MSkip m time_period)) ms)
             (scandir w)).
Proof.
  induction ms as [|m ms IH]; intros w Hdate Hall.
  - cbn. rewrite app_nil_r. now destruct w.
  - cbn [for_fold List.map]. unfold bind.
    destruct (Hall m (or_introl eq_refl)) as [c Hc].
    rewrite (dump_market_present self time_period date temp_dir m c w Hdate Hc).
    rewrite IH; [|exact Hdate|].
    + cbn [emit fs cookie cache server stdin faults trace scandir].
      now rewrite <- app_assoc.
    + intros m' Hm'. cbn [emit fs]. apply Hall. now right.
Qed.

(** A rerun over a fragment directory that already holds the fragment
    of every selected market costs one request.  For a period with a
    non-empty label, a fragment directory whose path has no pattern
    character, no directory at the consolidated path, a system that
    lists every entry once and fragments without overlong fields: the
    first market is fetched for the label of the period, every market
    is skipped, and the consolidated file is made of what the
    directory lists, in the order of the listing and as the reader
    gives the rows back (the fragments of markets that are not
    selected included).  The fragment directory is removed. *)
Theorem dump_period_resumed (self : IceReport.t) (time_period date : string)
  (markets : list string) (first : string) (others : list string)
  (rows : list row) (rest : list reply) (w : world) :
  let temp_dir := fragment_dir self date in
  let listed := Os.listing temp_dir (<[consolidated self date := File []]> (fs w)) in
  let fragments := scandir w listed in
  IndexFilter.filter (IceReport.market_filter self) markets = first :: others ->
  server w = results_reply date rows :: rest ->
  IceReport.cache_lookup (cache w) first time_period = None ->
  date <> EmptyString ->
  fs w !! temp_dir = Some Dir ->
  (forall m, In m (first :: others) ->
             exists c, fs w !! fragment self date m = Some (File c)) ->
  Path.has_magic temp_dir = false ->
  fs w !! consolidated self date <> Some Dir ->
  Permutation listed fragments ->
  Forall (fun p => readable (fs w) p = true) listed ->
  exists w',
    IceReport.dump_period self markets time_period w = (Return tt, w')
    /\ sent (trace w')
       = sent (trace w) ++ [results_request self first time_period (cookie w)]
    /\ server w' = rest
    /\ fs w' !! consolidated self date
       = Some (File (flat_map (rows_of (fs w)) fragments))
    /\ (forall m, In m (first :: others) -> In (fragment self date m) fragments
                                           \/ m = EmptyString)
    /\ (forall p, Os.under temp_dir p = true -> fs w' !! p = None).
Proof.
  intros temp_dir listed fragments Hsel Hs Hcache Hdate Hdir Hall Hmagic Hbase
    Hperm Hread.
  destruct (fragment_dir_shape self date) as [Hdne [Hdend Hout]].
  fold (consolidated self date) in Hout. fold temp_dir in Hdne, Hdend, Hout.
  pose proof (get_results_fresh self first time_period date rows rest w Hs Hcache)
    as Hget.
  destruct (Hall first (or_introl eq_refl)) as [c0 Hc0].
  unfold IceReport.dump_period, bind at 1. rewrite Hsel. cbn [for_fold].
  unfold bind at 1.
  set (w1 := set_cache (Some (first, time_period, (date, rows)))
               (set_server rest
                  (emit (results_request self first time_period (cookie w)) w)))
    in *.
  assert (Hfirst : IceReport.dump_market self time_period
                     (EmptyString, EmptyString) first w
                   = (Return (date, temp_dir),
                      emit (Print (MSkip first time_period)) w1)).
  { unfold IceReport.dump_market. cbn [fst snd Py.truthy negb].
    unfold bind at 1. unfold bind at 1. rewrite Hget. cbn [fst snd].
    fold (fragment_dir self date). fold temp_dir.
    unfold bind at 1, Os.makedirs.
    assert (fs w1 !! temp_dir = Some Dir) as -> by exact Hdir.
    unfold ret. unfold bind at 1, lift. rewrite encode_file_name.
    unfold ret, bind at 1, Os.isfile, get. cbn [fst snd].
    fold (fragment_path temp_dir (file_name first)).
    change (fragment_path temp_dir (file_name first)) with (fragment self date first).
    assert (fs w1 !! fragment self date first = Some (File c0)) as -> by exact Hc0.
    reflexivity. }
  rewrite Hfirst.
  rewrite (dump_markets_present self time_period date temp_dir others _ Hdate)
    by (intros m Hm; apply Hall; now right).
  cbn [fst snd fs cookie cache server stdin faults trace scandir emit w1 set_cache
       set_server].
  match goal with |- context [IceReport.dump_merge _ _ _ ?W] => set (w2 := W) end.
  destruct (dump_merge_general self date temp_dir w2)
    as (w' & Hrun & Hfrags & Hcontent & Hgone & _ & Htrace);
    try assumption.
  destruct (dump_merge_frame self date temp_dir w2) as [Hsrv _].
  rewrite Hrun in Hsrv. cbn [snd] in Hsrv.
  exists w'. split; [exact Hrun|]. split; [|split; [exact Hsrv|]].
  - rewrite Htrace. subst w2. cbn [trace].
    rewrite !sent_app, (sent_prints (fun p => MMerged p date)),
      (sent_prints (fun m => MSkip m time_period)).
    cbn. now rewrite !app_nil_r.
  - split; [exact Hcontent|]. split; [|exact Hgone].
    intros m Hm. destruct (String.eqb_spec m EmptyString) as [->|Hne]; [now right|].
    left. apply Hfrags. exists (file_name m +:+ ".csv").
    split; [apply fragment_shape|]. split; [now apply fragment_listed|].
    destruct (Hall m Hm) as [c Hc]. exists (File c). exact Hc.
Qed.

Lemma dump_period_resumed_witness :
  let w := MkWorld (<["pyce/Jan/~7/Qg.csv" := File [["b0"%string]]]> resumed_fs)
             None None [results_reply "Jan" [["a1"%string]]] []
             (fun _ => NoFault) [] (@rev string) in
  let listed := Os.listing (fragment_dir report7 "Jan")
                  (<[consolidated report7 "Jan" := File []]> (fs w)) in
  let fragments := rev listed in
  exists w',
    IceReport.dump_period report7 ["A"; "B"]%string "T0" w = (Return tt, w')
    /\ sent (trace w')
       = sent (trace w) ++ [results_request report7 "A" "T0" (cookie w)]
    /\ server w' = []
    /\ fs w' !! consolidated report7 "Jan"
       = Some (File (flat_map (rows_of (fs w)) fragments))
    /\ (forall m, In m ["A"; "B"]%string -> In (fragment report7 "Jan" m) fragments
                                            \/ m = EmptyString)
    /\ (forall p, Os.under (fragment_dir report7 "Jan") p = true -> fs w' !! p = None).
Proof.
  intros w listed fragments.
  apply (dump_period_resumed report7 "T0" "Jan" ["A"; "B"]%string "A" ["B"%string]
           [["a1"%string]] [] w).
  - reflexivity.
  - reflexivity.
  - reflexivity.
  - discriminate.
  - vm_compute. reflexivity.
  - intros m [<-|[<-|[]]]; eexists; vm_compute; reflexivity.
  - vm_compute. reflexivity.
  - vm_compute. discriminate.
  - apply Permutation_rev.
  - vm_compute. repeat constructor.
Defined.

(** ** [dump]: paths that are in the way *)

(** A file where the fragment directory should be stops the period at
    its first market: [os.makedirs] raises [FileExistsError] after the
    one POST that gave the label, and no file is touched.  A directory
    where the consolidated file should be stops the merge before any
    fragment is read: [open] raises [IsADirectoryError], and the
    fragment directory stays as it is, so that a rerun finds the
    fragments. *)
Theorem dump_blocked_paths (self : IceReport.t) (time_period market date : string) :
  (forall rows w w1 c,
     IceReport.get_results self market time_period w = (Return (date, rows), w1) ->
     fs w !! fragment_dir self date = Some (File c) ->
     IceReport.dump_market self time_period (EmptyString, EmptyString) market w
     = (Raise FileExistsError, w1)
     /\ fs w1 = fs w)
  /\ (forall w,
        fs w !! fragment_dir self date = Some Dir ->
        fs w !! consolidated self date = Some Dir ->
        IceReport.dump_merge self date (fragment_dir self date) w
        = (Raise IsADirectoryError, w)).
Proof.
  split.
  - intros rows w w1 c Hget Hfile.
    pose proof (get_results_frame self market time_period w) as [F _].
    rewrite Hget in F. cbn [snd] in F. split; [|exact F].
    unfold IceReport.dump_market. cbn [fst snd Py.truthy negb].
    unfold bind at 1. unfold bind at 1. rewrite Hget. cbn [fst snd].
    fold (fragment_dir self date).
    unfold bind at 1, Os.makedirs. rewrite F, Hfile. reflexivity.
  - intros w Hdir Hbase.
    destruct (fragment_dir_shape self date) as [Hne _].
    unfold IceReport.dump_merge, bind at 1, Os.isdir, get.
    rewrite Hdir, (truthy_nonempty _ Hne). cbn [andb].
    fold (consolidated self date).
    unfold bind at 1, Os.open_w. rewrite Hbase. reflexivity.
Qed.
